(** * ESP32 e-paper weather display: forecast pipeline and power-cycle scheduler

    A shallow embedding of the firmware's decoding, aggregation,
    classification, graph-layout and scheduling code, followed by the
    properties proved about it.  The target is the ESP32 (ILP32): [int] and
    [long] are 32-bit two's-complement integers, [float] is IEEE-754
    binary32 and [double] is binary64. *)

From Stdlib Require Import ZArith List String Ascii Bool Lia.
From Stdlib Require Import Floats.SpecFloat.
From stdpp Require Import base list.

Open Scope Z_scope.

(** ** C integer arithmetic *)

Module CInt.

Definition INT_MAX : Z := 2147483647.
Definition INT_MIN : Z := -2147483648.

(** Reduction of a mathematical integer to the 32-bit signed range. *)
Definition wrap32 (z : Z) : Z := (z + 2147483648) mod 4294967296 - 2147483648.

Definition add (a b : Z) : Z := wrap32 (a + b).
Definition sub (a b : Z) : Z := wrap32 (a - b).
Definition mul (a b : Z) : Z := wrap32 (a * b).

(** C99 division truncates toward zero; the remainder has the sign of the
    dividend.  A zero divisor traps on the target and is modelled at the
    call sites that can meet one. *)
Definition div (a b : Z) : Z := wrap32 (Z.quot a b).
Definition rem (a b : Z) : Z := Z.rem a b.

Definition in_range (z : Z) : Prop := INT_MIN <= z <= INT_MAX.

End CInt.

(** ** IEEE-754 arithmetic

    Values of both formats are [spec_float]s in canonical form for their
    format; operations are the correctly rounded (nearest-even) ones of the
    standard library's specification of floating-point arithmetic. *)

Module Flt.

(** Conversion to the format [(prec, emax)]: exact when widening, rounded
    to nearest-even when narrowing. *)
Definition convert (prec emax : Z) (x : spec_float) : spec_float :=
  match x with
  | S754_finite s m e => binary_normalize prec emax (cond_Zopp s (Zpos m)) e s
  | _ => x
  end.

Definition is_nan (x : spec_float) : bool :=
  match x with S754_nan => true | _ => false end.

(** C's [a < b] and [a > b]: false as soon as an operand is NaN. *)
Definition ltb (a b : spec_float) : bool := SFltb a b.
Definition gtb (a b : spec_float) : bool := SFltb b a.
Definition leb (a b : spec_float) : bool := SFleb a b.

(** The value truncated toward zero, when there is one. *)
Definition truncate (x : spec_float) : option Z :=
  match x with
  | S754_zero _ => Some 0
  | S754_finite s m e => Some (cond_Zopp s (Z.shiftl (Zpos m) e))
  | _ => None
  end.

(** The cast [(int)x].  C leaves it undefined when the truncated value is
    not an [int]; the model saturates, and maps NaN to 0. *)
Definition to_int (x : spec_float) : Z :=
  match x with
  | S754_nan => 0
  | S754_infinity s => if s then CInt.INT_MIN else CInt.INT_MAX
  | _ => match truncate x with
         | Some v => Z.max CInt.INT_MIN (Z.min CInt.INT_MAX v)
         | None => 0
         end
  end.

End Flt.

Module F32.
Definition prec : Z := 24.
Definition emax : Z := 128.
Definition add : spec_float -> spec_float -> spec_float := SFadd prec emax.
Definition sub : spec_float -> spec_float -> spec_float := SFsub prec emax.
Definition mul : spec_float -> spec_float -> spec_float := SFmul prec emax.
Definition div : spec_float -> spec_float -> spec_float := SFdiv prec emax.
Definition of_Z (z : Z) : spec_float := binary_normalize prec emax z 0 false.
Definition of_double : spec_float -> spec_float := Flt.convert prec emax.
Definition zero : spec_float := S754_zero false.
End F32.

Module F64.
Definition prec : Z := 53.
Definition emax : Z := 1024.
Definition add : spec_float -> spec_float -> spec_float := SFadd prec emax.
Definition sub : spec_float -> spec_float -> spec_float := SFsub prec emax.
Definition mul : spec_float -> spec_float -> spec_float := SFmul prec emax.
Definition div : spec_float -> spec_float -> spec_float := SFdiv prec emax.
Definition of_Z (z : Z) : spec_float := binary_normalize prec emax z 0 false.
Definition of_float : spec_float -> spec_float := Flt.convert prec emax.
(** The [double] nearest to the decimal literal [n / 10^k]. *)
Definition lit (n : Z) (k : Z) : spec_float := div (of_Z n) (of_Z (10 ^ k)).
End F64.

(** A [float] given by a decimal literal, as the compiler and the JSON
    accessor produce it: the nearest [double], narrowed to [float]. *)
Definition f32_lit (n k : Z) : spec_float := F32.of_double (F64.lit n k).

Definition d0_3 : spec_float := F64.lit 3 1.
Definition d0_5 : spec_float := F64.lit 5 1.
Definition d2_0 : spec_float := F64.lit 20 1.
Definition d10_0 : spec_float := F64.lit 100 1.
Definition d100_0 : spec_float := F64.lit 1000 1.

(** ** Persisted configuration (settings.h, settings.cpp) *)

Record Settings := mkSettings {
  ssid : string;
  password : string;
  apikey : string;
  City : string;
  Latitude : string;
  Longitude : string;
  Language : string;
  Units : string;
  SleepDuration : Z;   (* long: refresh interval in minutes *)
  WakeupHour : Z;      (* int: start of wake hours *)
  SleepHour : Z;       (* int: end of wake hours, 24 = never sleep *)
  magic : Z
}.

Definition SETTINGS_MAGIC : Z := 0x57454154.

Definition defaultSettings : Settings :=
  mkSettings "SSID" "Password" "APIKEY" "Chicago,IL,US" "41.8832" "87.6324"
             "en" "M" 60 0 24 SETTINGS_MAGIC.

(** ** Wall clock (main sketch) *)

(** The fields of [struct tm] the firmware reads. *)
Record tm := mkTm {
  tm_sec : Z;
  tm_min : Z;
  tm_hour : Z;
  tm_mday : Z;
  tm_yday : Z
}.

(** [CurrentHour], [CurrentMin], [CurrentSec]: globals, all 0 at boot. *)
Record Clock := mkClock {
  CurrentHour : Z;
  CurrentMin : Z;
  CurrentSec : Z
}.

Definition bootClock : Clock := mkClock 0 0 0.

(** Unix timestamp of 2000-01-01: below it the RTC counts as never set. *)
Definition RTC_EPOCH : Z := 946684800.

(** [UpdateLocalTime]: [now] is [time(NULL)], [timeinfo] the result of
    [localtime(&now)] ([None] for a null pointer).  The date and time
    strings it also formats are display text only and are left out. *)
Definition UpdateLocalTime (now : Z) (timeinfo : option tm) (c : Clock)
  : bool * Clock :=
  if now <? RTC_EPOCH then (false, c)
  else match timeinfo with
       | None => (false, c)
       | Some t => (true, mkClock (tm_hour t) (tm_min t) (tm_sec t))
       end.

(** The wake-hours decision of [setup]: the value of [WakeUp] and the
    clock globals after it. *)
Definition wakeDecision (s : Settings) (now : Z) (timeinfo : option tm)
  (c : Clock) : bool * Clock :=
  let rtcSet := now >=? RTC_EPOCH in
  if rtcSet then
    let c' := snd (UpdateLocalTime now timeinfo c) in
    let WakeUp :=
      if SleepHour s =? 24 then true
      else if WakeupHour s >? SleepHour s
           then (CurrentHour c' >=? WakeupHour s) || (CurrentHour c' <=? SleepHour s)
           else (CurrentHour c' >=? WakeupHour s) && (CurrentHour c' <=? SleepHour s) in
    (WakeUp, c')
  else (true, c).

(** RTC speed compensation offset, in seconds. *)
Definition Delta : Z := 30.

(** [BeginSleep]: the value of [SleepTimer] handed to the wake-up timer,
    [None] when [CurrentMin % SleepDuration] divides by zero. *)
Definition BeginSleep (s : Settings) (now : Z) (timeinfo : option tm)
  (c : Clock) : option Z :=
  let c' := snd (UpdateLocalTime now timeinfo c) in
  if SleepDuration s =? 0 then None
  else
    let minutesUntilNext :=
      CInt.sub (SleepDuration s) (CInt.rem (CurrentMin c') (SleepDuration s)) in
    let secondsUntilNext := CInt.sub (CInt.mul minutesUntilNext 60) (CurrentSec c') in
    Some (CInt.add secondsUntilNext Delta).

(** ** JSON documents (the ArduinoJson accessors the decoder uses) *)

#[local] Set Warnings "-register-all".

Inductive json :=
| JNull
| JBool (b : bool)
| JInt (z : Z)
| JFloat (d : spec_float)          (* stored as a double *)
| JString (s : string)
| JArray (l : list json)
| JObject (m : list (string * json)).

Module Json.

Fixpoint assoc (k : string) (m : list (string * json)) : json :=
  match m with
  | [] => JNull
  | (k', v) :: m' => if String.eqb k k' then v else assoc k m'
  end.

(** [j[k]]: null unless [j] is an object with member [k]. *)
Definition member (k : string) (j : json) : json :=
  match j with JObject m => assoc k m | _ => JNull end.

(** [j[i]]: null unless [j] is an array with an element [i]. *)
Definition element (i : nat) (j : json) : json :=
  match j with JArray l => nth i l JNull | _ => JNull end.

(** [JsonArray::size()]; a value that is not an array gives the null
    array, of size 0. *)
Definition size (j : json) : nat :=
  match j with JArray l => length l | _ => 0%nat end.

Definition isNull (j : json) : bool :=
  match j with JNull => true | _ => false end.

(** [JsonObject::isNull()] of [JsonObject o = j]. *)
Definition objectIsNull (j : json) : bool :=
  match j with JObject _ => false | _ => true end.

Definition int_in_range (z : Z) : bool :=
  (CInt.INT_MIN <=? z) && (z <=? CInt.INT_MAX).

(** [j.as<int>()]: 0 for what is not a number or does not fit. *)
Definition as_int (j : json) : Z :=
  match j with
  | JInt z => if int_in_range z then z else 0
  | JFloat d => match Flt.truncate d with
                | Some v => if int_in_range v then v else 0
                | None => 0
                end
  | JBool b => if b then 1 else 0
  | _ => 0
  end.

(** [j | dflt] at type [int]. *)
Definition int_or (j : json) (dflt : Z) : Z :=
  match j with
  | JInt z => if int_in_range z then z else dflt
  | JFloat d => match Flt.truncate d with
                | Some v => if int_in_range v then v else dflt
                | None => dflt
                end
  | _ => dflt
  end.

(** [j.as<float>()]. *)
Definition as_float (j : json) : spec_float :=
  match j with
  | JInt z => F32.of_Z z
  | JFloat d => F32.of_double d
  | JBool b => if b then F32.of_Z 1 else F32.zero
  | _ => F32.zero
  end.

(** [j.as<const char*>()] assigned to a [String]: empty for a null
    pointer. *)
Definition as_string (j : json) : string :=
  match j with JString s => s | _ => EmptyString end.

End Json.

(** ** Forecast records and the decoder (main sketch) *)

(** Modelled from the spec: [Forecast_record_type] of forecast_record.h,
    which is not among the sources.  The fields are those the sources
    read and write, with the types of the spec's data model: timestamps,
    cloud cover, visibility and the timezone offset are [int]s, icon,
    description and trend are [String]s, the other measurements are
    [float]s. *)
Record Forecast_record := mkFR {
  Dt : Z;
  Icon : string;
  Trend : string;
  Forecast0 : string;
  Temperature : spec_float;
  FeelsLike : spec_float;
  Humidity : spec_float;
  High : spec_float;
  Low : spec_float;
  Winddir : spec_float;
  Windspeed : spec_float;
  Rainfall : spec_float;
  Snowfall : spec_float;
  Pop : spec_float;
  Pressure : spec_float;
  Cloudcover : Z;
  Visibility : Z;
  Sunrise : Z;
  Sunset : Z;
  FTimezone : Z
}.

(** A zero-initialised record, as the global arrays hold at boot. *)
Definition FR0 : Forecast_record :=
  mkFR 0 EmptyString EmptyString EmptyString
       F32.zero F32.zero F32.zero F32.zero F32.zero F32.zero F32.zero
       F32.zero F32.zero F32.zero F32.zero 0 0 0 0 0.

Definition max_hourly_readings : nat := 48.
Definition max_daily_readings : nat := 8.

(** The globals the decoder writes: the three collections, the system
    time and the [TZ] environment variable. *)
Record Globals := mkGlobals {
  WxConditions : Forecast_record;
  WxHourlyForecast : list Forecast_record;
  WxDailyForecast : list Forecast_record;
  sys_time : Z;
  TZ : string
}.

Definition bootGlobals : Globals :=
  mkGlobals FR0 (replicate max_hourly_readings FR0)
            (replicate max_daily_readings FR0) 0 EmptyString.

Definition digit_char (d : Z) : ascii := ascii_of_nat (48 + Z.to_nat d).

Fixpoint dec_digits (fuel : nat) (n : Z) (acc : string) : string :=
  match fuel with
  | O => acc
  | S fuel' =>
      let acc' := String (digit_char (n mod 10)) acc in
      if n / 10 =? 0 then acc' else dec_digits fuel' (n / 10) acc'
  end.

(** [%d] of an [int]. *)
Definition string_of_int (z : Z) : string :=
  if z <? 0 then String "-" (dec_digits 10 (- z) EmptyString)
  else dec_digits 10 z EmptyString.

(** [SetRTCTimeFromAPI]: the system time and the [TZ] string it sets. *)
Definition SetRTCTimeFromAPI (apiTime timezoneOffset : Z) (g : Globals) : Globals :=
  let offsetHours := CInt.div timezoneOffset 3600 in
  let tzString :=
    if offsetHours >=? 0 then String.append "GMT+" (string_of_int offsetHours)
    else String.append "GMT" (string_of_int offsetHours) in
  mkGlobals (WxConditions g) (WxHourlyForecast g) (WxDailyForecast g)
            apiTime tzString.

(** The assignments to [WxConditions[0]] from the [current] object. *)
Definition decodeCurrent (current : json) (timezoneOffset apiTime : Z)
  (c : Forecast_record) : Forecast_record :=
  mkFR apiTime
       (Json.as_string (Json.member "icon" (Json.element 0 (Json.member "weather" current))))
       (Trend c)
       (Json.as_string (Json.member "description" (Json.element 0 (Json.member "weather" current))))
       (Json.as_float (Json.member "temp" current))
       (Json.as_float (Json.member "feels_like" current))
       (F32.of_Z (Json.as_int (Json.member "humidity" current)))
       (High c)
       (Low c)
       (Json.as_float (Json.member "wind_deg" current))
       (Json.as_float (Json.member "wind_speed" current))
       (Rainfall c)
       (Snowfall c)
       (Pop c)
       (F32.of_Z (Json.as_int (Json.member "pressure" current)))
       (Json.as_int (Json.member "clouds" current))
       (Json.as_int (Json.member "visibility" current))
       (Json.as_int (Json.member "sunrise" current))
       (Json.as_int (Json.member "sunset" current))
       timezoneOffset.

Definition setHighLow (hi lo : spec_float) (c : Forecast_record) : Forecast_record :=
  mkFR (Dt c) (Icon c) (Trend c) (Forecast0 c) (Temperature c) (FeelsLike c)
       (Humidity c) hi lo (Winddir c) (Windspeed c) (Rainfall c) (Snowfall c)
       (Pop c) (Pressure c) (Cloudcover c) (Visibility c) (Sunrise c)
       (Sunset c) (FTimezone c).

Definition setTrend (t : string) (c : Forecast_record) : Forecast_record :=
  mkFR (Dt c) (Icon c) t (Forecast0 c) (Temperature c) (FeelsLike c)
       (Humidity c) (High c) (Low c) (Winddir c) (Windspeed c) (Rainfall c)
       (Snowfall c) (Pop c) (Pressure c) (Cloudcover c) (Visibility c)
       (Sunrise c) (Sunset c) (FTimezone c).

(** The body of the hourly loop: the assignments to [WxHourlyForecast[r]]
    from [hourly[r]]. *)
Definition decodeHourly (h : json) (c : Forecast_record) : Forecast_record :=
  mkFR (Json.as_int (Json.member "dt" h))
       (Json.as_string (Json.member "icon" (Json.element 0 (Json.member "weather" h))))
       (Trend c)
       (Forecast0 c)
       (Json.as_float (Json.member "temp" h))
       (FeelsLike c)
       (Json.as_float (Json.member "humidity" h))
       (Json.as_float (Json.member "temp" h))
       (Json.as_float (Json.member "temp" h))
       (Json.as_float (Json.member "wind_deg" h))
       (Json.as_float (Json.member "wind_speed" h))
       (if Json.isNull (Json.member "rain" h)
           || Json.isNull (Json.member "1h" (Json.member "rain" h))
        then F32.zero
        else Json.as_float (Json.member "1h" (Json.member "rain" h)))
       (if Json.isNull (Json.member "snow" h)
           || Json.isNull (Json.member "1h" (Json.member "snow" h))
        then F32.zero
        else Json.as_float (Json.member "1h" (Json.member "snow" h)))
       (Json.as_float (Json.member "pop" h))
       (Json.as_float (Json.member "pressure" h))
       (Json.as_int (Json.member "clouds" h))
       (Visibility c)
       (Sunrise c)
       (Sunset c)
       (FTimezone c).

(** The body of the daily loop. *)
Definition decodeDaily (day : json) (c : Forecast_record) : Forecast_record :=
  let temp := Json.member "temp" day in
  mkFR (Json.as_int (Json.member "dt" day))
       (Json.as_string (Json.member "icon" (Json.element 0 (Json.member "weather" day))))
       (Trend c)
       (Forecast0 c)
       (Json.as_float (Json.member "day" temp))
       (FeelsLike c)
       (Json.as_float (Json.member "humidity" day))
       (Json.as_float (Json.member "max" temp))
       (Json.as_float (Json.member "min" temp))
       (Json.as_float (Json.member "wind_deg" day))
       (Json.as_float (Json.member "wind_speed" day))
       (if Json.isNull (Json.member "rain" day) then F32.zero
        else Json.as_float (Json.member "rain" day))
       (if Json.isNull (Json.member "snow" day) then F32.zero
        else Json.as_float (Json.member "snow" day))
       (Json.as_float (Json.member "pop" day))
       (Json.as_float (Json.member "pressure" day))
       (Json.as_int (Json.member "clouds" day))
       (Visibility c)
       (Json.as_int (Json.member "sunrise" day))
       (Json.as_int (Json.member "sunset" day))
       (FTimezone c).

(** [for (byte r = 0; r < capacity && r < src.size(); r++) arr[r] = ...]:
    [fuel] bounds the iterations left, [r] is the loop counter. *)
Fixpoint decodeLoop (body : json -> Forecast_record -> Forecast_record)
  (capacity : nat) (src : json) (fuel : nat) (r : nat)
  (arr : list Forecast_record) : list Forecast_record :=
  match fuel with
  | O => arr
  | S fuel' =>
      if (r <? capacity)%nat && (r <? Json.size src)%nat
      then decodeLoop body capacity src fuel' (S r)
                      (alter (body (Json.element r src)) r arr)
      else arr
  end.

(** The pressure-trend block.  [pressureDelta] is the value of
    [pressure_trend] after the line commented "Round to 0.1 hPa":
    [((int)(pressure_trend * 10)) / 10.0], stored as a [float]. *)
Definition pressureDelta (p0 p1 : spec_float) : spec_float :=
  let pressure_trend := F32.sub p0 p1 in
  F32.of_double
    (F64.div (F64.of_Z (Flt.to_int (F32.mul pressure_trend (F32.of_Z 10))))
             d10_0).

(** The new value of [WxConditions[0].Trend] from the pressures of the
    first two daily records. *)
Definition pressureTrend (p0 p1 : spec_float) : string :=
  let pressure_trend := pressureDelta p0 p1 in
  let trend := "="%string in
  let trend := if Flt.gtb pressure_trend (F32.of_Z 0) then "+"%string else trend in
  let trend := if Flt.ltb pressure_trend (F32.of_Z 0) then "-"%string else trend in
  trend.

(** [DecodeWeather]: [stream] is the document [deserializeJson] yields,
    [None] when it reports an error. *)
Definition DecodeWeather (stream : option json) (g : Globals) : bool * Globals :=
  match stream with
  | None => (false, g)
  | Some root =>
      let current := Json.member "current" root in
      let g1 :=
        if Json.objectIsNull current then g
        else
          let timezoneOffset := Json.int_or (Json.member "timezone_offset" root) 0 in
          let apiTime := Json.as_int (Json.member "dt" current) in
          let c := decodeCurrent current timezoneOffset apiTime (WxConditions g) in
          let g' := SetRTCTimeFromAPI apiTime timezoneOffset
                      (mkGlobals c (WxHourlyForecast g) (WxDailyForecast g)
                                 (sys_time g) (TZ g)) in
          let daily := Json.member "daily" root in
          if (0 <? Json.size daily)%nat then
            let temp := Json.member "temp" (Json.element 0 daily) in
            mkGlobals (setHighLow (Json.as_float (Json.member "max" temp))
                                  (Json.as_float (Json.member "min" temp))
                                  (WxConditions g'))
                      (WxHourlyForecast g') (WxDailyForecast g')
                      (sys_time g') (TZ g')
          else g' in
      let hourly := Json.member "hourly" root in
      let g2 :=
        mkGlobals (WxConditions g1)
                  (decodeLoop decodeHourly max_hourly_readings hourly
                              max_hourly_readings 0 (WxHourlyForecast g1))
                  (WxDailyForecast g1) (sys_time g1) (TZ g1) in
      let daily := Json.member "daily" root in
      let g3 :=
        mkGlobals (WxConditions g2) (WxHourlyForecast g2)
                  (decodeLoop decodeDaily max_daily_readings daily
                              max_daily_readings 0 (WxDailyForecast g2))
                  (sys_time g2) (TZ g2) in
      let g4 :=
        if (2 <=? Json.size daily)%nat then
          let p0 := Pressure (nth 0 (WxDailyForecast g3) FR0) in
          let p1 := Pressure (nth 1 (WxDailyForecast g3) FR0) in
          mkGlobals (setTrend (pressureTrend p0 p1) (WxConditions g3))
                    (WxHourlyForecast g3) (WxDailyForecast g3)
                    (sys_time g3) (TZ g3)
        else g3 in
      (true, g4)
  end.

(** ** Fetching within one wake cycle (main sketch) *)

Record HttpReply := mkReply {
  httpCode : Z;
  httpStream : option json   (* what [deserializeJson] makes of the body *)
}.

(** The server as the cycle meets it: the reply to the [k]-th GET. *)
Definition Network := nat -> HttpReply.

Record World := mkWorld {
  globals : Globals;
  http_gets : nat            (* GET requests issued so far *)
}.

Definition HTTP_CODE_OK : Z := 200.

(** [obtainWeatherData]: 0 = success, 1 = API key invalid (401),
    2 = other error. *)
Definition obtainWeatherData (net : Network) (w : World) : Z * World :=
  let reply := net (http_gets w) in
  let n := S (http_gets w) in
  if httpCode reply =? HTTP_CODE_OK then
    let r := DecodeWeather (httpStream reply) (globals w) in
    if negb (fst r) then (2, mkWorld (snd r) n)
    else (0, mkWorld (snd r) n)
  else
    if httpCode reply =? 401 then (1, mkWorld (globals w) n)
    else (2, mkWorld (globals w) n).

(** The retry loop of [setup]:
    [while (weatherResult != 0 && Attempts <= 2) { ...; Attempts++; }]
    with [byte Attempts].  [None]: out of fuel. *)
Fixpoint fetchLoop (fuel : nat) (net : Network) (weatherResult Attempts : Z)
  (w : World) : option (Z * Z * World) :=
  if negb (weatherResult =? 0) && (Attempts <=? 2) then
    match fuel with
    | O => None
    | S fuel' =>
        let rw :=
          if negb (weatherResult =? 0) then obtainWeatherData net w
          else (weatherResult, w) in
        fetchLoop fuel' net (fst rw) ((Attempts + 1) mod 256) (snd rw)
    end
  else Some (weatherResult, Attempts, w).

Inductive Screen := WeatherScreen | InvalidAPIKeyScreen | WiFiErrorScreen.

(** What [setup] draws after the loop. *)
Definition screenFor (weatherResult : Z) : Screen :=
  if weatherResult =? 0 then WeatherScreen
  else if weatherResult =? 1 then InvalidAPIKeyScreen
  else WiFiErrorScreen.

(** The [WakeUp] branch of [setup]: fetch with [Attempts = 1],
    [weatherResult = 2], then pick the screen. *)
Definition fetchAndDraw (fuel : nat) (net : Network) (w : World)
  : option (Screen * World) :=
  match fetchLoop fuel net 2 1 w with
  | Some (weatherResult, _, w') => Some (screenFor weatherResult, w')
  | None => None
  end.

(** ** The setup form's save handler (setup_mode.cpp) *)

Module Setup.

Definition is_space (c : ascii) : bool :=
  let n := nat_of_ascii c in
  (n =? 32)%nat || ((9 <=? n)%nat && (n <=? 13)%nat).

Definition digit_of (c : ascii) : option Z :=
  let n := Z.of_nat (nat_of_ascii c) in
  if (48 <=? n) && (n <=? 57) then Some (n - 48) else None.

Fixpoint skip_spaces (s : string) : string :=
  match s with
  | String c s' => if is_space c then skip_spaces s' else s
  | EmptyString => s
  end.

Fixpoint parse_digits (s : string) (acc : Z) : Z :=
  match s with
  | String c s' =>
      match digit_of c with
      | Some d => parse_digits s' (acc * 10 + d)
      | None => acc
      end
  | EmptyString => acc
  end.

Definition clamp_long (z : Z) : Z := Z.max CInt.INT_MIN (Z.min CInt.INT_MAX z).

(** [String::toInt], that is [atol]: leading blanks, an optional sign, then
    the longest run of digits; 0 when there is none; out-of-range values
    are clamped. *)
Definition toInt (s : string) : Z :=
  match skip_spaces s with
  | String "-" s' => clamp_long (- parse_digits s' 0)
  | String "+" s' => clamp_long (parse_digits s' 0)
  | s' => clamp_long (parse_digits s' 0)
  end.

(** The parameters [extractParam] pulls out of the request. *)
Record Form := mkForm {
  f_apiKey : string;
  f_ssid : string;
  f_password : string;
  f_location : string;
  f_units : string;
  f_frequency : string;
  f_startHour : string;
  f_stopHour : string
}.

Inductive SaveResult :=
| ValidationError (errorMessage : string)
| Saved (persisted : Settings).

Definition nonempty (s : string) : bool := (0 <? String.length s)%nat.
Definition longer_than (s : string) (n : nat) : bool := (n <? String.length s)%nat.

(** [strncpy(dst, src, n); dst[n] = 0]. *)
Definition strncpy (src : string) (n : nat) : string := substring 0 n src.

(** One validation step: the flag and the message so far. *)
Definition flag (cond : bool) (msg : string) (st : bool * string) : bool * string :=
  if cond then (true, String.append (snd st) msg) else st.

(** The "/save" branch of [runSetupMode], from the validation to
    [saveSettings]: either the error page, or the record written to the
    preferences store. *)
Definition saveHandler (settings : Settings) (f : Form) : SaveResult :=
  let st := (false, EmptyString) in
  let st := flag (longer_than (f_apiKey f) 63)
                 "API Key too long (max 63 characters). " st in
  let st := flag (longer_than (f_ssid f) 63)
                 "WiFi SSID too long (max 63 characters). " st in
  let st := flag (longer_than (f_password f) 63)
                 "WiFi Password too long (max 63 characters). " st in
  let st := flag (longer_than (f_location f) 127)
                 "Location too long (max 127 characters). " st in
  let st := flag (nonempty (f_units f)
                  && negb (String.eqb (f_units f) "I")
                  && negb (String.eqb (f_units f) "M"))
                 "Invalid Units value (must be 'I' or 'M'). " st in
  (* update frequency *)
  let sleepDuration := SleepDuration settings in
  let sleepDuration :=
    if nonempty (f_frequency f) then
      let sleepDuration := toInt (f_frequency f) in
      if (sleepDuration <=? 0) || (sleepDuration >=? 1440) then 60 else sleepDuration
    else
      if (sleepDuration <=? 0) || (sleepDuration >=? 1440) then 60 else sleepDuration in
  (* start hour *)
  let wakeupHour := WakeupHour settings in
  let '(wakeupHour, st) :=
    if nonempty (f_startHour f) then
      if String.eqb (f_startHour f) "none" then (0, st)
      else
        let hour := toInt (f_startHour f) in
        if (hour <? 0) || (hour >? 23)
        then (wakeupHour,
              flag true "Invalid Start Hour (must be 0-23 or 'none'). " st)
        else (hour, st)
    else (wakeupHour, st) in
  (* stop hour *)
  let sleepHour := SleepHour settings in
  let '(sleepHour, st) :=
    if nonempty (f_stopHour f) then
      if String.eqb (f_stopHour f) "none" then (24, st)
      else
        let hour := toInt (f_stopHour f) in
        if (hour <? 1) || (hour >? 23)
        then (sleepHour,
              flag true "Invalid Stop Hour (must be 1-23 or 'none'). " st)
        else (hour, st)
    else (sleepHour, st) in
  let validationError := fst st in
  let errorMessage := snd st in
  (* start hour must be below stop hour, unless the stop hour is 24 *)
  let sleepHour :=
    if negb validationError && negb (sleepHour =? 24) then
      if wakeupHour >=? sleepHour then wakeupHour else sleepHour
    else sleepHour in
  if validationError then ValidationError errorMessage
  else
    Saved (mkSettings
             (strncpy (f_ssid f) 63)
             (strncpy (f_password f) 63)
             (strncpy (f_apiKey f) 63)
             (strncpy (f_location f) 127)
             (strncpy "-181" 15)
             (strncpy "-181" 15)
             (Language settings)
             (if nonempty (f_units f)
                 && (String.eqb (f_units f) "I" || String.eqb (f_units f) "M")
              then f_units f else Units settings)
             sleepDuration wakeupHour sleepHour SETTINGS_MAGIC).

(** The success path of [validateAndGeocodeLocation]: only the
    coordinates change before [saveSettings]. *)
Definition geocoded (s : Settings) (lat lon : string) : Settings :=
  mkSettings (ssid s) (password s) (apikey s) (City s)
             (strncpy lat 15) (strncpy lon 15) (Language s) (Units s)
             (SleepDuration s) (WakeupHour s) (SleepHour s) SETTINGS_MAGIC.

(** The settings a device can hold: the defaults of first boot, then
    whatever the save handler and the geocoder persist. *)
Inductive reachable : Settings -> Prop :=
| reach_default : reachable defaultSettings
| reach_save s f s' : reachable s -> saveHandler s f = Saved s' -> reachable s'
| reach_geocode s lat lon : reachable s -> reachable (geocoded s lat lon).

(** The ranges the configuration is meant to keep. *)
Definition hours_ok (s : Settings) : Prop :=
  0 <= WakeupHour s <= 23 /\ (SleepHour s = 24 \/ 1 <= SleepHour s <= 23).

Definition settings_ok (s : Settings) : Prop :=
  1 <= SleepDuration s <= 1439 /\
  0 <= WakeupHour s <= 23 /\
  (SleepHour s = 24 \/ 1 <= SleepHour s <= 23) /\
  (SleepHour s = 24 \/ WakeupHour s <= SleepHour s).

End Setup.

(** ** Icon classification (renderer.cpp) *)

(** [x > lit] for a [float] [x] and a [double] literal: [x] is promoted. *)
Definition exceeds (x lit : spec_float) : bool := Flt.gtb (F64.of_float x) lit.

(** [String(code) + dayNight]. *)
Definition iconCode (code : string) (isDay : bool) : string :=
  String.append code (if isDay then "d" else "n").

Definition getIconFromCloudCover (avgCloudCover : Z)
  (maxPop totalRainfall totalSnowfall : spec_float) (isDay : bool) : string :=
  if exceeds totalSnowfall d0_5 then iconCode "13" isDay
  else if exceeds maxPop d0_5 || exceeds totalRainfall d2_0 then iconCode "11" isDay
  else if exceeds maxPop d0_3 || exceeds totalRainfall d0_5 then iconCode "10" isDay
  else if avgCloudCover <=? 10 then iconCode "01" isDay
  else if avgCloudCover <=? 25 then iconCode "02" isDay
  else if avgCloudCover <=? 50 then iconCode "03" isDay
  else if avgCloudCover <=? 75 then iconCode "04" isDay
  else iconCode "04" isDay.

(** ** Daily aggregation (the grouping loop of [drawForecast]) *)

Record DailyForecast := mkDF {
  highTemp : spec_float;
  lowTemp : spec_float;
  totalCloudCover : Z;
  cloudCoverCount : Z;
  maxPop : spec_float;
  totalRainfall : spec_float;
  totalSnowfall : spec_float;
  firstPeriodIndex : Z;
  dayTime : Z
}.

Definition DF0 : DailyForecast :=
  mkDF F32.zero F32.zero 0 0 F32.zero F32.zero F32.zero 0 0.

(** "Initialize new day with first period's data". *)
Definition newDay (i : nat) (f : Forecast_record) : DailyForecast :=
  mkDF (High f) (Low f) (Cloudcover f) 1 (Pop f) (Rainfall f) (Snowfall f)
       (Z.of_nat i) (Dt f).

(** "Same day - aggregate statistics". *)
Definition sameDay (f : Forecast_record) (d : DailyForecast) : DailyForecast :=
  mkDF (if Flt.gtb (High f) (highTemp d) then High f else highTemp d)
       (if Flt.ltb (Low f) (lowTemp d) then Low f else lowTemp d)
       (CInt.add (totalCloudCover d) (Cloudcover f))
       (CInt.add (cloudCoverCount d) 1)
       (if Flt.gtb (Pop f) (maxPop d) then Pop f else maxPop d)
       (F32.add (totalRainfall d) (Rainfall f))
       (F32.add (totalSnowfall d) (Snowfall f))
       (firstPeriodIndex d)
       (dayTime d).

(** [totalCloudCover /= cloudCoverCount]. *)
Definition average (d : DailyForecast) : DailyForecast :=
  mkDF (highTemp d) (lowTemp d)
       (CInt.div (totalCloudCover d) (cloudCoverCount d))
       (cloudCoverCount d) (maxPop d) (totalRainfall d) (totalSnowfall d)
       (firstPeriodIndex d) (dayTime d).

(** "Finalize ... cloud cover average" of the day before [dayCount]. *)
Definition finalizeLast (dayCount : nat) (days : list DailyForecast)
  : list DailyForecast :=
  if (0 <? dayCount)%nat
     && (0 <? cloudCoverCount (nth (dayCount - 1) days DF0))
  then alter average (dayCount - 1)%nat days
  else days.

Record AggState := mkAgg {
  dailyForecasts : list DailyForecast;   (* DailyForecast dailyForecasts[5] *)
  dayCount : nat;
  lastDayOfYear : Z
}.

(** The grouping loop, from period [i] on; [yday t] is
    [localtime(&t)->tm_yday].  Leaving the recursion is the [break]. *)
Fixpoint groupLoop (yday : Z -> Z) (forecast : list Forecast_record) (i : nat)
  (st : AggState) : AggState :=
  match forecast with
  | [] => st
  | f :: rest =>
      let forecastDayOfYear := yday (Dt f) in
      if negb (forecastDayOfYear =? lastDayOfYear st) then
        if (dayCount st <? 5)%nat then
          let days := finalizeLast (dayCount st) (dailyForecasts st) in
          let days := <[dayCount st := newDay i f]> days in
          groupLoop yday rest (S i) (mkAgg days (S (dayCount st)) forecastDayOfYear)
        else st
      else
        if (0 <? dayCount st)%nat then
          groupLoop yday rest (S i)
                    (mkAgg (alter (sameDay f) (dayCount st - 1)%nat (dailyForecasts st))
                           (dayCount st) (lastDayOfYear st))
        else groupLoop yday rest (S i) st
  end.

(** The daily summaries [drawForecast] goes on to display: entries
    [0 .. dayCount-1] of the array after the loop and the last
    finalisation.  [uninit] is the indeterminate initial content of the
    local array. *)
Definition aggregateDaily (yday : Z -> Z) (forecast : list Forecast_record)
  (uninit : list DailyForecast) : list DailyForecast :=
  let st := groupLoop yday forecast 0 (mkAgg uninit 0 (-1)) in
  take (dayCount st) (finalizeLast (dayCount st) (dailyForecasts st)).

(** *** The aggregation as the specification words it *)

(** Periods with their positions in the sequence. *)
Definition indexed (i : nat) (l : list Forecast_record) : list (nat * Forecast_record) :=
  zip (seq i (length l)) l.

(** Left-to-right split into runs of equal day-of-year: [open] is the run
    under way, of day [d]; a period of another day closes it. *)
Fixpoint runsFrom (yday : Z -> Z) (d : Z) (open : list (nat * Forecast_record))
  (l : list (nat * Forecast_record)) : list (list (nat * Forecast_record)) :=
  match l with
  | [] => [open]
  | x :: l' =>
      if yday (Dt (snd x)) =? d then runsFrom yday d (open ++ [x]) l'
      else open :: runsFrom yday (yday (Dt (snd x))) [x] l'
  end.

Definition dayRuns (yday : Z -> Z) (l : list (nat * Forecast_record))
  : list (list (nat * Forecast_record)) :=
  match l with
  | [] => []
  | x :: l' => runsFrom yday (yday (Dt (snd x))) [x] l'
  end.

(** Running maximum and minimum with the comparisons of the code. *)
Definition fmax (a x : spec_float) : spec_float := if Flt.gtb x a then x else a.
Definition fmin (a x : spec_float) : spec_float := if Flt.ltb x a then x else a.

(** The summary of one day: maximum of the highs, minimum of the lows,
    mean cloud cover (sum / count, an integer quotient), maximal
    precipitation probability, summed rain and snow, and the position and
    timestamp of the day's first period. *)
Definition summary (run : list (nat * Forecast_record)) : DailyForecast :=
  match run with
  | [] => DF0
  | (i, f) :: rest =>
      let fs := map snd rest in
      mkDF (fold_left fmax (map High fs) (High f))
           (fold_left fmin (map Low fs) (Low f))
           (Z.quot (fold_left Z.add (map Cloudcover fs) (Cloudcover f))
                   (Z.of_nat (length run)))
           (Z.of_nat (length run))
           (fold_left fmax (map Pop fs) (Pop f))
           (fold_left F32.add (map Rainfall fs) (Rainfall f))
           (fold_left F32.add (map Snowfall fs) (Snowfall f))
           (Z.of_nat i)
           (Dt f)
  end.

(** At most five days, in order. *)
Definition dailySummaries (yday : Z -> Z) (forecast : list Forecast_record)
  : list DailyForecast :=
  take 5 (map summary (dayRuns yday (indexed 0 forecast))).

(** ** The 24-hour graph ([drawOutlookGraph]) *)

Module Graph.

Definition HOURS_TO_SHOW : Z := 24.
Definition SECONDS_PER_HOUR : Z := 3600.

Definition graphX : Z := 240.
Definition graphY : Z := 255.
Definition graphWidth : Z := 665.
Definition graphHeight : Z := 230.

(** The filter loop: [valid] is [validForecastIndices[0 .. forecastCount-1]],
    [i] the index of the head of [forecast]. *)
Fixpoint selectLoop (now cutoffTime : Z) (forecast : list Forecast_record)
  (i : nat) (valid : list nat) : list nat :=
  match forecast with
  | [] => valid
  | f :: rest =>
      if (length valid <? 24)%nat then
        if (Dt f >=? now - SECONDS_PER_HOUR) && (Dt f <=? cutoffTime)
        then selectLoop now cutoffTime rest (S i) (valid ++ [i])
        else selectLoop now cutoffTime rest (S i) valid
      else valid
  end.

(** The selected indices, with the fallback to the first entry. *)
Definition selectForecasts (now : Z) (forecast : list Forecast_record) : list nat :=
  let cutoffTime := now + HOURS_TO_SHOW * SECONDS_PER_HOUR in
  let valid := selectLoop now cutoffTime forecast 0 [] in
  if (length valid =? 0)%nat && (0 <? length forecast)%nat then [0%nat] else valid.






(** Left edge, right edge and width of bar [i] of [forecastCount]. *)
Definition barX (gx gw forecastCount i : Z) : Z :=
  CInt.add gx (CInt.div (CInt.mul i gw) forecastCount).

Definition nextBarX (gx gw forecastCount i : Z) : Z :=
  if i <? CInt.sub forecastCount 1
  then CInt.add gx (CInt.div (CInt.mul (CInt.add i 1) gw) forecastCount)
  else CInt.add gx gw.

Definition currentBarWidth (gx gw forecastCount i : Z) : Z :=
  CInt.sub (nextBarX gx gw forecastCount i) (barX gx gw forecastCount i).

(** Height of the bar for precipitation probability [pop]. *)
Definition barHeight (gh : Z) (pop : spec_float) : Z :=
  let rainPercent := F32.of_double (F64.mul (F64.of_float pop) d100_0) in
  let rainPercent :=
    F32.of_double
      (if Flt.gtb (F64.of_float rainPercent) d100_0 then d100_0
       else if Flt.ltb (F64.of_float rainPercent) (S754_zero false)
            then S754_zero false
            else F64.of_float rainPercent) in
  let rainRatio := F32.of_double (F64.div (F64.of_float rainPercent) d100_0) in
  Flt.to_int (F32.mul rainRatio (F32.of_Z gh)).

(** The rectangles [(x, y, width, height)] handed to [epd_fill_rect]. *)
Definition drawBars (gx gy gw gh : Z) (forecast : list Forecast_record)
  (valid : list nat) : list (Z * Z * Z * Z) :=
  let forecastCount := Z.of_nat (length valid) in
  omap (fun r => r)
       (imap (fun i idx =>
                let h := barHeight gh (Pop (nth idx forecast FR0)) in
                if h >? 0
                then Some (barX gx gw forecastCount (Z.of_nat i),
                           CInt.sub (CInt.add gy gh) h,
                           currentBarWidth gx gw forecastCount (Z.of_nat i), h)
                else None)
             valid).

(** The widths of all [forecastCount] columns, left to right. *)
Definition barWidths (gx gw forecastCount : Z) : list Z :=
  map (fun i => currentBarWidth gx gw forecastCount (Z.of_nat i))
      (seq 0 (Z.to_nat forecastCount)).

End Graph.

Definition sumZ (l : list Z) : Z := fold_right Z.add 0 l.

(** ** Auxiliary notions for the proofs *)

(** The day under way as the loop holds it: the first period's data, then
    one [sameDay] per later period; the cloud cover is still a sum. *)
Definition accum (run : list (nat * Forecast_record)) : DailyForecast :=
  match run with
  | [] => DF0
  | (i, f) :: rest => fold_left (fun d x => sameDay (snd x) d) rest (newDay i f)
  end.

(** Cloud cover as a percentage. *)
Definition percent (z : Z) : Prop := 0 <= z <= 100.

(** A value that is not NaN; comparisons order such values totally. *)
Definition ordered (x : spec_float) : Prop := Flt.is_nan x = false.

(** A position on the extended line that [SFcompare] compares
    lexicographically: class (negative infinity, negative, zero, positive,
    positive infinity), then exponent, then mantissa. *)
Definition fkey (x : spec_float) : Z * Z * Z :=
  match x with
  | S754_infinity true => (-2, 0, 0)
  | S754_finite true m e => (-1, - e, - Zpos m)
  | S754_zero _ => (0, 0, 0)
  | S754_nan => (0, 0, 0)
  | S754_finite false m e => (1, e, Zpos m)
  | S754_infinity false => (2, 0, 0)
  end.

Definition lexlt (p q : Z * Z * Z) : Prop :=
  let '(a1, b1, c1) := p in
  let '(a2, b2, c2) := q in
  a1 < a2 \/ (a1 = a2 /\ (b1 < b2 \/ (b1 = b2 /\ c1 < c2))).

(** A server that answers every request with 401 Unauthorized. *)
Definition always401 : Network := fun _ => mkReply 401 None.

(** Sample data: a period at time [dt] with temperature [t] (as high and
    low, the way hourly records are stored) and cloud cover [cloud]. *)
Definition period (dt : Z) (t : spec_float) (cloud : Z) : Forecast_record :=
  mkFR dt EmptyString EmptyString EmptyString t F32.zero F32.zero t t
       F32.zero F32.zero F32.zero F32.zero F32.zero F32.zero cloud 0 0 0 0.

(** Day-of-year of a timestamp in a year that starts at time 0, in UTC. *)
Definition utc_yday (t : Z) : Z := (t / 86400) mod 365.

(** Boundary [i] of the [n] pixel columns over a chart of width [gw] that
    starts at [gx]. *)
Definition columnEdge (gx gw n i : Z) : Z := gx + (i * gw) / n.

(** Sample documents. *)

(** An hourly entry that carries only its timestamp. *)
Definition hourlyEntry (dt : Z) : json := JObject [("dt"%string, JInt dt)].

(** A document whose [hourly] array has [n] entries, stamped
    [1000, 1001, ...]. *)
Definition hourlyDoc (n : nat) : json :=
  JObject [("hourly"%string,
            JArray (map (fun i => hourlyEntry (1000 + Z.of_nat i)) (seq 0 n)))].

(** A document with two daily entries of pressures [p0] and [p1]. *)
Definition pressureDoc (p0 p1 : json) : json :=
  JObject [("daily"%string,
            JArray [JObject [("pressure"%string, p0)];
                    JObject [("pressure"%string, p1)]])].



(** What the hourly loop leaves in a slot, field by field: every field the
    loop assigns holds the value read from the source entry [h], every
    other field the value [old] had. *)
Definition hourlyFilled (h : json) (old new : Forecast_record) : Prop :=
  Dt new = Json.as_int (Json.member "dt" h) /\
  Temperature new = Json.as_float (Json.member "temp" h) /\
  Low new = Json.as_float (Json.member "temp" h) /\
  High new = Json.as_float (Json.member "temp" h) /\
  Pressure new = Json.as_float (Json.member "pressure" h) /\
  Humidity new = Json.as_float (Json.member "humidity" h) /\
  Icon new =
    Json.as_string (Json.member "icon" (Json.element 0 (Json.member "weather" h))) /\
  Cloudcover new = Json.as_int (Json.member "clouds" h) /\
  Pop new = Json.as_float (Json.member "pop" h) /\
  Windspeed new = Json.as_float (Json.member "wind_speed" h) /\
  Winddir new = Json.as_float (Json.member "wind_deg" h) /\
  Rainfall new =
    (if Json.isNull (Json.member "rain" h)
        || Json.isNull (Json.member "1h" (Json.member "rain" h))
     then F32.zero
     else Json.as_float (Json.member "1h" (Json.member "rain" h))) /\
  Snowfall new =
    (if Json.isNull (Json.member "snow" h)
        || Json.isNull (Json.member "1h" (Json.member "snow" h))
     then F32.zero
     else Json.as_float (Json.member "1h" (Json.member "snow" h))) /\
  Trend new = Trend old /\ Forecast0 new = Forecast0 old /\
  FeelsLike new = FeelsLike old /\ Visibility new = Visibility old /\
  Sunrise new = Sunrise old /\ Sunset new = Sunset old /\
  FTimezone new = FTimezone old.

(** The same for the daily loop and the source entry [day]. *)
Definition dailyFilled (day : json) (old new : Forecast_record) : Prop :=
  Dt new = Json.as_int (Json.member "dt" day) /\
  Temperature new = Json.as_float (Json.member "day" (Json.member "temp" day)) /\
  Low new = Json.as_float (Json.member "min" (Json.member "temp" day)) /\
  High new = Json.as_float (Json.member "max" (Json.member "temp" day)) /\
  Pressure new = Json.as_float (Json.member "pressure" day) /\
  Humidity new = Json.as_float (Json.member "humidity" day) /\
  Icon new =
    Json.as_string (Json.member "icon" (Json.element 0 (Json.member "weather" day))) /\
  Cloudcover new = Json.as_int (Json.member "clouds" day) /\
  Pop new = Json.as_float (Json.member "pop" day) /\
  Windspeed new = Json.as_float (Json.member "wind_speed" day) /\
  Winddir new = Json.as_float (Json.member "wind_deg" day) /\
  Sunrise new = Json.as_int (Json.member "sunrise" day) /\
  Sunset new = Json.as_int (Json.member "sunset" day) /\
  Rainfall new =
    (if Json.isNull (Json.member "rain" day) then F32.zero
     else Json.as_float (Json.member "rain" day)) /\
  Snowfall new =
    (if Json.isNull (Json.member "snow" day) then F32.zero
     else Json.as_float (Json.member "snow" day)) /\
  Trend new = Trend old /\ Forecast0 new = Forecast0 old /\
  FeelsLike new = FeelsLike old /\ Visibility new = Visibility old /\
  FTimezone new = FTimezone old.

(** Globals whose collections have slots behind the capacities, 60 hourly
    and 10 daily: a write behind slot 47 or slot 7 shows in them. *)
Definition wideGlobals : Globals :=
  mkGlobals FR0 (replicate 60 FR0) (replicate 10 FR0) 0 EmptyString.

(** ** The preferences store (settings.cpp) *)

(** A value under a key of the "weather" namespace, with its NVS type:
    [putString] writes a string, [putLong] and [putInt] a signed 32-bit
    integer, [putUInt] an unsigned one. *)
Inductive PrefValue :=
| PStr (s : string)
| PI32 (z : Z)
| PU32 (z : Z).

Module Prefs.

(** The namespace as the list of its entries, one per key. *)
Definition store := list (string * PrefValue).

Fixpoint lookup (key : string) (p : store) : option PrefValue :=
  match p with
  | [] => None
  | (k, v) :: p' => if String.eqb key k then Some v else lookup key p'
  end.

Fixpoint remove (key : string) (p : store) : store :=
  match p with
  | [] => []
  | (k, v) :: p' => if String.eqb key k then remove key p' else (k, v) :: remove key p'
  end.

(** A write replaces what the key held. *)
Definition put (key : string) (v : PrefValue) (p : store) : store :=
  (key, v) :: remove key p.

(** [getString(key, dflt)] and the like: the default when the key is
    absent or holds a value of another type. *)
Definition getString (key : string) (dflt : string) (p : store) : string :=
  match lookup key p with Some (PStr s) => s | _ => dflt end.

Definition getI32 (key : string) (dflt : Z) (p : store) : Z :=
  match lookup key p with Some (PI32 z) => z | _ => dflt end.

Definition getUInt (key : string) (dflt : Z) (p : store) : Z :=
  match lookup key p with Some (PU32 z) => z | _ => dflt end.

(** The type under which the firmware writes a key; other keys are not
    its own. *)
Definition keyTyped (key : string) (v : PrefValue) : bool :=
  if existsb (String.eqb key)
       ["ssid"; "password"; "apikey"; "City"; "Latitude"; "Longitude";
        "Language"; "Units"]%string
  then match v with PStr _ => true | _ => false end
  else if existsb (String.eqb key) ["SleepDuration"; "WakeupHour"; "SleepHour"]%string
  then match v with PI32 _ => true | _ => false end
  else if String.eqb key "magic"
  then match v with PU32 _ => true | _ => false end
  else true.

(** A store in which no key of the firmware is held under another type,
    so that a write to it replaces the entry. *)
Definition typed (p : store) : bool :=
  forallb (fun kv => keyTyped (fst kv) (snd kv)) p.

End Prefs.

(** [saveSettings]: the twelve writes, in order. *)
Definition saveSettings (s : Settings) (p : Prefs.store) : Prefs.store :=
  let p := Prefs.put "ssid" (PStr (ssid s)) p in
  let p := Prefs.put "password" (PStr (password s)) p in
  let p := Prefs.put "apikey" (PStr (apikey s)) p in
  let p := Prefs.put "City" (PStr (City s)) p in
  let p := Prefs.put "Latitude" (PStr (Latitude s)) p in
  let p := Prefs.put "Longitude" (PStr (Longitude s)) p in
  let p := Prefs.put "Language" (PStr (Language s)) p in
  let p := Prefs.put "Units" (PStr (Units s)) p in
  let p := Prefs.put "SleepDuration" (PI32 (SleepDuration s)) p in
  let p := Prefs.put "WakeupHour" (PI32 (WakeupHour s)) p in
  let p := Prefs.put "SleepHour" (PI32 (SleepHour s)) p in
  Prefs.put "magic" (PU32 SETTINGS_MAGIC) p.

(** [loadSettings]: each field from its key, or from the defaults; the
    strings are copied into the fixed buffers of [struct Settings]
    ([char ssid[64]], ..., [char Units[2]]). *)
Definition loadSettings (p : Prefs.store) : Settings :=
  mkSettings
    (Setup.strncpy (Prefs.getString "ssid" (ssid defaultSettings) p) 63)
    (Setup.strncpy (Prefs.getString "password" (password defaultSettings) p) 63)
    (Setup.strncpy (Prefs.getString "apikey" (apikey defaultSettings) p) 63)
    (Setup.strncpy (Prefs.getString "City" (City defaultSettings) p) 127)
    (Setup.strncpy (Prefs.getString "Latitude" (Latitude defaultSettings) p) 15)
    (Setup.strncpy (Prefs.getString "Longitude" (Longitude defaultSettings) p) 15)
    (Setup.strncpy (Prefs.getString "Language" (Language defaultSettings) p) 7)
    (Setup.strncpy (Prefs.getString "Units" (Units defaultSettings) p) 1)
    (Prefs.getI32 "SleepDuration" (SleepDuration defaultSettings) p)
    (Prefs.getI32 "WakeupHour" (WakeupHour defaultSettings) p)
    (Prefs.getI32 "SleepHour" (SleepHour defaultSettings) p)
    (Prefs.getUInt "magic" SETTINGS_MAGIC p).

(** [resetSettingsToDefaults]: the defaults, saved. *)
Definition resetSettingsToDefaults (p : Prefs.store) : Settings * Prefs.store :=
  (defaultSettings, saveSettings defaultSettings p).

(** [initSettings]: the settings in memory and the store after boot. *)
Definition initSettings (p : Prefs.store) : Settings * Prefs.store :=
  let magic := Prefs.getUInt "magic" 0 p in
  if negb (magic =? SETTINGS_MAGIC) then resetSettingsToDefaults p
  else (loadSettings p, p).

(** A record that is the content of a [struct Settings]: every string
    fits its buffer, the last byte being the terminator. *)
Definition fitsStruct (s : Settings) : Prop :=
  (String.length (ssid s) <= 63)%nat /\
  (String.length (password s) <= 63)%nat /\
  (String.length (apikey s) <= 63)%nat /\
  (String.length (City s) <= 127)%nat /\
  (String.length (Latitude s) <= 15)%nat /\
  (String.length (Longitude s) <= 15)%nat /\
  (String.length (Language s) <= 7)%nat /\
  (String.length (Units s) <= 1)%nat.

(** The record with the magic number of a saved one. *)
Definition withMagic (s : Settings) : Settings :=
  mkSettings (ssid s) (password s) (apikey s) (City s) (Latitude s)
             (Longitude s) (Language s) (Units s) (SleepDuration s)
             (WakeupHour s) (SleepHour s) SETTINGS_MAGIC.

(** ** Sunrise and sunset times ([ConvertUnixTime] of renderer.cpp) *)

(** The time-of-day fields of [gmtime]: POSIX time has 86400 seconds a
    day, so they are the residues of the timestamp. *)
Definition gmtime_hms (t : Z) : Z * Z * Z :=
  ((t / 3600) mod 24, (t / 60) mod 60, t mod 60).

(** [while (local_hours >= 24) local_hours -= 24;] *)
Fixpoint hoursDown (fuel : nat) (local_hours : Z) : Z :=
  if local_hours >=? 24 then
    match fuel with
    | O => local_hours
    | S fuel' => hoursDown fuel' (CInt.sub local_hours 24)
    end
  else local_hours.

(** [while (local_hours < 0) local_hours += 24;] *)
Fixpoint hoursUp (fuel : nat) (local_hours : Z) : Z :=
  if local_hours <? 0 then
    match fuel with
    | O => local_hours
    | S fuel' => hoursUp fuel' (CInt.add local_hours 24)
    end
  else local_hours.

(** The local hour and minute [ConvertUnixTime] arrives at.  Each loop
    moves the hour by 24, so the hour's magnitude bounds its turns. *)
Definition localHourMinute (unix_time timezone_offset : Z) : Z * Z :=
  let '(utc_hour, utc_min, utc_sec) := gmtime_hms unix_time in
  let local_seconds := utc_sec in
  let local_minutes := utc_min in
  let local_hours := utc_hour in
  let offset_seconds := CInt.rem timezone_offset 60 in
  let offset_minutes := CInt.rem (CInt.div timezone_offset 60) 60 in
  let offset_hours := CInt.div timezone_offset 3600 in
  let local_seconds := CInt.add local_seconds offset_seconds in
  let '(local_seconds, local_minutes) :=
    if local_seconds >=? 60
    then (CInt.sub local_seconds 60, CInt.add local_minutes 1)
    else if local_seconds <? 0
         then (CInt.add local_seconds 60, CInt.sub local_minutes 1)
         else (local_seconds, local_minutes) in
  let local_minutes := CInt.add local_minutes offset_minutes in
  let '(local_minutes, local_hours) :=
    if local_minutes >=? 60
    then (CInt.sub local_minutes 60, CInt.add local_hours 1)
    else if local_minutes <? 0
         then (CInt.add local_minutes 60, CInt.sub local_hours 1)
         else (local_minutes, local_hours) in
  let local_hours := CInt.add local_hours offset_hours in
  let local_hours := hoursDown (Z.to_nat (Z.abs local_hours)) local_hours in
  let local_hours := hoursUp (Z.to_nat (Z.abs local_hours)) local_hours in
  (local_hours, local_minutes).

(** [%02d]. *)
Definition fmt02d (z : Z) : string :=
  let s := string_of_int z in
  if (String.length s <? 2)%nat then String "0" s else s.

(** The text drawn: "6:44" under metric units, "6:44AM" otherwise. *)
Definition ConvertUnixTime (units : string) (unix_time timezone_offset : Z) : string :=
  let '(local_hours, local_minutes) := localHourMinute unix_time timezone_offset in
  if String.eqb units "M" then
    String.append (string_of_int local_hours)
                  (String.append ":" (fmt02d local_minutes))
  else
    let hour12 := CInt.rem local_hours 12 in
    let hour12 := if hour12 =? 0 then 12 else hour12 in
    let ampm := if local_hours <? 12 then "A"%char else "P"%char in
    String.append (string_of_int hour12)
      (String.append ":"
         (String.append (fmt02d local_minutes) (String ampm "M"))).

(** ** One wake cycle ([setup] of the main sketch) *)

Definition d3_2 : spec_float := F64.lit 32 1.
Definition d1000_0 : spec_float := F64.lit 10000 1.

(** [float voltage = (batVoltage > 0) ? (batVoltage / 1000.0) : 0.0;] *)
Definition batteryVolts (batVoltage : Z) : spec_float :=
  F32.of_double (if batVoltage >? 0
                 then F64.div (F64.of_Z batVoltage) d1000_0
                 else S754_zero false).

(** [voltage > 0 && voltage <= 3.2] *)
Definition batteryLow (batVoltage : Z) : bool :=
  let voltage := batteryVolts batVoltage in
  Flt.gtb voltage F32.zero && Flt.leb (F64.of_float voltage) d3_2.

(** [voltage > 3.2] *)
Definition batteryGood (batVoltage : Z) : bool :=
  Flt.gtb (F64.of_float (batteryVolts batVoltage)) d3_2.

(** What a cycle can push to the e-paper panel. *)
Inductive Panel :=
| SetupModeScreen
| LowBatteryScreen
| InvalidLocationScreen
| Shown (s : Screen).

(** What one boot meets: the preferences store, the buttons, the battery
    reading, the outcome of the WiFi connection and of the location check,
    the weather server, and the RTC as read at the wake-hours check, after a
    successful fetch and on the way to sleep. *)
Record Env := mkEnv {
  prefs : Prefs.store;
  button2Pressed : bool;
  button4Pressed : bool;
  batVoltage : Z;                (* readBatteryVoltage() *)
  wifiConnected : bool;          (* StartWiFi() == WL_CONNECTED *)
  locationResult : Z;            (* validateAndGeocodeLocation() *)
  net : Network;
  rtcWake : Z * option tm;
  rtcFetched : Z * option tm;
  rtcSleep : Z * option tm
}.

Inductive Ending :=
| EnterSetupMode                (* runSetupMode() takes over *)
| DeepSleep (SleepTimer : Z)    (* BeginSleep() arms the timer and sleeps *)
| SleepTrap.                    (* BeginSleep() divides by a zero SleepDuration *)

(** How a call of [BeginSleep] ends the cycle. *)
Definition sleepEnding (settings : Settings) (rtc : Z * option tm) (c : Clock)
  : Ending :=
  match BeginSleep settings (fst rtc) (snd rtc) c with
  | Some SleepTimer => DeepSleep SleepTimer
  | None => SleepTrap
  end.

(** What one cycle did. *)
Record Cycle := mkCycle {
  panels : list Panel;     (* screens pushed to the panel, in order *)
  wifiOn : bool;           (* StartWiFi() was called *)
  wifiOff : bool;          (* StopWiFi() was called *)
  shown : bool;            (* lowBatteryScreenShown afterwards *)
  world : World;           (* weather globals and GETs issued *)
  ending : Ending
}.

(** Everything but the RTC memory starts afresh on wake-up. *)
Definition bootWorld : World := mkWorld bootGlobals 0.

(** [setup], from the state the RTC memory keeps over deep sleep. *)
Definition setup (fuel : nat) (env : Env) (lowBatteryScreenShown : bool)
  : option Cycle :=
  let settings := fst (initSettings (prefs env)) in
  let sleep c := sleepEnding settings (rtcSleep env) c in
  if button2Pressed env && button4Pressed env then
    Some (mkCycle [SetupModeScreen] false false lowBatteryScreenShown
                  bootWorld EnterSetupMode)
  else if batteryLow (batVoltage env) then
    Some (mkCycle (if negb lowBatteryScreenShown then [LowBatteryScreen] else [])
                  false false true bootWorld (sleep bootClock))
  else
    let lowBatteryScreenShown :=
      if batteryGood (batVoltage env) then false else lowBatteryScreenShown in
    if wifiConnected env then
      if locationResult env =? 1 then
        Some (mkCycle [Shown InvalidAPIKeyScreen] true true
                      lowBatteryScreenShown bootWorld (sleep bootClock))
      else if locationResult env =? 2 then
        Some (mkCycle [InvalidLocationScreen] true true
                      lowBatteryScreenShown bootWorld (sleep bootClock))
      else
        let wd := wakeDecision settings (fst (rtcWake env)) (snd (rtcWake env))
                               bootClock in
        if fst wd then
          match fetchLoop fuel (net env) 2 1 bootWorld with
          | None => None
          | Some (weatherResult, _, w) =>
              if weatherResult =? 0 then
                let c := snd (UpdateLocalTime (fst (rtcFetched env))
                                              (snd (rtcFetched env)) (snd wd)) in
                Some (mkCycle [Shown WeatherScreen] true true
                              lowBatteryScreenShown w (sleep c))
              else if weatherResult =? 1 then
                Some (mkCycle [Shown InvalidAPIKeyScreen] true true
                              lowBatteryScreenShown w (sleep (snd wd)))
              else
                Some (mkCycle [Shown WiFiErrorScreen] true false
                              lowBatteryScreenShown w (sleep (snd wd)))
          end
        else
          Some (mkCycle [] true true lowBatteryScreenShown bootWorld
                        (sleep (snd wd)))
    else
      Some (mkCycle [Shown WiFiErrorScreen] true false lowBatteryScreenShown
                    bootWorld (sleep bootClock)).


(** The conditions under which [setup] reaches the wake-hours check. *)
Definition reachesWakeCheck (env : Env) : bool :=
  negb (button2Pressed env && button4Pressed env)
  && negb (batteryLow (batVoltage env))
  && wifiConnected env
  && negb (locationResult env =? 1) && negb (locationResult env =? 2).

(** [WakeUp] as [setup] computes it on this boot. *)
Definition wakeUp (env : Env) : bool :=
  fst (wakeDecision (fst (initSettings (prefs env)))
                    (fst (rtcWake env)) (snd (rtcWake env)) bootClock).

(** Whether all of [0 .. n-1] satisfy [p]. *)
Fixpoint allBelow (n : nat) (p : Z -> bool) : bool :=
  match n with
  | O => true
  | S k => p (Z.of_nat k) && allBelow k p
  end.

(** The settings a boot works with. *)
Definition bootSettings (env : Env) : Settings := fst (initSettings (prefs env)).


(** A boot on a full battery with the WiFi up, against a server that
    rejects the key. *)
Definition rejectedKeyEnv : Env :=
  mkEnv [] false false 4100 true 0 always401
        (0, None) (0, None) (1700000000, Some (mkTm 45 23 14 1 0)).



(** ** Auxiliary notions for the decoder *)

(** [WxConditions[0]] as the [current] block of [DecodeWeather] leaves it,
    before the pressure trend is set. *)
Definition currentAfter (root : json) (c : Forecast_record) : Forecast_record :=
  let current := Json.member "current" root in
  if Json.objectIsNull current then c
  else
    let timezoneOffset := Json.int_or (Json.member "timezone_offset" root) 0 in
    let apiTime := Json.as_int (Json.member "dt" current) in
    let c1 := decodeCurrent current timezoneOffset apiTime c in
    let daily := Json.member "daily" root in
    if (0 <? Json.size daily)%nat then
      let temp := Json.member "temp" (Json.element 0 daily) in
      setHighLow (Json.as_float (Json.member "max" temp))
                 (Json.as_float (Json.member "min" temp)) c1
    else c1.

(** The daily collection after a decode of [root]. *)
Definition dailyAfter (root : json) (arr : list Forecast_record)
  : list Forecast_record :=
  decodeLoop decodeDaily max_daily_readings (Json.member "daily" root)
             max_daily_readings 0 arr.

(** The hourly collection after a decode of [root]. *)
Definition hourlyAfter (root : json) (arr : list Forecast_record)
  : list Forecast_record :=
  decodeLoop decodeHourly max_hourly_readings (Json.member "hourly" root)
             max_hourly_readings 0 arr.

(** ** Icons (renderer.cpp) *)

(** The building blocks of an icon, named after the routine that draws
    them.  An icon is the sequence of its blocks in drawing order; where on
    the panel and at what scale they are drawn is left out. *)
Inductive IconPart :=
| Moon          (* addmoon *)
| Sun           (* addsun *)
| Cloud         (* addcloud *)
| RainLines     (* addrain *)
| SnowFlakes    (* addsnow *)
| Lightning     (* addtstorm *)
| Fog           (* addfog *)
| QuestionMark. (* the "?" of Nodata *)

(** [String::endsWith]. *)
Definition endsWith (s suffix : string) : bool :=
  (String.length suffix <=? String.length s)%nat
  && String.eqb (substring (String.length s - String.length suffix)
                           (String.length suffix) s) suffix.

(** [if (IconName.endsWith("n")) addmoon(x, y, IconSize);] *)
Definition moonFor (IconName : string) : list IconPart :=
  if endsWith IconName "n" then [Moon] else [].

Definition ClearSky (IconName : string) : list IconPart :=
  moonFor IconName ++ [Sun].
Definition BrokenClouds (IconName : string) : list IconPart :=
  moonFor IconName ++ [Sun; Cloud].
Definition FewClouds (IconName : string) : list IconPart :=
  moonFor IconName ++ [Cloud; Sun].
Definition ScatteredClouds (IconName : string) : list IconPart :=
  moonFor IconName ++ [Cloud; Cloud].
Definition Rain (IconName : string) : list IconPart :=
  moonFor IconName ++ [Cloud; RainLines].
Definition ChanceRain (IconName : string) : list IconPart :=
  moonFor IconName ++ [Sun; Cloud; RainLines].
Definition Thunderstorms (IconName : string) : list IconPart :=
  moonFor IconName ++ [Cloud; Lightning].
Definition Snow (IconName : string) : list IconPart :=
  moonFor IconName ++ [Cloud; SnowFlakes].
Definition Mist (IconName : string) : list IconPart :=
  moonFor IconName ++ [Sun; Fog].
Definition Nodata (IconName : string) : list IconPart := [QuestionMark].

Definition DisplayConditionsSection (IconName : string) : list IconPart :=
  if String.eqb IconName "01d" || String.eqb IconName "01n" then ClearSky IconName
  else if String.eqb IconName "02d" || String.eqb IconName "02n" then FewClouds IconName
  else if String.eqb IconName "03d" || String.eqb IconName "03n" then ScatteredClouds IconName
  else if String.eqb IconName "04d" || String.eqb IconName "04n" then BrokenClouds IconName
  else if String.eqb IconName "09d" || String.eqb IconName "09n" then ChanceRain IconName
  else if String.eqb IconName "10d" || String.eqb IconName "10n" then Rain IconName
  else if String.eqb IconName "11d" || String.eqb IconName "11n" then Thunderstorms IconName
  else if String.eqb IconName "13d" || String.eqb IconName "13n" then Snow IconName
  else if String.eqb IconName "50d" || String.eqb IconName "50n" then Mist IconName
  else Nodata IconName.

(** The icon of one day of the forecast strip ([drawForecast]): [hour] is
    the local hour of the day's first period. *)
Definition forecastIcon (d : DailyForecast) (hour : Z) : list IconPart :=
  let isDay := (hour >=? 6) && (hour <? 18) in
  let dayIcon := getIconFromCloudCover (totalCloudCover d) (maxPop d)
                   (totalRainfall d) (totalSnowfall d) isDay in
  DisplayConditionsSection dayIcon.

(** ** Line wrapping ([drawMultiLnString] of renderer.cpp) *)

(** The inner scan:
    [while (p < textRemaining.length() && charCount < max_width)], with
    [fuel] the characters still allowed, [max_width - charCount].  Returns
    [p] and [spaceRemaining]. *)
Fixpoint scanLine (fuel : nat) (textRemaining : list ascii)
  (p spaceRemaining : nat) : nat * nat :=
  match fuel with
  | O => (p, spaceRemaining)
  | S fuel' =>
      if (p <? length textRemaining)%nat then
        scanLine fuel' textRemaining (S p)
          (match textRemaining !! p with
           | Some c => if Ascii.eqb c " " then p else spaceRemaining
           | None => spaceRemaining
           end)
      else (p, spaceRemaining)
  end.

(** The lines handed to [drawString], top to bottom, line [k] at
    [y + k * line_spacing]; [lines_left] is [max_lines - current_line]. *)
Fixpoint drawMultiLnString (max_width lines_left : nat)
  (textRemaining : list ascii) : list (list ascii) :=
  match lines_left with
  | O => []
  | S lines_left' =>
      match textRemaining with
      | [] => []
      | _ :: _ =>
          let '(p, spaceRemaining) := scanLine max_width textRemaining 0 0 in
          if (p <? length textRemaining)%nat then
            if (0 <? spaceRemaining)%nat then
              take spaceRemaining textRemaining
                :: drawMultiLnString max_width lines_left'
                     (drop (S spaceRemaining) textRemaining)
            else
              take p textRemaining
                :: drawMultiLnString max_width lines_left' (drop p textRemaining)
          else [textRemaining]
      end
  end.

(** *** What wrapping means

    A wrapped text is a sequence of pieces, each a line and the gap the
    wrapping swallowed behind it: a single blank, or nothing. *)

Definition blank : ascii := " "%char.

Definition joined (pieces : list (list ascii * list ascii)) : list ascii :=
  concat (map (fun piece => fst piece ++ snd piece) pieces).

(** A line of at most [w] characters before the text [following] it, cut
    where a greedy wrapping cuts: at the last blank among the first [w]
    characters (the blank is swallowed; one in front of the line does not
    count); or, there being no such blank, after [w] characters; or not at
    all, where the text ends within [w] characters. *)
Definition lineOk (w : nat) (line gap following : list ascii) : Prop :=
  (gap = [blank] /\ (0 < length line < w)%nat /\
   Forall (fun c => c <> blank) (take (w - 1 - length line) following) /\
   (w < length line + 1 + length following)%nat)
  \/ (gap = [] /\ length line = w /\
      Forall (fun c => c <> blank) (drop 1 line) /\ following <> [])
  \/ (gap = [] /\ line <> [] /\ (length line <= w)%nat /\ following = []).

(** Every piece is cut as [lineOk] says, before the pieces after it and
    the text [rest] that was not drawn. *)
Fixpoint wrapsTo (w : nat) (pieces : list (list ascii * list ascii))
  (rest : list ascii) : Prop :=
  match pieces with
  | [] => True
  | piece :: more =>
      lineOk w (fst piece) (snd piece) (joined more ++ rest)
      /\ wrapsTo w more rest
  end.

(** ** Status bar: WiFi signal ([drawWiFiSignal] of renderer.cpp) *)

(** Conversion of an [int] argument to an [int16_t] parameter. *)
Definition wrap16 (z : Z) : Z := (z + 32768) mod 65536 - 32768.

(** What reaches the framebuffer. *)
Inductive DrawOp :=
| FillRect (x y w h : Z)
| DrawRect (x y w h : Z)
| DrawString (x y : Z) (text : string).

Definition fillRect (x y w h : Z) : DrawOp :=
  FillRect (wrap16 x) (wrap16 y) (wrap16 w) (wrap16 h).

Definition drawRect (x y w h : Z) : DrawOp :=
  DrawRect (wrap16 x) (wrap16 y) (wrap16 w) (wrap16 h).

Definition drawString (x y : Z) (text : string) : DrawOp :=
  DrawString (wrap16 x) (wrap16 y) text.

(** The height the five [if]s leave in [WIFIsignal]. *)
Definition barLevel (_rssi WIFIsignal : Z) : Z :=
  let WIFIsignal := if _rssi <=? -20 then 20 else WIFIsignal in
  let WIFIsignal := if _rssi <=? -40 then 16 else WIFIsignal in
  let WIFIsignal := if _rssi <=? -60 then 12 else WIFIsignal in
  let WIFIsignal := if _rssi <=? -80 then 8 else WIFIsignal in
  let WIFIsignal := if _rssi <=? -100 then 4 else WIFIsignal in
  WIFIsignal.

(** [for (int _rssi = -100; _rssi <= rssi; _rssi = _rssi + 20)] *)
Fixpoint wifiLoop (fuel : nat) (x y rssi _rssi WIFIsignal xpos : Z)
  : list DrawOp :=
  if _rssi <=? rssi then
    match fuel with
    | O => []
    | S fuel' =>
        let WIFIsignal := barLevel _rssi WIFIsignal in
        (if negb (rssi =? 0)
         then fillRect (CInt.add x (CInt.mul xpos 8)) (CInt.sub y WIFIsignal)
                       6 WIFIsignal
         else drawRect (CInt.add x (CInt.mul xpos 8)) (CInt.sub y WIFIsignal)
                       6 WIFIsignal)
        :: wifiLoop fuel' x y rssi (CInt.add _rssi 20) WIFIsignal
                    (CInt.add xpos 1)
    end
  else [].

(** The loop passes [-100, -80, ...] up to [rssi]: at most
    [(rssi + 100) / 20 + 1] turns. *)
Definition drawWiFiSignal (x y rssi : Z) : list DrawOp :=
  wifiLoop (Z.to_nat ((rssi + 100) / 20 + 1)) x y rssi (-100) 0 1
  ++ [if rssi =? 0 then drawString (CInt.add x 28) (CInt.sub y 18) "x"
      else drawString (CInt.add x 50) (CInt.sub y 14)
                      (String.append (string_of_int rssi) " dB")].

(** Bar [k] (from 0) of the signal icon: 6 wide, [4 (k + 1)] high, standing
    on the line [y]. *)
Definition signalBar (x y : Z) (k : nat) : DrawOp :=
  FillRect (x + 8 * (Z.of_nat k + 1)) (y - 4 * (Z.of_nat k + 1))
           6 (4 * (Z.of_nat k + 1)).

(** ** The 24-hour graph: time axis and selection *)

(** [labelInterval]: a quarter of the entries, at least 1. *)
Definition labelInterval (forecastCount : Z) : Z :=
  let labelInterval := if forecastCount >? 0 then CInt.div forecastCount 4 else 6 in
  if labelInterval <? 1 then 1 else labelInterval.

(** [for (int i = 0; i < forecastCount; i += labelInterval)]: the entries
    that get a time label. *)
Fixpoint labelLoop (fuel : nat) (forecastCount labelInterval i : Z) : list Z :=
  if i <? forecastCount then
    match fuel with
    | O => []
    | S fuel' =>
        i :: labelLoop fuel' forecastCount labelInterval (CInt.add i labelInterval)
    end
  else [].

(** The counter grows by at least 1 a turn, so [forecastCount] turns do. *)
Definition labelIndices (forecastCount : Z) : list Z :=
  labelLoop (Z.to_nat forecastCount) forecastCount (labelInterval forecastCount) 0.

(** The test of the selection loop on one record. *)
Definition inWindow (now : Z) (f : Forecast_record) : bool :=
  (Dt f >=? now - Graph.SECONDS_PER_HOUR)
  && (Dt f <=? now + Graph.HOURS_TO_SHOW * Graph.SECONDS_PER_HOUR).

(** The positions, counted from [i], of the records inside the window. *)
Fixpoint windowFrom (now : Z) (i : nat) (forecast : list Forecast_record)
  : list nat :=
  match forecast with
  | [] => []
  | f :: rest =>
      if inWindow now f then i :: windowFrom now (S i) rest
      else windowFrom now (S i) rest
  end.

(** ** Auxiliary notions for the setup form *)

(** A start or stop hour field that the save handler accepts: empty,
    "none", or text that [toInt] reads as an hour from [lo] to 23. *)
Definition hourFieldOk (lo : Z) (field : string) : bool :=
  negb (Setup.nonempty field)
  || String.eqb field "none"
  || ((lo <=? Setup.toInt field) && (Setup.toInt field <=? 23)).

(** The forms the save handler does not answer with the error page. *)
Definition formValid (f : Setup.Form) : bool :=
  negb (Setup.longer_than (Setup.f_apiKey f) 63)
  && negb (Setup.longer_than (Setup.f_ssid f) 63)
  && negb (Setup.longer_than (Setup.f_password f) 63)
  && negb (Setup.longer_than (Setup.f_location f) 127)
  && (negb (Setup.nonempty (Setup.f_units f))
      || String.eqb (Setup.f_units f) "I" || String.eqb (Setup.f_units f) "M")
  && hourFieldOk 0 (Setup.f_startHour f)
  && hourFieldOk 1 (Setup.f_stopHour f).

(** ** Wind direction ([WindDegToOrdinalDirection] of renderer.cpp) *)

(** [winddirection >= lit] and [winddirection < lit] for a [float] and a
    [double] literal. *)
Definition atLeast (x lit : spec_float) : bool := Flt.leb lit (F64.of_float x).
Definition below (x lit : spec_float) : bool := Flt.ltb (F64.of_float x) lit.

(** The literal of [n] hundredths of a degree. *)
Definition deg (n : Z) : spec_float := F64.lit n 2.

Definition WindDegToOrdinalDirection (winddirection : spec_float) : string :=
  if atLeast winddirection (deg 34875) || below winddirection (deg 1125) then "N"
  else if atLeast winddirection (deg 1125) && below winddirection (deg 3375) then "NNE"
  else if atLeast winddirection (deg 3375) && below winddirection (deg 5625) then "NE"
  else if atLeast winddirection (deg 5625) && below winddirection (deg 7875) then "ENE"
  else if atLeast winddirection (deg 7875) && below winddirection (deg 10125) then "E"
  else if atLeast winddirection (deg 10125) && below winddirection (deg 12375) then "ESE"
  else if atLeast winddirection (deg 12375) && below winddirection (deg 14625) then "SE"
  else if atLeast winddirection (deg 14625) && below winddirection (deg 16875) then "SSE"
  else if atLeast winddirection (deg 16875) && below winddirection (deg 19125) then "S"
  else if atLeast winddirection (deg 19125) && below winddirection (deg 21375) then "SSW"
  else if atLeast winddirection (deg 21375) && below winddirection (deg 23625) then "SW"
  else if atLeast winddirection (deg 23625) && below winddirection (deg 25875) then "WSW"
  else if atLeast winddirection (deg 25875) && below winddirection (deg 28125) then "W"
  else if atLeast winddirection (deg 28125) && below winddirection (deg 30375) then "WNW"
  else if atLeast winddirection (deg 30375) && below winddirection (deg 32625) then "NW"
  else if atLeast winddirection (deg 32625) && below winddirection (deg 34875) then "NNW"
  else "?".

(** The sixteen points of the compass rose, clockwise from north. *)
Definition compassPoints : list string :=
  ["N"; "NNE"; "NE"; "ENE"; "E"; "ESE"; "SE"; "SSE";
   "S"; "SSW"; "SW"; "WSW"; "W"; "WNW"; "NW"; "NNW"]%string.

(** ** Request parameters ([extractParam] in [runSetupMode]) *)

(** [String::charAt]: 0 outside the string. *)
Definition charAt (s : string) (i : nat) : ascii :=
  match String.get i s with
  | Some c => c
  | None => Ascii.zero
  end.

(** The characters that end a parameter value: blank, [&], LF, CR. *)
Definition endsValue (c : ascii) : bool :=
  Ascii.eqb c " " || Ascii.eqb c "&" || Ascii.eqb c "010" || Ascii.eqb c "013".

(** [while (end < header.length() && header.charAt(end) != ...) end++;] *)
Fixpoint scanValue (fuel : nat) (header : string) (end_ : nat) : nat :=
  match fuel with
  | O => end_
  | S fuel' =>
      if (end_ <? String.length header)%nat && negb (endsValue (charAt header end_))
      then scanValue fuel' header (S end_)
      else end_
  end.

(** [String::replace] with a replacement no longer than the pattern: the
    text is scanned once from the left, a match is replaced and the scan
    goes on behind it.  [skip] counts the characters of a match still to
    pass over. *)
Fixpoint replaceFrom (find replacement : string) (s : string) (skip : nat)
  : string :=
  match s with
  | EmptyString => EmptyString
  | String c s' =>
      match skip with
      | S skip' => replaceFrom find replacement s' skip'
      | O =>
          if String.prefix find s
          then String.append replacement
                 (replaceFrom find replacement s' (String.length find - 1))
          else String c (replaceFrom find replacement s' 0)
      end
  end.

Definition replace (find replacement s : string) : string :=
  if (String.length s =? 0)%nat || (String.length find =? 0)%nat then s
  else replaceFrom find replacement s 0.

(** "Basic URL decoding". *)
Definition urlDecode (value : string) : string :=
  let value := replace "+" " " value in
  let value := replace "%20" " " value in
  let value := replace "%2B" "+" value in
  let value := replace "%2C" "," value in
  let value := replace "%2F" "/" value in
  value.

Definition extractParam (header paramName : string) : string :=
  let searchStr := String.append paramName "=" in
  match String.index 0 searchStr header with
  | None => EmptyString
  | Some start =>
      let start := (start + String.length searchStr)%nat in
      let end_ := scanValue (String.length header) header start in
      let value := substring start (end_ - start) header in
      urlDecode value
  end.

(** Whether [c] occurs in [s]. *)
Fixpoint occurs (c : ascii) (s : string) : bool :=
  match s with
  | EmptyString => false
  | String d s' => Ascii.eqb c d || occurs c s'
  end.

(** Whether some character of [s] ends a value. *)
Fixpoint anyEndsValue (s : string) : bool :=
  match s with
  | EmptyString => false
  | String d s' => endsValue d || anyEndsValue s'
  end.

(** * Properties *)

(** ** C integers *)

Lemma wrap32_id z : CInt.in_range z -> CInt.wrap32 z = z.
Proof.
  unfold CInt.in_range, CInt.INT_MIN, CInt.INT_MAX, CInt.wrap32. intros H.
  rewrite Z.mod_small by lia. lia.
Qed.

(** Closes a goal that says a value fits an [int]. *)
Ltac int_range :=
  unfold CInt.in_range, CInt.INT_MIN, CInt.INT_MAX in *; first [lia | nia].

(** ** Scheduler *)

Section WakeWindow.

Variables (s : Settings) (c : Clock).

Lemma wakeDecision_unsynced now timeinfo :
  now < RTC_EPOCH -> fst (wakeDecision s now timeinfo c) = true.
Proof.
  intros H. unfold wakeDecision.
  destruct (Z.geb_spec now RTC_EPOCH) as [Hge|Hlt]; [lia | reflexivity].
Qed.

Lemma wakeDecision_synced now t :
  RTC_EPOCH <= now ->
  fst (wakeDecision s now (Some t) c) =
    if SleepHour s =? 24 then true
    else if WakeupHour s >? SleepHour s
         then (tm_hour t >=? WakeupHour s) || (tm_hour t <=? SleepHour s)
         else (tm_hour t >=? WakeupHour s) && (tm_hour t <=? SleepHour s).
Proof.
  intros H. unfold wakeDecision, UpdateLocalTime.
  destruct (Z.geb_spec now RTC_EPOCH) as [_|Hlt]; [|lia].
  destruct (Z.ltb_spec now RTC_EPOCH) as [Hlt|_]; [lia|].
  reflexivity.
Qed.

End WakeWindow.

(** C1.  The wake-window decision of [setup].  With the clock never
    synchronised (wall clock below 946684800) the device always wakes.
    Otherwise, with local hour [h]: it always wakes when [SleepHour] is 24;
    when [WakeupHour > SleepHour] it wakes iff [h >= WakeupHour] or
    [h <= SleepHour]; else it wakes iff [WakeupHour <= h <= SleepHour].
    With wake hour 22 and sleep hour 6 it is awake at 23 and dormant at
    10. *)
Theorem wake_window_decision :
  (forall s c now timeinfo,
      now < 946684800 -> fst (wakeDecision s now timeinfo c) = true) /\
  (forall s c now t,
      946684800 <= now -> SleepHour s = 24 ->
      fst (wakeDecision s now (Some t) c) = true) /\
  (forall s c now t,
      946684800 <= now -> SleepHour s <> 24 -> WakeupHour s > SleepHour s ->
      (fst (wakeDecision s now (Some t) c) = true <->
       tm_hour t >= WakeupHour s \/ tm_hour t <= SleepHour s)) /\
  (forall s c now t,
      946684800 <= now -> SleepHour s <> 24 -> WakeupHour s <= SleepHour s ->
      (fst (wakeDecision s now (Some t) c) = true <->
       WakeupHour s <= tm_hour t <= SleepHour s)) /\
  (forall s c now t,
      946684800 <= now -> WakeupHour s = 22 -> SleepHour s = 6 ->
      (tm_hour t = 23 -> fst (wakeDecision s now (Some t) c) = true) /\
      (tm_hour t = 10 -> fst (wakeDecision s now (Some t) c) = false)).
Proof.
  split; [|split; [|split; [|split]]].
  - intros. now apply wakeDecision_unsynced.
  - intros s c now t Hn H24. rewrite wakeDecision_synced by exact Hn.
    rewrite H24. reflexivity.
  - intros s c now t Hn H24 Hspan. rewrite wakeDecision_synced by exact Hn.
    destruct (Z.eqb_spec (SleepHour s) 24); [lia|].
    destruct (Z.gtb_spec (WakeupHour s) (SleepHour s)); [|lia].
    rewrite orb_true_iff. lia.
  - intros s c now t Hn H24 Hspan. rewrite wakeDecision_synced by exact Hn.
    destruct (Z.eqb_spec (SleepHour s) 24); [lia|].
    destruct (Z.gtb_spec (WakeupHour s) (SleepHour s)); [lia|].
    rewrite andb_true_iff. lia.
  - intros s c now t Hn Hw Hs.
    split; intros Hh; rewrite wakeDecision_synced by exact Hn;
      rewrite Hw, Hs, Hh; reflexivity.
Qed.

Lemma wake_window_decision_witness :
  fst (wakeDecision (mkSettings "" "" "" "" "" "" "" "M" 60 22 6 SETTINGS_MAGIC)
                    1700000000 (Some (mkTm 0 0 23 1 0)) bootClock) = true /\
  fst (wakeDecision (mkSettings "" "" "" "" "" "" "" "M" 60 22 6 SETTINGS_MAGIC)
                    1700000000 (Some (mkTm 0 0 10 1 0)) bootClock) = false.
Proof.
  split.
  - apply (proj2 (proj2 (proj2 (proj2 wake_window_decision)))); simpl; lia.
  - apply (proj2 (proj2 (proj2 (proj2 wake_window_decision)))); simpl; lia.
Defined.

(** C2.  The sleep duration of [BeginSleep]: with refresh interval [R]
    minutes (1..1439) and local time minute [m], second [sec], the timer is
    set to [(R - (m mod R)) * 60 - sec] seconds plus the drift compensation
    of 30 seconds. *)
Theorem sleep_duration (s : Settings) (c : Clock) (now : Z) (t : tm) (R m sec : Z) :
  1 <= R <= 1439 -> 0 <= m <= 59 -> 0 <= sec <= 60 ->
  946684800 <= now ->
  SleepDuration s = R -> tm_min t = m -> tm_sec t = sec ->
  BeginSleep s now (Some t) c = Some ((R - (m mod R)) * 60 - sec + 30).
Proof.
  intros HR Hm Hsec Hnow HsR Hmin Hs.
  unfold BeginSleep, UpdateLocalTime, RTC_EPOCH.
  destruct (Z.ltb_spec now 946684800) as [Hlt|_]; [lia|]. simpl.
  rewrite HsR, Hmin, Hs.
  destruct (Z.eqb_spec R 0) as [H0|_]; [lia|].
  unfold CInt.rem. rewrite Z.rem_mod_nonneg by lia.
  assert (Hmod : 0 <= m mod R < R) by (apply Z.mod_pos_bound; lia).
  unfold Delta. f_equal.
  unfold CInt.add, CInt.sub, CInt.mul.
  rewrite (wrap32_id (R - m mod R))
    by (int_range).
  rewrite (wrap32_id ((R - m mod R) * 60))
    by (int_range).
  rewrite (wrap32_id ((R - m mod R) * 60 - sec))
    by (int_range).
  apply wrap32_id. int_range.
Qed.

(** At 14:23:45 with a 60-minute interval the device sleeps 2205 s. *)
Lemma sleep_duration_witness :
  BeginSleep defaultSettings 1700000000 (Some (mkTm 45 23 14 1 0)) bootClock
  = Some 2205.
Proof.
  apply (sleep_duration defaultSettings bootClock 1700000000
           (mkTm 45 23 14 1 0) 60 23 45); simpl; try lia; reflexivity.
Defined.

(** ** Fetch retries *)

Lemma fetchLoop_two (net : Network) (w : World) (fuel : nat) :
  (2 <= fuel)%nat ->
  fetchLoop fuel net 2 1 w =
    let a1 := obtainWeatherData net w in
    if fst a1 =? 0 then Some (0, 2, snd a1)
    else let a2 := obtainWeatherData net (snd a1) in
         Some (fst a2, 3, snd a2).
Proof.
  intros Hf. destruct fuel as [|[|fuel]]; try lia.
  cbn [fetchLoop]. cbv zeta.
  change (negb (2 =? 0) && (1 <=? 2)) with true. cbv iota.
  change (negb (2 =? 0)) with true. cbv iota.
  change ((1 + 1) mod 256) with 2.
  destruct (Z.eqb_spec (fst (obtainWeatherData net w)) 0) as [E|E].
  - rewrite E. simpl. destruct fuel; reflexivity.
  - change (2 <=? 2) with true. rewrite andb_true_r. cbn [negb]. cbv iota.
    change ((2 + 1) mod 256) with 3.
    destruct fuel; cbn [fetchLoop]; change (3 <=? 2) with false;
      rewrite andb_false_r; reflexivity.
Qed.

Lemma obtainWeatherData_gets net w :
  http_gets (snd (obtainWeatherData net w)) = S (http_gets w).
Proof.
  unfold obtainWeatherData.
  repeat match goal with |- context [if ?b then _ else _] => destruct b end;
    reflexivity.
Qed.

Lemma obtainWeatherData_401 net w :
  httpCode (net (http_gets w)) = 401 -> fst (obtainWeatherData net w) = 1.
Proof. intros H. unfold obtainWeatherData. rewrite H. reflexivity. Qed.

Lemma obtainWeatherData_result net w :
  fst (obtainWeatherData net w) = 0 \/ fst (obtainWeatherData net w) = 1 \/
  fst (obtainWeatherData net w) = 2.
Proof.
  unfold obtainWeatherData.
  repeat match goal with |- context [if ?b then _ else _] => destruct b end;
    simpl; auto.
Qed.

(** C6, as stated, fails: the first attempt of the cycle is classified
    CredentialsInvalid, and the loop still issues a second request. *)
Lemma credentials_invalid_is_retried :
  fst (obtainWeatherData always401 (mkWorld bootGlobals 0)) = 1 /\
  fetchAndDraw 2 always401 (mkWorld bootGlobals 0)
  = Some (InvalidAPIKeyScreen, mkWorld bootGlobals 2).
Proof. split; reflexivity. Qed.

(** C6, amended.  The retry loop does not look at the kind of failure: a
    cycle makes one fetch attempt when the first succeeds and exactly two
    otherwise, CredentialsInvalid (401) included, so never more than two;
    the screen drawn follows the last attempt made, and it is the
    invalid-API-key screen exactly when that attempt returned 401's
    classification. *)
Theorem fetch_attempts_bounded (net : Network) (w : World) (fuel : nat) :
  (2 <= fuel)%nat ->
  exists scr w',
    fetchAndDraw fuel net w = Some (scr, w') /\
    let first := obtainWeatherData net w in
    let second := obtainWeatherData net (snd first) in
    (S (http_gets w) <= http_gets w' <= S (S (http_gets w)))%nat /\
    (fst first = 0 ->
       http_gets w' = S (http_gets w) /\ scr = WeatherScreen) /\
    (fst first <> 0 ->
       http_gets w' = S (S (http_gets w)) /\ w' = snd second /\
       scr = screenFor (fst second) /\
       (scr = InvalidAPIKeyScreen <-> fst second = 1)).
Proof.
  intros Hf. unfold fetchAndDraw. rewrite fetchLoop_two by exact Hf. cbv zeta.
  destruct (Z.eqb_spec (fst (obtainWeatherData net w)) 0) as [E|E].
  - eexists _, _. split; [reflexivity|].
    rewrite obtainWeatherData_gets.
    split; [lia|]. split; [intros _; split; reflexivity | intros H; contradiction].
  - eexists _, _. split; [reflexivity|].
    rewrite !obtainWeatherData_gets.
    split; [lia|]. split; [intros H; contradiction|]. intros _.
    repeat split; try reflexivity.
    + unfold screenFor.
      destruct (obtainWeatherData_result net (snd (obtainWeatherData net w)))
        as [H|[H|H]]; rewrite H; simpl; congruence.
    + intros H. rewrite H. reflexivity.
Qed.

Lemma fetch_attempts_bounded_witness :
  exists scr w',
    fetchAndDraw 2 always401 (mkWorld bootGlobals 0) = Some (scr, w') /\
    http_gets w' = 2%nat /\ scr = InvalidAPIKeyScreen.
Proof.
  destruct (fetch_attempts_bounded always401 (mkWorld bootGlobals 0) 2
              (le_n 2)) as (scr & w' & Hrun & _ & _ & Hretry).
  exists scr, w'. split; [exact Hrun|].
  destruct Hretry as (Hg & _ & Hs & _); [simpl; discriminate|].
  split; [exact Hg | exact Hs].
Defined.

(** ** Order on floats *)

Section FloatOrder.

Lemma ltb_lexlt x y :
  ordered x -> ordered y -> (Flt.ltb x y = true <-> lexlt (fkey x) (fkey y)).
Proof.
  unfold ordered, Flt.ltb, SFltb.
  destruct x as [sx|sx| |sx mx ex], y as [sy|sy| |sy my ey];
    try discriminate; intros _ _;
    try destruct sx; try destruct sy; cbn;
    try (split; [discriminate | lia]);
    try (split; [lia | reflexivity]);
    try (split; [reflexivity | lia]).
  - destruct (Z.compare_spec ex ey); try (split; [discriminate || reflexivity | lia]);
      try (split; [lia | reflexivity]).
    change (Pos.compare_cont Eq mx my) with (Pos.compare mx my).
    destruct (Pos.compare_spec mx my); cbn;
      (split; [discriminate || (intros _; lia) | try reflexivity; lia]).
  - destruct (Z.compare_spec ex ey); try (split; [discriminate || reflexivity | lia]);
      try (split; [lia | reflexivity]).
    change (Pos.compare_cont Eq mx my) with (Pos.compare mx my).
    destruct (Pos.compare_spec mx my); cbn;
      (split; [discriminate || (intros _; lia) | try reflexivity; lia]).
Qed.

Lemma leb_lexlt x y :
  ordered x -> ordered y -> (Flt.leb x y = true <-> ~ lexlt (fkey y) (fkey x)).
Proof.
  unfold ordered, Flt.leb, SFleb.
  destruct x as [sx|sx| |sx mx ex], y as [sy|sy| |sy my ey];
    try discriminate; intros _ _;
    try destruct sx; try destruct sy; cbn;
    try (split; [discriminate | lia]);
    try (split; [lia | reflexivity]);
    try (split; [reflexivity | lia]).
  - destruct (Z.compare_spec ex ey); try (split; [discriminate || reflexivity | lia]);
      try (split; [lia | reflexivity]).
    change (Pos.compare_cont Eq mx my) with (Pos.compare mx my).
    destruct (Pos.compare_spec mx my); cbn;
      (split; [discriminate || (intros _; lia) | try reflexivity; lia]).
  - destruct (Z.compare_spec ex ey); try (split; [discriminate || reflexivity | lia]);
      try (split; [lia | reflexivity]).
    change (Pos.compare_cont Eq mx my) with (Pos.compare mx my).
    destruct (Pos.compare_spec mx my); cbn;
      (split; [discriminate || (intros _; lia) | try reflexivity; lia]).
Qed.

Lemma leb_refl x : ordered x -> Flt.leb x x = true.
Proof.
  intros Hx. apply leb_lexlt; [exact Hx | exact Hx|].
  unfold lexlt. destruct (fkey x) as [[a b] c]. lia.
Qed.

Lemma not_ltb_leb x y :
  ordered x -> ordered y -> Flt.ltb x y = false -> Flt.leb y x = true.
Proof.
  intros Hx Hy H. apply leb_lexlt; [exact Hy | exact Hx|].
  intros Hlt. apply (ltb_lexlt x y Hx Hy) in Hlt. congruence.
Qed.

Lemma leb_ltb_trans x y z :
  ordered x -> ordered y -> ordered z ->
  Flt.leb x y = true -> Flt.ltb y z = true -> Flt.leb x z = true.
Proof.
  intros Hx Hy Hz Hxy Hyz.
  apply (leb_lexlt x y Hx Hy) in Hxy. apply (ltb_lexlt y z Hy Hz) in Hyz.
  apply leb_lexlt; [exact Hx | exact Hz|].
  unfold lexlt in *.
  destruct (fkey x) as [[a1 b1] c1], (fkey y) as [[a2 b2] c2],
           (fkey z) as [[a3 b3] c3]. lia.
Qed.

Lemma ltb_leb_trans x y z :
  ordered x -> ordered y -> ordered z ->
  Flt.ltb x y = true -> Flt.leb y z = true -> Flt.leb x z = true.
Proof.
  intros Hx Hy Hz Hxy Hyz.
  apply (ltb_lexlt x y Hx Hy) in Hxy. apply (leb_lexlt y z Hy Hz) in Hyz.
  apply leb_lexlt; [exact Hx | exact Hz|].
  unfold lexlt in *.
  destruct (fkey x) as [[a1 b1] c1], (fkey y) as [[a2 b2] c2],
           (fkey z) as [[a3 b3] c3]. lia.
Qed.

(** The running maximum of the code bounds, and is one of, the values it
    has seen. *)
Lemma fold_fmax_spec (l : list spec_float) (a : spec_float) :
  ordered a -> Forall ordered l ->
  let m := fold_left fmax l a in
  ordered m /\ In m (a :: l) /\
  (forall x, In x (a :: l) -> Flt.leb x m = true).
Proof.
  revert a. induction l as [|y l IH]; intros a Ha Hl; cbn [fold_left].
  - cbv zeta. split; [exact Ha|]. split; [left; reflexivity|].
    intros x [<-|[]]. now apply leb_refl.
  - inversion Hl as [|? ? Hy Hl']; subst.
    assert (Hm : ordered (fmax a y)) by (unfold fmax; destruct (Flt.gtb y a); assumption).
    destruct (IH (fmax a y) Hm Hl') as (Ho & Hin & Hub).
    cbv zeta. split; [exact Ho|]. split.
    + destruct Hin as [Hin|Hin]; [|right; right; exact Hin].
      rewrite <- Hin. unfold fmax. destruct (Flt.gtb y a); [right; left|left]; reflexivity.
    + assert (Ha' : Flt.leb a (fmax a y) = true).
      { unfold fmax, Flt.gtb. fold (Flt.ltb a y).
        destruct (Flt.ltb a y) eqn:E.
        - apply (ltb_leb_trans a y y); auto using leb_refl.
        - now apply leb_refl. }
      assert (Hy' : Flt.leb y (fmax a y) = true).
      { unfold fmax, Flt.gtb. fold (Flt.ltb a y).
        destruct (Flt.ltb a y) eqn:E.
        - now apply leb_refl.
        - now apply not_ltb_leb. }
      assert (Hmm : Flt.leb (fmax a y) (fold_left fmax l (fmax a y)) = true)
        by (apply Hub; left; reflexivity).
      assert (Hle : forall u, ordered u -> Flt.leb u (fmax a y) = true ->
                              Flt.leb u (fold_left fmax l (fmax a y)) = true).
      { intros u Hu Hle.
        apply (leb_lexlt u _ Hu Hm) in Hle. apply (leb_lexlt _ _ Hm Ho) in Hmm.
        apply leb_lexlt; [exact Hu | exact Ho|]. unfold lexlt in *.
        destruct (fkey u) as [[a1 b1] c1], (fkey (fmax a y)) as [[a2 b2] c2],
                 (fkey (fold_left fmax l (fmax a y))) as [[a3 b3] c3]. lia. }
      intros x [<-|[<-|Hx]].
      * now apply Hle.
      * now apply Hle.
      * apply Hub. right. exact Hx.
Qed.

Lemma fold_fmin_spec (l : list spec_float) (a : spec_float) :
  ordered a -> Forall ordered l ->
  let m := fold_left fmin l a in
  ordered m /\ In m (a :: l) /\
  (forall x, In x (a :: l) -> Flt.leb m x = true).
Proof.
  revert a. induction l as [|y l IH]; intros a Ha Hl; cbn [fold_left].
  - cbv zeta. split; [exact Ha|]. split; [left; reflexivity|].
    intros x [<-|[]]. now apply leb_refl.
  - inversion Hl as [|? ? Hy Hl']; subst.
    assert (Hm : ordered (fmin a y)) by (unfold fmin; destruct (Flt.ltb y a); assumption).
    destruct (IH (fmin a y) Hm Hl') as (Ho & Hin & Hlb).
    cbv zeta. split; [exact Ho|]. split.
    + destruct Hin as [Hin|Hin]; [|right; right; exact Hin].
      rewrite <- Hin. unfold fmin. destruct (Flt.ltb y a); [right; left|left]; reflexivity.
    + assert (Ha' : Flt.leb (fmin a y) a = true).
      { unfold fmin. destruct (Flt.ltb y a) eqn:E.
        - apply (ltb_leb_trans y a a); auto using leb_refl.
        - now apply leb_refl. }
      assert (Hy' : Flt.leb (fmin a y) y = true).
      { unfold fmin. destruct (Flt.ltb y a) eqn:E.
        - now apply leb_refl.
        - now apply not_ltb_leb. }
      assert (Hmm : Flt.leb (fold_left fmin l (fmin a y)) (fmin a y) = true)
        by (apply Hlb; left; reflexivity).
      assert (Hle : forall u, ordered u -> Flt.leb (fmin a y) u = true ->
                              Flt.leb (fold_left fmin l (fmin a y)) u = true).
      { intros u Hu Hle.
        apply (leb_lexlt _ u Hm Hu) in Hle. apply (leb_lexlt _ _ Ho Hm) in Hmm.
        apply leb_lexlt; [exact Ho | exact Hu|]. unfold lexlt in *.
        destruct (fkey u) as [[a1 b1] c1], (fkey (fmin a y)) as [[a2 b2] c2],
                 (fkey (fold_left fmin l (fmin a y))) as [[a3 b3] c3]. lia. }
      intros x [<-|[<-|Hx]].
      * now apply Hle.
      * now apply Hle.
      * apply Hlb. right. exact Hx.
Qed.

End FloatOrder.

(** ** Daily aggregation *)

Section Aggregation.

Variable yday : Z -> Z.

Lemma accum_snoc run x :
  run <> [] -> accum (run ++ [x]) = sameDay (snd x) (accum run).
Proof.
  destruct run as [|[i f] rest]; [congruence|]. intros _.
  cbn [accum app]. now rewrite fold_left_app.
Qed.

Lemma accum_count run :
  run <> [] -> Z.of_nat (length run) <= CInt.INT_MAX ->
  cloudCoverCount (accum run) = Z.of_nat (length run).
Proof.
  induction run as [|x run IH] using rev_ind; [congruence|].
  intros _ Hlen. rewrite length_app in Hlen. cbn [length] in Hlen.
  destruct run as [|y run'].
  - destruct x as [i f]. reflexivity.
  - rewrite accum_snoc by discriminate. cbn [sameDay cloudCoverCount].
    rewrite IH by (try discriminate; lia).
    rewrite length_app. cbn [length]. unfold CInt.add.
    rewrite wrap32_id
      by (cbn [length] in *; int_range).
    lia.
Qed.

Lemma take_finalizeLast n days a :
  (1 <= n)%nat -> days !! (n - 1)%nat = Some a -> 0 < cloudCoverCount a ->
  take n (finalizeLast n days) = take (n - 1) days ++ [average a].
Proof.
  intros Hn Hl Hc. unfold finalizeLast.
  rewrite (nth_lookup_Some _ _ _ _ Hl).
  destruct (Nat.ltb_spec 0 n) as [_|?]; [|lia].
  destruct (Z.ltb_spec 0 (cloudCoverCount a)) as [_|?]; [|lia].
  cbn [andb].
  replace n with (S (n - 1)) at 1 by lia.
  rewrite (take_S_r _ _ (average a)).
  - now rewrite take_alter_ge by lia.
  - rewrite list_lookup_alter_eq, Hl. reflexivity.
Qed.

Lemma indexed_cons i f l : indexed i (f :: l) = (i, f) :: indexed (S i) l.
Proof. reflexivity. Qed.

(** The loop, started inside a day, closes the days of the remaining
    periods run by run. *)
Lemma groupLoop_runs l : forall i days n d open,
  (1 <= n <= 5)%nat -> length days = 5%nat -> open <> [] ->
  days !! (n - 1)%nat = Some (accum open) ->
  Z.of_nat (length open + length l) <= CInt.INT_MAX ->
  let st := groupLoop yday l i (mkAgg days n d) in
  take (dayCount st) (finalizeLast (dayCount st) (dailyForecasts st)) =
  take (n - 1) days ++
  take (5 - (n - 1)) (map (fun r => average (accum r))
                          (runsFrom yday d open (indexed i l))).
Proof.
  induction l as [|f rest IH]; intros i days n d open Hn Hlen Hopen Hlast Hmax.
  - cbn [groupLoop indexed runsFrom map dayCount dailyForecasts]. cbv zeta.
    cbn [groupLoop dayCount dailyForecasts].
    rewrite (take_finalizeLast n days (accum open)); [|lia|exact Hlast|].
    + change (indexed i []) with (@nil (nat * Forecast_record)).
      destruct (5 - (n - 1))%nat eqn:E; [lia|].
      cbn [runsFrom map take]. now rewrite take_nil.
    + rewrite accum_count; [|exact Hopen|lia].
      destruct open; [congruence|]. cbn [length]. lia.
  - cbv zeta. rewrite indexed_cons. cbn [groupLoop runsFrom snd].
    cbn [lastDayOfYear dayCount dailyForecasts].
    assert (Hcnt : 0 < cloudCoverCount (accum open)).
    { rewrite accum_count; [|exact Hopen|cbn [length] in Hmax; lia].
      destruct open; [congruence|]. cbn [length]. lia. }
    destruct (Z.eqb_spec (yday (Dt f)) d) as [Hd|Hd]; cbn [negb].
    + (* same day *)
      destruct (Nat.ltb_spec 0 n) as [_|?]; [|lia].
      specialize (IH (S i) (alter (sameDay f) (n - 1)%nat days) n d (open ++ [(i, f)])).
      cbv zeta in IH. rewrite IH.
      * now rewrite take_alter_ge by lia.
      * exact Hn.
      * now rewrite length_alter.
      * destruct open; discriminate.
      * rewrite list_lookup_alter_eq, Hlast, accum_snoc by exact Hopen. reflexivity.
      * rewrite length_app. cbn [length] in *. lia.
    + (* another day *)
      destruct (Nat.ltb_spec n 5) as [Hlt|Hge].
      * specialize (IH (S i)
                       (<[n := newDay i f]> (finalizeLast n days)) (S n)
                       (yday (Dt f)) [(i, f)]).
        cbv zeta in IH.
        assert (Hfl : length (finalizeLast n days) = 5%nat).
        { unfold finalizeLast. destruct (_ && _); [rewrite length_alter|]; exact Hlen. }
        rewrite IH.
        -- replace (S n - 1)%nat with n by lia.
           rewrite take_insert_ge by lia.
           rewrite (take_finalizeLast n days (accum open)); [|lia|exact Hlast|exact Hcnt].
           replace (5 - (n - 1))%nat with (S (5 - n)) by lia.
           cbn [map take]. now rewrite <- app_assoc.
        -- lia.
        -- now rewrite length_insert.
        -- discriminate.
        -- replace (S n - 1)%nat with n by lia.
           rewrite list_lookup_insert_eq by lia. reflexivity.
        -- cbn [length] in *. lia.
      * assert (n = 5%nat) as -> by lia.
        cbn [dayCount dailyForecasts].
        rewrite (take_finalizeLast 5 days (accum open)); [|lia|exact Hlast|exact Hcnt].
        reflexivity.
Qed.

(** From the start: the day summaries are those of the first five runs. *)
Lemma aggregateDaily_runs forecast uninit :
  length uninit = 5%nat ->
  Forall (fun f => 0 <= yday (Dt f)) forecast ->
  Z.of_nat (length forecast) <= CInt.INT_MAX ->
  aggregateDaily yday forecast uninit =
  take 5 (map (fun r => average (accum r)) (dayRuns yday (indexed 0 forecast))).
Proof.
  intros Hlen Hy Hmax. unfold aggregateDaily.
  destruct forecast as [|f rest]; [reflexivity|].
  inversion Hy as [|? ? Hf _]; subst.
  rewrite indexed_cons. cbn [groupLoop dayRuns snd lastDayOfYear dayCount dailyForecasts].
  destruct (Z.eqb_spec (yday (Dt f)) (-1)) as [E|_]; [lia|]. cbn [negb].
  change (0 <? 5)%nat with true. cbv iota.
  pose proof (groupLoop_runs rest 1 (<[0%nat := newDay 0 f]> (finalizeLast 0 uninit))
                1 (yday (Dt f)) [(0%nat, f)]) as H.
  cbv zeta in H. rewrite H; clear H.
  - reflexivity.
  - lia.
  - rewrite length_insert. unfold finalizeLast. cbn. exact Hlen.
  - discriminate.
  - rewrite list_lookup_insert_eq; [reflexivity|].
    unfold finalizeLast. cbn. lia.
  - cbn [length] in *. lia.
Qed.


(** *** What a day's summary holds *)

Lemma fold_sameDay_fields (rest : list (nat * Forecast_record)) : forall d,
  let r := fold_left (fun d x => sameDay (snd x) d) rest d in
  highTemp r = fold_left fmax (map High (map snd rest)) (highTemp d) /\
  lowTemp r = fold_left fmin (map Low (map snd rest)) (lowTemp d) /\
  maxPop r = fold_left fmax (map Pop (map snd rest)) (maxPop d) /\
  totalRainfall r = fold_left F32.add (map Rainfall (map snd rest)) (totalRainfall d) /\
  totalSnowfall r = fold_left F32.add (map Snowfall (map snd rest)) (totalSnowfall d) /\
  firstPeriodIndex r = firstPeriodIndex d /\
  dayTime r = dayTime d.
Proof.
  induction rest as [|x rest IH]; intros d; cbv zeta.
  - cbn. tauto.
  - cbn [fold_left map]. specialize (IH (sameDay (snd x) d)). cbv zeta in IH.
    destruct IH as (H1 & H2 & H3 & H4 & H5 & H6 & H7).
    rewrite H1, H2, H3, H4, H5, H6, H7. cbn [sameDay highTemp lowTemp maxPop
      totalRainfall totalSnowfall firstPeriodIndex dayTime]. unfold fmax, fmin. tauto.
Qed.

Lemma fold_sameDay_cloud (rest : list (nat * Forecast_record)) : forall d,
  0 <= totalCloudCover d -> 0 <= cloudCoverCount d ->
  Forall (fun x => percent (Cloudcover (snd x))) rest ->
  totalCloudCover d + 100 * Z.of_nat (length rest) <= CInt.INT_MAX ->
  cloudCoverCount d + Z.of_nat (length rest) <= CInt.INT_MAX ->
  let r := fold_left (fun d x => sameDay (snd x) d) rest d in
  totalCloudCover r = fold_left Z.add (map Cloudcover (map snd rest)) (totalCloudCover d) /\
  cloudCoverCount r = cloudCoverCount d + Z.of_nat (length rest) /\
  0 <= totalCloudCover r <= totalCloudCover d + 100 * Z.of_nat (length rest).
Proof.
  induction rest as [|x rest IH]; intros d Ht Hc Hp Hmax Hcmax; cbv zeta.
  - cbn. lia.
  - inversion Hp as [|? ? Hx Hp']; subst. unfold percent in Hx.
    cbn [length] in Hmax, Hcmax. cbn [fold_left map].
    assert (Et : totalCloudCover (sameDay (snd x) d)
                 = totalCloudCover d + Cloudcover (snd x)).
    { cbn [sameDay totalCloudCover]. unfold CInt.add. apply wrap32_id.
      int_range. }
    assert (Ec : cloudCoverCount (sameDay (snd x) d) = cloudCoverCount d + 1).
    { cbn [sameDay cloudCoverCount]. unfold CInt.add. apply wrap32_id.
      int_range. }
    specialize (IH (sameDay (snd x) d)). cbv zeta in IH.
    rewrite Et, Ec in IH.
    destruct IH as (H1 & H2 & H3); try assumption; try lia.
    rewrite H1, H2. cbn [length]. lia.
Qed.

Lemma average_accum (run : list (nat * Forecast_record)) :
  run <> [] ->
  Forall (fun x => percent (Cloudcover (snd x))) run ->
  100 * Z.of_nat (length run) <= CInt.INT_MAX ->
  average (accum run) = summary run.
Proof.
  destruct run as [|[i f] rest]; [congruence|]. intros _ Hp Hmax.
  inversion Hp as [|? ? Hf Hp']; subst. unfold percent in Hf. cbn [snd] in Hf.
  cbn [length] in Hmax.
  unfold accum, summary.
  pose proof (fold_sameDay_fields rest (newDay i f)) as HF. cbv zeta in HF.
  destruct HF as (H1 & H2 & H3 & H4 & H5 & H6 & H7).
  pose proof (fold_sameDay_cloud rest (newDay i f)) as HC. cbv zeta in HC.
  cbn [newDay totalCloudCover cloudCoverCount] in HC.
  destruct HC as (C1 & C2 & C3); try assumption; try lia.
  unfold average. rewrite H1, H2, H3, H4, H5, H6, H7, C1, C2.
  cbn [newDay highTemp lowTemp maxPop totalRainfall totalSnowfall
       firstPeriodIndex dayTime totalCloudCover length].
  rewrite C1 in C3. cbn [newDay totalCloudCover] in C3.
  set (total := fold_left Z.add (map Cloudcover (map snd rest)) (Cloudcover f)) in *.
  replace (1 + Z.of_nat (length rest)) with (Z.of_nat (S (length rest))) by lia.
  f_equal. unfold CInt.div. apply wrap32_id.
  rewrite Z.quot_div_nonneg by lia.
  assert (0 <= total / Z.of_nat (S (length rest)) <= total).
  { split; [apply Z.div_pos; lia|].
    apply Z.div_le_upper_bound; [lia|]. nia. }
  int_range.
Qed.

(** *** The runs partition the sequence *)

Lemma runsFrom_concat l : forall d open,
  concat (runsFrom yday d open l) = open ++ l.
Proof.
  induction l as [|x l IH]; intros d open; cbn [runsFrom].
  - cbn. reflexivity.
  - destruct (yday (Dt (snd x)) =? d).
    + rewrite IH, <- app_assoc. reflexivity.
    + cbn [concat]. rewrite IH. reflexivity.
Qed.

Lemma runsFrom_nonempty l : forall d open r,
  open <> [] -> In r (runsFrom yday d open l) -> r <> [].
Proof.
  induction l as [|x l IH]; intros d open r Ho; cbn [runsFrom].
  - intros [<-|[]]. exact Ho.
  - destruct (yday (Dt (snd x)) =? d).
    + apply IH. destruct open; discriminate.
    + intros [<-|Hr]; [exact Ho|]. eapply IH; [|exact Hr]. discriminate.
Qed.

Lemma runsFrom_sameday l : forall d open r,
  Forall (fun x => yday (Dt (snd x)) = d) open ->
  In r (runsFrom yday d open l) ->
  exists d', Forall (fun x => yday (Dt (snd x)) = d') r.
Proof.
  induction l as [|x l IH]; intros d open r Ho; cbn [runsFrom].
  - intros [<-|[]]. eauto.
  - destruct (Z.eqb_spec (yday (Dt (snd x))) d) as [E|E].
    + apply IH. apply Forall_app. split; [exact Ho|]. constructor; [exact E|constructor].
    + intros [<-|Hr]; [eauto|]. eapply IH; [|exact Hr].
      constructor; [reflexivity|constructor].
Qed.

Lemma In_concat_length {A} (r : list A) (ls : list (list A)) :
  In r ls -> (length r <= length (concat ls))%nat.
Proof.
  induction ls as [|y ls IH]; intros []; cbn [concat]; rewrite length_app.
  - subst. lia.
  - specialize (IH H). lia.
Qed.

Lemma In_concat_In {A} (x : A) (r : list A) (ls : list (list A)) :
  In r ls -> In x r -> In x (concat ls).
Proof. intros Hr Hx. apply in_concat. eauto. Qed.

Lemma indexed_length i l : length (indexed i l) = length l.
Proof.
  revert i. induction l as [|f l IH]; intros i; [reflexivity|].
  rewrite indexed_cons. cbn [length]. now rewrite IH.
Qed.

Lemma indexed_In i l x : In x (indexed i l) -> In (snd x) l.
Proof.
  revert i. induction l as [|f l IH]; intros i; [intros []|].
  rewrite indexed_cons. intros [<-|H]; [left; reflexivity|right; eauto].
Qed.

Lemma indexed_app i l1 l2 :
  indexed i (l1 ++ l2) = indexed i l1 ++ indexed (i + length l1) l2.
Proof.
  revert i. induction l1 as [|f l1 IH]; intros i.
  - cbn [app length]. rewrite Nat.add_0_r. reflexivity.
  - cbn [app length]. rewrite !indexed_cons, IH. cbn [app].
    replace (S i + length l1)%nat with (i + S (length l1))%nat by lia. reflexivity.
Qed.

Lemma dayRuns_concat l : concat (dayRuns yday l) = l.
Proof. destruct l as [|x l]; [reflexivity|]. cbn [dayRuns]. apply runsFrom_concat. Qed.

Lemma dayRuns_nonempty l r : In r (dayRuns yday l) -> r <> [].
Proof.
  destruct l as [|x l]; [intros []|]. cbn [dayRuns].
  apply runsFrom_nonempty. discriminate.
Qed.

Lemma dayRuns_sameday l r :
  In r (dayRuns yday l) -> exists d, Forall (fun x => yday (Dt (snd x)) = d) r.
Proof.
  destruct l as [|x l]; [intros []|]. cbn [dayRuns].
  apply runsFrom_sameday. constructor; [reflexivity|constructor].
Qed.

Lemma runsFrom_same l1 : forall d open l2,
  Forall (fun x => yday (Dt (snd x)) = d) l1 ->
  runsFrom yday d open (l1 ++ l2) = runsFrom yday d (open ++ l1) l2.
Proof.
  induction l1 as [|x l1 IH]; intros d open l2 H.
  - cbn [app]. now rewrite app_nil_r.
  - inversion H as [|? ? Hx H']; subst. cbn [app runsFrom].
    rewrite Z.eqb_refl. rewrite IH by exact H'. now rewrite <- app_assoc.
Qed.

Lemma indexed_Forall (P : Forecast_record -> Prop) i l :
  Forall P l -> Forall (fun x => P (snd x)) (indexed i l).
Proof.
  revert i. induction l as [|f l IH]; intros i H; [constructor|].
  inversion H; subst. rewrite indexed_cons. constructor; [assumption|now apply IH].
Qed.


(** The first run is the one under way, continued. *)
Lemma runsFrom_head l : forall d (open : list (nat * Forecast_record)),
  Forall (fun x => yday (Dt (snd x)) = d) open ->
  exists r rs, runsFrom yday d open l = r :: rs /\
               Forall (fun x => yday (Dt (snd x)) = d) r.
Proof.
  induction l as [|x l IH]; intros d open Ho; cbn [runsFrom].
  - eauto.
  - destruct (Z.eqb_spec (yday (Dt (snd x))) d) as [E|E]; [|eauto].
    apply IH. apply Forall_app. split; [exact Ho|]. constructor; [exact E|constructor].
Qed.

(** Neighbouring runs are of different days: a run ends exactly where the
    day-of-year changes. *)
Lemma runsFrom_adjacent l : forall d (open : list (nat * Forecast_record)) k r1 r2,
  Forall (fun x => yday (Dt (snd x)) = d) open ->
  runsFrom yday d open l !! k = Some r1 ->
  runsFrom yday d open l !! S k = Some r2 ->
  exists d1 d2, d1 <> d2 /\
    Forall (fun x => yday (Dt (snd x)) = d1) r1 /\
    Forall (fun x => yday (Dt (snd x)) = d2) r2.
Proof.
  induction l as [|x l IH]; intros d open k r1 r2 Ho; cbn [runsFrom].
  - intros _ H. destruct k; discriminate.
  - destruct (Z.eqb_spec (yday (Dt (snd x))) d) as [E|E].
    + apply IH. apply Forall_app. split; [exact Ho|]. constructor; [exact E|constructor].
    + assert (Hx : Forall (fun y => yday (Dt (snd y)) = yday (Dt (snd x))) [x])
        by (constructor; [reflexivity|constructor]).
      destruct k as [|k]; cbn [lookup list_lookup].
      * intros H1 H2. injection H1 as <-.
        destruct (runsFrom_head l _ [x] Hx) as (r & rs & Hr & Hday).
        rewrite Hr in H2. cbn in H2. injection H2 as <-.
        exists d, (yday (Dt (snd x))). split; [congruence|]. split; assumption.
      * apply IH. exact Hx.
Qed.

Lemma dayRuns_adjacent l k r1 r2 :
  dayRuns yday l !! k = Some r1 -> dayRuns yday l !! S k = Some r2 ->
  exists d1 d2, d1 <> d2 /\
    Forall (fun x => yday (Dt (snd x)) = d1) r1 /\
    Forall (fun x => yday (Dt (snd x)) = d2) r2.
Proof.
  destruct l as [|x l]; [discriminate|]. cbn [dayRuns].
  apply runsFrom_adjacent. constructor; [reflexivity|constructor].
Qed.

End Aggregation.

Lemma summary_bounds (r : list (nat * Forecast_record)) :
  Forall (fun x => ordered (High (snd x)) /\ ordered (Low (snd x))) r ->
  forall x, In x r ->
    Flt.leb (High (snd x)) (highTemp (summary r)) = true /\
    Flt.leb (lowTemp (summary r)) (Low (snd x)) = true.
Proof.
  destruct r as [|[i f] rest]; [intros _ x []|].
  intros Ho x Hx. inversion Ho as [|? ? [Hh Hl] Ho']; subst. cbn [snd] in Hh, Hl.
  cbn [summary highTemp lowTemp].
  assert (HH : Forall ordered (map High (map snd rest))).
  { apply List.Forall_forall. intros y Hy.
    apply in_map_iff in Hy as (g & <- & Hg). apply in_map_iff in Hg as (z & <- & Hz).
    exact (proj1 (proj1 (List.Forall_forall _ _) Ho' z Hz)). }
  assert (HL : Forall ordered (map Low (map snd rest))).
  { apply List.Forall_forall. intros y Hy.
    apply in_map_iff in Hy as (g & <- & Hg). apply in_map_iff in Hg as (z & <- & Hz).
    exact (proj2 (proj1 (List.Forall_forall _ _) Ho' z Hz)). }
  destruct (fold_fmax_spec _ _ Hh HH) as (_ & _ & Hub).
  destruct (fold_fmin_spec _ _ Hl HL) as (_ & _ & Hlb).
  split.
  - apply Hub. destruct Hx as [<-|Hx]; [left; reflexivity|right].
    apply in_map, in_map. exact Hx.
  - apply Hlb. destruct Hx as [<-|Hx]; [left; reflexivity|right].
    apply in_map, in_map. exact Hx.
Qed.

Lemma summary_attained (r : list (nat * Forecast_record)) :
  r <> [] ->
  Forall (fun x => ordered (High (snd x)) /\ ordered (Low (snd x))) r ->
  In (highTemp (summary r)) (map (fun x => High (snd x)) r) /\
  In (lowTemp (summary r)) (map (fun x => Low (snd x)) r).
Proof.
  destruct r as [|[i f] rest]; [congruence|].
  intros _ Ho. inversion Ho as [|? ? [Hh Hl] Ho']; subst. cbn [snd] in Hh, Hl.
  cbn [summary highTemp lowTemp].
  assert (HH : Forall ordered (map High (map snd rest))).
  { apply List.Forall_forall. intros y Hy.
    apply in_map_iff in Hy as (g & <- & Hg). apply in_map_iff in Hg as (z & <- & Hz).
    exact (proj1 (proj1 (List.Forall_forall _ _) Ho' z Hz)). }
  assert (HL : Forall ordered (map Low (map snd rest))).
  { apply List.Forall_forall. intros y Hy.
    apply in_map_iff in Hy as (g & <- & Hg). apply in_map_iff in Hg as (z & <- & Hz).
    exact (proj2 (proj1 (List.Forall_forall _ _) Ho' z Hz)). }
  destruct (fold_fmax_spec _ _ Hh HH) as (_ & Hin1 & _).
  destruct (fold_fmin_spec _ _ Hl HL) as (_ & Hin2 & _).
  cbn [map snd]. rewrite <- !(map_map snd). split; assumption.
Qed.

Lemma three_runs (yday : Z -> Z) (l1 l2 l3 : list Forecast_record) (d1 d2 d3 : Z) :
  l1 <> [] -> l2 <> [] -> l3 <> [] ->
  Forall (fun f => yday (Dt f) = d1) l1 ->
  Forall (fun f => yday (Dt f) = d2) l2 ->
  Forall (fun f => yday (Dt f) = d3) l3 ->
  d1 <> d2 -> d2 <> d3 ->
  dayRuns yday (indexed 0 (l1 ++ l2 ++ l3)) =
  [indexed 0 l1; indexed (length l1) l2; indexed (length l1 + length l2) l3].
Proof.
  intros N1 N2 N3 H1 H2 H3 D12 D23.
  rewrite !indexed_app. cbn [Nat.add].
  assert (I1 := indexed_Forall (fun f => yday (Dt f) = d1) 0 l1 H1).
  assert (I2 := indexed_Forall (fun f => yday (Dt f) = d2) (length l1) l2 H2).
  assert (I3 := indexed_Forall (fun f => yday (Dt f) = d3)
                  (length l1 + length l2) l3 H3).
  cbv beta in I1, I2, I3.
  assert (M1 : indexed 0 l1 <> [])
    by (intros E; apply N1, length_zero_iff_nil; rewrite <- (indexed_length 0), E; reflexivity).
  assert (M2 : indexed (length l1) l2 <> [])
    by (intros E; apply N2, length_zero_iff_nil;
        rewrite <- (indexed_length (length l1)), E; reflexivity).
  assert (M3 : indexed (length l1 + length l2) l3 <> [])
    by (intros E; apply N3, length_zero_iff_nil;
        rewrite <- (indexed_length (length l1 + length l2)), E; reflexivity).
  destruct (indexed 0 l1) as [|x1 r1]; [congruence|].
  destruct (indexed (length l1) l2) as [|x2 r2]; [congruence|].
  destruct (indexed (length l1 + length l2) l3) as [|x3 r3]; [congruence|].
  inversion I1 as [|? ? E1 I1']; inversion I2 as [|? ? E2 I2'];
    inversion I3 as [|? ? E3 I3']; subst.
  cbn [app dayRuns].
  rewrite runsFrom_same by exact I1'. cbn [app runsFrom].
  destruct (Z.eqb_spec (yday (Dt (snd x2))) (yday (Dt (snd x1)))) as [E|_]; [congruence|].
  rewrite runsFrom_same by exact I2'. cbn [app runsFrom].
  destruct (Z.eqb_spec (yday (Dt (snd x3))) (yday (Dt (snd x2)))) as [E|_]; [congruence|].
  rewrite <- (app_nil_r r3) at 1.
  rewrite runsFrom_same by exact I3'. reflexivity.
Qed.

(** C4.  The grouping loop of [drawForecast].  One left-to-right scan
    opens a new day exactly when the local day-of-year differs from that of
    the previous period: the runs partition the sequence, each is of one
    day and neighbours are of different days.  The result is one summary
    per run, in order, cut after the fifth ([min (runs, 5)] summaries,
    later input ignored).  A summary holds the maximum of its periods'
    highs (so it is at least every one of them), the minimum of their lows,
    the mean cloud cover (sum / count, an integer quotient), the maximal
    precipitation probability, the sums of rain and snow, and its first
    period's timestamp.  A sequence that spans exactly three days gives
    exactly three summaries.  Day-of-year is never negative, cloud cover is
    a percentage, temperatures compared are not NaN. *)
Theorem daily_aggregation (yday : Z -> Z) (forecast : list Forecast_record)
  (uninit : list DailyForecast) :
  length uninit = 5%nat ->
  Forall (fun f => 0 <= yday (Dt f) /\ percent (Cloudcover f)) forecast ->
  Z.of_nat (length forecast) <= 20000000 ->
  let days := aggregateDaily yday forecast uninit in
  let runs := dayRuns yday (indexed 0 forecast) in
  days = dailySummaries yday forecast /\
  days = take 5 (map summary runs) /\
  length days = Nat.min (length runs) 5 /\
  concat runs = indexed 0 forecast /\
  (forall r, In r runs ->
     r <> [] /\ exists d, Forall (fun x => yday (Dt (snd x)) = d) r) /\
  (forall k r1 r2, runs !! k = Some r1 -> runs !! S k = Some r2 ->
     exists d1 d2, d1 <> d2 /\
       Forall (fun x => yday (Dt (snd x)) = d1) r1 /\
       Forall (fun x => yday (Dt (snd x)) = d2) r2) /\
  (forall r, In r runs ->
     Forall (fun x => ordered (High (snd x)) /\ ordered (Low (snd x))) r ->
     (forall x, In x r ->
        Flt.leb (High (snd x)) (highTemp (summary r)) = true /\
        Flt.leb (lowTemp (summary r)) (Low (snd x)) = true) /\
     In (highTemp (summary r)) (map (fun x => High (snd x)) r) /\
     In (lowTemp (summary r)) (map (fun x => Low (snd x)) r)) /\
  (forall l1 l2 l3 d1 d2 d3,
     forecast = l1 ++ l2 ++ l3 ->
     l1 <> [] -> l2 <> [] -> l3 <> [] ->
     Forall (fun f => yday (Dt f) = d1) l1 ->
     Forall (fun f => yday (Dt f) = d2) l2 ->
     Forall (fun f => yday (Dt f) = d3) l3 ->
     d1 <> d2 -> d2 <> d3 ->
     days = [summary (indexed 0 l1); summary (indexed (length l1) l2);
             summary (indexed (length l1 + length l2) l3)]).
Proof.
  intros Hu Hf Hlen days runs.
  assert (Hdays : days = take 5 (map summary runs)).
  { unfold days. rewrite aggregateDaily_runs; [|exact Hu| |unfold CInt.INT_MAX; lia].
    - f_equal. apply map_ext_in. intros r Hr. fold runs in Hr.
      assert (Hsub : forall x, In x r -> In (snd x) forecast).
      { intros x Hx. apply (indexed_In 0).
        rewrite <- (dayRuns_concat yday (indexed 0 forecast)).
        eapply In_concat_In; eassumption. }
      apply average_accum.
      + eapply dayRuns_nonempty; exact Hr.
      + apply List.Forall_forall. intros x Hx.
        exact (proj2 (proj1 (List.Forall_forall _ _) Hf _ (Hsub x Hx))).
      + pose proof (In_concat_length r _ Hr) as Hl.
        unfold runs in Hl. rewrite dayRuns_concat, indexed_length in Hl.
        unfold CInt.INT_MAX. lia.
    - eapply Forall_impl; [exact Hf|]. intros f [H _]. exact H. }
  split; [exact Hdays|]. split; [exact Hdays|].
  split; [rewrite Hdays, length_take, length_map; lia|].
  split; [apply dayRuns_concat|].
  split.
  { intros r Hr. split; [eapply dayRuns_nonempty; exact Hr|].
    eapply dayRuns_sameday; exact Hr. }
  split; [apply dayRuns_adjacent|].
  split.
  { intros r Hr Ho. split; [now apply summary_bounds|].
    apply summary_attained; [eapply dayRuns_nonempty; exact Hr|exact Ho]. }
  intros l1 l2 l3 d1 d2 d3 -> N1 N2 N3 H1 H2 H3 D12 D23.
  rewrite Hdays. unfold runs.
  rewrite (three_runs yday l1 l2 l3 d1 d2 d3) by assumption. reflexivity.
Qed.

(** Five hourly periods over three days: three summaries. *)
Lemma daily_aggregation_witness :
  length (aggregateDaily utc_yday
            [period 0 (f32_lit 50 1) 10; period 3600 (f32_lit 70 1) 30;
             period 86400 (f32_lit 20 1) 80; period 172800 (f32_lit 90 1) 0;
             period 176400 (f32_lit 40 1) 100]
            (replicate 5 DF0)) = 3%nat.
Proof.
  pose proof (daily_aggregation utc_yday
            [period 0 (f32_lit 50 1) 10; period 3600 (f32_lit 70 1) 30;
             period 86400 (f32_lit 20 1) 80; period 172800 (f32_lit 90 1) 0;
             period 176400 (f32_lit 40 1) 100]
            (replicate 5 DF0)) as H.
  cbv zeta in H.
  destruct H as (_ & _ & H & _).
  - reflexivity.
  - repeat (apply List.Forall_cons;
              [split; [vm_compute; discriminate | unfold percent; cbn; lia]|]).
    apply List.Forall_nil.
  - cbn. lia.
  - rewrite H. reflexivity.
Defined.

(** ** Icon classification *)

(** The thresholds are strict and compared in [double]: exactly 0.5 of
    snow is not snow yet, while a probability of 0.3 stored as a [float]
    (a little above 0.3) exceeds the [double] 0.3 (a little below). *)
Example thresholds_in_double :
  exceeds (f32_lit 5 1) d0_5 = false /\ exceeds (f32_lit 6 1) d0_5 = true /\
  exceeds (f32_lit 3 1) d0_3 = true.
Proof. repeat split; reflexivity. Qed.



(** ** Graph: horizontal partition *)

Section BarPartition.

Variables gx gw n : Z.
Hypothesis Hn : 1 <= n <= CInt.INT_MAX.
Hypothesis Hgw : 0 <= gw.
Hypothesis Hgx : CInt.INT_MIN <= gx.
Hypothesis Hright : gx + gw <= CInt.INT_MAX.
Hypothesis Hprod : n * gw <= CInt.INT_MAX.

Local Abbreviation edge := (columnEdge gx gw n).

Lemma edge_bounds i : 0 <= i <= n -> 0 <= (i * gw) / n <= gw.
Proof.
  intros Hi. split.
  - apply Z.div_pos; nia.
  - apply Z.div_le_upper_bound; nia.
Qed.

Lemma edge_mono i : 0 <= i -> edge i <= edge (i + 1).
Proof.
  intros Hi. unfold columnEdge. apply Z.add_le_mono_l, Z.div_le_mono; nia.
Qed.

Lemma edge_last : edge n = gx + gw.
Proof. unfold columnEdge. rewrite (Z.mul_comm n gw), Z.div_mul by lia. reflexivity. Qed.

Lemma edge_first : edge 0 = gx.
Proof. unfold columnEdge. rewrite Z.mul_0_l, Z.div_0_l by lia. lia. Qed.

Lemma scaled_exact i :
  0 <= i <= n ->
  CInt.add gx (CInt.div (CInt.mul i gw) n) = edge i.
Proof.
  intros Hi. pose proof (edge_bounds i Hi) as Hb.
  unfold CInt.add, CInt.div, CInt.mul, columnEdge.
  rewrite (wrap32_id (i * gw))
    by (int_range).
  rewrite Z.quot_div_nonneg by nia.
  rewrite (wrap32_id (i * gw / n))
    by (int_range).
  apply wrap32_id. int_range.
Qed.

Lemma barX_edge i : 0 <= i < n -> Graph.barX gx gw n i = edge i.
Proof. intros Hi. unfold Graph.barX. apply scaled_exact. lia. Qed.

Lemma nextBarX_edge i : 0 <= i < n -> Graph.nextBarX gx gw n i = edge (i + 1).
Proof.
  intros Hi. unfold Graph.nextBarX.
  replace (CInt.sub n 1) with (n - 1)
    by (unfold CInt.sub; symmetry; apply wrap32_id;
        int_range).
  destruct (Z.ltb_spec i (n - 1)) as [Hlt|Hge].
  - replace (CInt.add i 1) with (i + 1)
      by (unfold CInt.add; symmetry; apply wrap32_id;
          int_range).
    apply scaled_exact. lia.
  - replace (i + 1) with n by lia. rewrite edge_last.
    unfold CInt.add. apply wrap32_id.
    int_range.
Qed.

Lemma width_edge i :
  0 <= i < n -> Graph.currentBarWidth gx gw n i = edge (i + 1) - edge i.
Proof.
  intros Hi. unfold Graph.currentBarWidth.
  rewrite nextBarX_edge, barX_edge by exact Hi.
  pose proof (edge_bounds i ltac:(lia)). pose proof (edge_bounds (i + 1) ltac:(lia)).
  pose proof (edge_mono i ltac:(lia)).
  assert (gw <= CInt.INT_MAX) by nia.
  unfold CInt.sub. apply wrap32_id.
  unfold columnEdge, CInt.in_range, CInt.INT_MIN, CInt.INT_MAX in *. lia.
Qed.

Lemma sumZ_app l1 l2 : sumZ (l1 ++ l2) = sumZ l1 + sumZ l2.
Proof. induction l1 as [|x l1 IH]; cbn; [reflexivity|]. unfold sumZ in *. lia. Qed.

Lemma widths_telescope (k : nat) :
  Z.of_nat k <= n ->
  sumZ (map (fun i => Graph.currentBarWidth gx gw n (Z.of_nat i)) (seq 0 k))
  = edge (Z.of_nat k) - edge 0.
Proof.
  induction k as [|k IH]; intros Hk.
  - cbn [seq map sumZ fold_right]. change (Z.of_nat 0) with 0. lia.
  - rewrite seq_S, map_app, sumZ_app, IH by lia. cbn [Nat.add map sumZ fold_right].
    rewrite width_edge by lia.
    replace (Z.of_nat (S k)) with (Z.of_nat k + 1) by lia. lia.
Qed.

Lemma width_near_equal i :
  0 <= i < n -> gw / n <= edge (i + 1) - edge i <= gw / n + 1.
Proof.
  intros Hi. unfold columnEdge.
  replace ((i + 1) * gw) with (i * gw + gw) by lia.
  pose proof (Z.div_mod (i * gw) n ltac:(lia)).
  pose proof (Z.mod_pos_bound (i * gw) n ltac:(lia)).
  pose proof (Z.div_mod (i * gw + gw) n ltac:(lia)).
  pose proof (Z.mod_pos_bound (i * gw + gw) n ltac:(lia)).
  pose proof (Z.div_mod gw n ltac:(lia)).
  pose proof (Z.mod_pos_bound gw n ltac:(lia)).
  nia.
Qed.

End BarPartition.

(** C7, as stated, fails on "equal-width": with 24 entries over 665 pixels
    the first column is 27 pixels wide and the second 28. *)
Lemma bars_not_equal_width :
  Graph.currentBarWidth 240 665 24 0 = 27 /\
  Graph.currentBarWidth 240 665 24 1 = 28.
Proof. split; reflexivity. Qed.

(** C7, amended.  For [n >= 1] entries and chart width [gw] (within the
    [int] range) the columns [[gx + floor(i*gw/n), gx + floor((i+1)*gw/n))],
    the last right edge forced to [gx + gw], tile the chart exactly: each
    right edge is the next left edge, the first left edge is [gx], the last
    right edge is [gx + gw], and the widths sum to [gw].  The widths are
    equal up to one pixel: each is [floor(gw/n)] or one more.  For 24
    entries over 665 pixels the widths sum to 665. *)
Theorem bar_partition (gx gw n : Z) :
  1 <= n <= CInt.INT_MAX -> 0 <= gw -> CInt.INT_MIN <= gx ->
  gx + gw <= CInt.INT_MAX -> n * gw <= CInt.INT_MAX ->
  (forall i, 0 <= i < n ->
     Graph.barX gx gw n i = gx + (i * gw) / n /\
     Graph.nextBarX gx gw n i = gx + ((i + 1) * gw) / n) /\
  (forall i, 0 <= i < n - 1 ->
     Graph.nextBarX gx gw n i = Graph.barX gx gw n (i + 1)) /\
  Graph.barX gx gw n 0 = gx /\
  Graph.nextBarX gx gw n (n - 1) = gx + gw /\
  sumZ (Graph.barWidths gx gw n) = gw /\
  (forall i, 0 <= i < n ->
     gw / n <= Graph.currentBarWidth gx gw n i <= gw / n + 1) /\
  sumZ (Graph.barWidths Graph.graphX Graph.graphWidth 24) = 665.
Proof.
  intros Hn Hgw Hgx Hright Hprod.
  split.
  { intros i Hi. split.
    - now apply barX_edge.
    - now apply nextBarX_edge. }
  split.
  { intros i Hi. rewrite nextBarX_edge, barX_edge by lia. reflexivity. }
  split.
  { rewrite barX_edge by lia. now apply edge_first. }
  split.
  { rewrite nextBarX_edge by lia. replace (n - 1 + 1) with n by lia.
    now apply edge_last. }
  split.
  { unfold Graph.barWidths. rewrite widths_telescope by lia.
    rewrite Z2Nat.id by lia. rewrite edge_last, edge_first by lia. lia. }
  split; [|reflexivity].
  intros i Hi. rewrite width_edge by assumption. now apply width_near_equal.
Qed.

Lemma bar_partition_witness :
  sumZ (Graph.barWidths 240 665 24) = 665 /\
  Graph.nextBarX 240 665 24 23 = 905.
Proof.
  destruct (bar_partition 240 665 24) as (_ & _ & _ & Hlast & Hsum & _);
    try (unfold CInt.INT_MIN, CInt.INT_MAX; lia).
  split; [exact Hsum | exact Hlast].
Defined.

(** ** Graph: selection *)

Lemma selectLoop_spec now cutoffTime forecast : forall i valid,
  (length valid <= 24)%nat ->
  Forall (fun idx => (idx < i)%nat) valid ->
  let v := Graph.selectLoop now cutoffTime forecast i valid in
  (length v <= 24)%nat /\
  Forall (fun idx => (idx < i + length forecast)%nat) v.
Proof.
  induction forecast as [|f rest IH]; intros i valid Hlen Hidx; cbv zeta.
  - cbn [Graph.selectLoop length]. split; [exact Hlen|].
    eapply Forall_impl; [exact Hidx|]. intros idx H. cbv beta in *. lia.
  - cbn [Graph.selectLoop length].
    destruct (Nat.ltb_spec (length valid) 24) as [Hlt|Hge].
    + destruct ((Dt f >=? now - Graph.SECONDS_PER_HOUR) && (Dt f <=? cutoffTime)).
      * specialize (IH (S i) (valid ++ [i])). cbv zeta in IH.
        destruct IH as (H1 & H2).
        -- rewrite length_app. cbn [length]. lia.
        -- apply Forall_app. split.
           ++ eapply Forall_impl; [exact Hidx|]. intros idx H. cbv beta in *. lia.
           ++ constructor; [lia|constructor].
        -- split; [exact H1|]. eapply Forall_impl; [exact H2|].
           intros idx H. cbv beta in *. lia.
      * specialize (IH (S i) valid). cbv zeta in IH.
        destruct IH as (H1 & H2).
        -- exact Hlen.
        -- eapply Forall_impl; [exact Hidx|]. intros idx H. cbv beta in *. lia.
        -- split; [exact H1|]. eapply Forall_impl; [exact H2|].
           intros idx H. cbv beta in *. lia.
    + split; [exact Hlen|].
      eapply Forall_impl; [exact Hidx|]. intros idx H. cbv beta in *. lia.
Qed.

(** With at least one hourly record the graph has between 1 and 24
    selected entries, all of them positions of the collection. *)
Lemma selectForecasts_spec now forecast :
  forecast <> [] ->
  let valid := Graph.selectForecasts now forecast in
  valid <> [] /\ (length valid <= 24)%nat /\
  Forall (fun idx => (idx < length forecast)%nat) valid.
Proof.
  intros Hne. cbv zeta. unfold Graph.selectForecasts.
  destruct (selectLoop_spec now (now + Graph.HOURS_TO_SHOW * Graph.SECONDS_PER_HOUR)
              forecast 0 [] ltac:(cbn; lia) ltac:(constructor)) as (H1 & H2).
  cbn [Nat.add] in H2.
  destruct (Graph.selectLoop _ _ forecast 0 []) as [|v0 v] eqn:E.
  - cbn [length Nat.eqb andb].
    destruct forecast as [|f rest]; [congruence|]. cbn [length Nat.ltb Nat.leb].
    split; [discriminate|]. split; [cbn; lia|].
    constructor; [cbn; lia|constructor].
  - cbn [length Nat.eqb andb]. split; [discriminate|]. split; [exact H1|exact H2].
Qed.

(** ** Graph: vertical scale *)







(** ** Decoder *)

Section DecodeLoop.

Variable body : json -> Forecast_record -> Forecast_record.
Variables (capacity : nat) (src : json).

(** The loop overwrites the slots below [min capacity (size src)], each
    from the source entry of the same index, and nothing else. *)
Lemma decodeLoop_spec (fuel : nat) : forall r arr,
  (capacity <= r + fuel)%nat ->
  let k := Nat.min capacity (Json.size src) in
  let arr' := decodeLoop body capacity src fuel r arr in
  length arr' = length arr /\
  (forall i, (r <= i < k)%nat ->
     arr' !! i = body (Json.element i src) <$> arr !! i) /\
  (forall i, (i < r \/ k <= i)%nat -> arr' !! i = arr !! i).
Proof.
  induction fuel as [|fuel IH]; intros r arr Hfuel; cbv zeta.
  - cbn [decodeLoop]. split; [reflexivity|]. split; [intros i Hi; lia|reflexivity].
  - cbn [decodeLoop].
    destruct (Nat.ltb_spec r capacity) as [Hc|Hc];
      destruct (Nat.ltb_spec r (Json.size src)) as [Hs|Hs]; cbn [andb];
      try (split; [reflexivity|]; split; [intros i Hi; lia|reflexivity]).
    specialize (IH (S r) (alter (body (Json.element r src)) r arr) ltac:(lia)).
    cbv zeta in IH. destruct IH as (Hlen & Hin & Hout).
    split; [rewrite Hlen; apply length_alter|]. split.
    + intros i Hi. destruct (Nat.eq_dec i r) as [->|Hne].
      * rewrite Hout by lia. apply list_lookup_alter_eq.
      * rewrite Hin by lia. now rewrite list_lookup_alter_ne by lia.
    + intros i Hi. rewrite Hout by lia. apply list_lookup_alter_ne. lia.
Qed.

End DecodeLoop.

Lemma DecodeWeather_hourly doc g :
  WxHourlyForecast (snd (DecodeWeather (Some doc) g)) =
  decodeLoop decodeHourly max_hourly_readings (Json.member "hourly" doc)
             max_hourly_readings 0 (WxHourlyForecast g).
Proof.
  unfold DecodeWeather. cbv zeta.
  repeat match goal with |- context [if ?b then _ else _] => destruct b end;
    reflexivity.
Qed.

Lemma DecodeWeather_daily doc g :
  WxDailyForecast (snd (DecodeWeather (Some doc) g)) =
  decodeLoop decodeDaily max_daily_readings (Json.member "daily" doc)
             max_daily_readings 0 (WxDailyForecast g).
Proof.
  unfold DecodeWeather. cbv zeta.
  repeat match goal with |- context [if ?b then _ else _] => destruct b end;
    reflexivity.
Qed.

Lemma decodeHourly_Dt h c : Dt (decodeHourly h c) = Json.as_int (Json.member "dt" h).
Proof. reflexivity. Qed.

(** C9.  Capacity of the decoded collections.  Whatever the document,
    decoding fails on a document that does not parse and touches nothing;
    it succeeds on a parsed document and leaves each collection with the
    slots it had, 48 hourly and 8 daily.  The first [min (48, n)] hourly
    slots (resp. [min (8, n)] daily slots) are filled from the source
    entries of the same index, in order: each field the loop assigns holds
    the value of the entry, the other fields keep theirs.  No other slot is
    written, and source entries from index 48 (resp. 8) on are dropped:
    the collections are lists of any length here, so that this covers
    whatever lies behind slot 47 (resp. 7).  With 60 hourly entries exactly
    the first 48 are kept: there is no slot 48, and when the source
    timestamps are distinct that of the 49th entry is in no slot. *)
Theorem decode_capacity (doc : json) (g : Globals) :
  let g' := snd (DecodeWeather (Some doc) g) in
  let hourly := Json.member "hourly" doc in
  let daily := Json.member "daily" doc in
  DecodeWeather None g = (false, g) /\
  fst (DecodeWeather (Some doc) g) = true /\
  length (WxHourlyForecast g') = length (WxHourlyForecast g) /\
  length (WxDailyForecast g') = length (WxDailyForecast g) /\
  (forall i old, (i < Nat.min 48 (Json.size hourly))%nat ->
     WxHourlyForecast g !! i = Some old ->
     exists new, WxHourlyForecast g' !! i = Some new /\
                 hourlyFilled (Json.element i hourly) old new) /\
  (forall i, (Nat.min 48 (Json.size hourly) <= i)%nat ->
     WxHourlyForecast g' !! i = WxHourlyForecast g !! i) /\
  (forall i old, (i < Nat.min 8 (Json.size daily))%nat ->
     WxDailyForecast g !! i = Some old ->
     exists new, WxDailyForecast g' !! i = Some new /\
                 dailyFilled (Json.element i daily) old new) /\
  (forall i, (Nat.min 8 (Json.size daily) <= i)%nat ->
     WxDailyForecast g' !! i = WxDailyForecast g !! i) /\
  (length (WxHourlyForecast g) = 48%nat ->
   length (WxDailyForecast g) = 8%nat ->
   length (WxHourlyForecast g') = 48%nat /\
   length (WxDailyForecast g') = 8%nat /\
   (Json.size hourly = 60%nat ->
      (forall i, (i < 48)%nat ->
         exists old new,
           WxHourlyForecast g !! i = Some old /\
           WxHourlyForecast g' !! i = Some new /\
           hourlyFilled (Json.element i hourly) old new) /\
      WxHourlyForecast g' !! 48%nat = None /\
      ((forall i, (i < 48)%nat ->
          Json.as_int (Json.member "dt" (Json.element i hourly)) <>
          Json.as_int (Json.member "dt" (Json.element 48 hourly))) ->
       ~ In (Json.as_int (Json.member "dt" (Json.element 48 hourly)))
            (map Dt (WxHourlyForecast g'))))).
Proof.
  cbv zeta.
  rewrite DecodeWeather_hourly, DecodeWeather_daily.
  pose proof (decodeLoop_spec decodeHourly max_hourly_readings
                (Json.member "hourly" doc) max_hourly_readings 0
                (WxHourlyForecast g) ltac:(lia)) as HH.
  pose proof (decodeLoop_spec decodeDaily max_daily_readings
                (Json.member "daily" doc) max_daily_readings 0
                (WxDailyForecast g) ltac:(lia)) as HD.
  cbv zeta in HH, HD.
  destruct HH as (HHlen & HHin & HHout). destruct HD as (HDlen & HDin & HDout).
  change max_hourly_readings with 48%nat in *.
  change max_daily_readings with 8%nat in *.
  assert (Hhourly : forall i old,
            (i < Nat.min 48 (Json.size (Json.member "hourly" doc)))%nat ->
            WxHourlyForecast g !! i = Some old ->
            exists new,
              decodeLoop decodeHourly 48 (Json.member "hourly" doc) 48 0
                         (WxHourlyForecast g) !! i = Some new /\
              hourlyFilled (Json.element i (Json.member "hourly" doc)) old new).
  { intros i old Hi Hold.
    exists (decodeHourly (Json.element i (Json.member "hourly" doc)) old).
    split; [rewrite HHin by lia; now rewrite Hold|].
    unfold hourlyFilled. repeat split. }
  split; [reflexivity|]. split; [reflexivity|].
  split; [exact HHlen|]. split; [exact HDlen|].
  split; [exact Hhourly|].
  split; [intros i Hi; apply HHout; lia|].
  split.
  { intros i old Hi Hold.
    exists (decodeDaily (Json.element i (Json.member "daily" doc)) old).
    split; [rewrite HDin by lia; now rewrite Hold|].
    unfold dailyFilled. repeat split. }
  split; [intros i Hi; apply HDout; lia|].
  intros Hh Hd.
  split; [now rewrite HHlen|]. split; [now rewrite HDlen|].
  intros Hsize.
  assert (Hslot : forall i, (i < 48)%nat ->
            exists old new,
              WxHourlyForecast g !! i = Some old /\
              decodeLoop decodeHourly 48 (Json.member "hourly" doc) 48 0
                         (WxHourlyForecast g) !! i = Some new /\
              hourlyFilled (Json.element i (Json.member "hourly" doc)) old new).
  { intros i Hi.
    destruct (lookup_lt_is_Some_2 (WxHourlyForecast g) i ltac:(lia)) as [old Hold].
    destruct (Hhourly i old ltac:(rewrite Hsize; lia) Hold) as (new & Hnew & Hfill).
    exists old, new. split; [exact Hold|]. split; [exact Hnew|exact Hfill]. }
  split; [exact Hslot|].
  split; [apply lookup_ge_None_2; lia|].
  intros Hdistinct Hin.
  apply in_map_iff in Hin as (rec & Hdt & Hrec).
  apply list_elem_of_In, list_elem_of_lookup in Hrec as [i Hi].
  assert (Hi48 : (i < 48)%nat)
    by (apply lookup_lt_Some in Hi; lia).
  destruct (Hslot i Hi48) as (old & new & _ & Hnew & Hfill).
  rewrite Hnew in Hi. injection Hi as <-.
  destruct Hfill as (HDt & _). rewrite HDt in Hdt.
  exact (Hdistinct i Hi48 Hdt).
Qed.

(** Sixty hourly entries stamped 1000 .. 1059.  Over the 48 slots of the
    device slot 47 holds 1047, there is no slot 48, and 1048, the stamp of
    the 49th entry, is absent.  Over 60 slots the slot 48 is not written. *)
Lemma decode_capacity_witness :
  let g' := snd (DecodeWeather (Some (hourlyDoc 60)) bootGlobals) in
  length (WxHourlyForecast g') = 48%nat /\
  Dt <$> WxHourlyForecast g' !! 47%nat = Some 1047 /\
  WxHourlyForecast g' !! 48%nat = None /\
  ~ In 1048 (map Dt (WxHourlyForecast g')) /\
  WxHourlyForecast (snd (DecodeWeather (Some (hourlyDoc 60)) wideGlobals))
    !! 48%nat = Some FR0.
Proof.
  destruct (decode_capacity (hourlyDoc 60) bootGlobals) as
    (_ & _ & _ & _ & Hfill & _ & _ & _ & Hcap).
  destruct Hcap as (Hlen & _ & H60); [reflexivity|reflexivity|].
  destruct H60 as (_ & Hnone & Habsent); [reflexivity|].
  destruct (Hfill 47%nat FR0) as (new & Hnew & HDt & _);
    [vm_compute; lia|reflexivity|].
  destruct (decode_capacity (hourlyDoc 60) wideGlobals) as
    (_ & _ & _ & _ & _ & Hkeep & _).
  split; [exact Hlen|].
  split; [cbv zeta; rewrite Hnew; cbn; now rewrite HDt|].
  split; [exact Hnone|].
  split.
  - apply Habsent. intros i Hi.
    do 48 (destruct i as [|i]; [vm_compute; discriminate|]). lia.
  - rewrite (Hkeep 48%nat); [reflexivity|vm_compute; lia].
Defined.

(** ** Pressure trend *)

Lemma DecodeWeather_failed g : DecodeWeather None g = (false, g).
Proof. reflexivity. Qed.

Lemma Trend_decodeCurrent cur tz t c : Trend (decodeCurrent cur tz t c) = Trend c.
Proof. reflexivity. Qed.

(** With fewer than two daily entries the trend keeps its value; with two
    or more it is [pressureTrend] of the first two decoded pressures. *)
Lemma DecodeWeather_trend doc g :
  length (WxDailyForecast g) = 8%nat ->
  let g' := snd (DecodeWeather (Some doc) g) in
  let daily := Json.member "daily" doc in
  ((Json.size daily < 2)%nat -> Trend (WxConditions g') = Trend (WxConditions g)) /\
  ((2 <= Json.size daily)%nat ->
     Trend (WxConditions g') =
       pressureTrend (Json.as_float (Json.member "pressure" (Json.element 0 daily)))
                     (Json.as_float (Json.member "pressure" (Json.element 1 daily)))).
Proof.
  intros Hd. cbv zeta. split.
  - intros Hlt. unfold DecodeWeather. cbv zeta.
    destruct (Nat.leb_spec 2 (Json.size (Json.member "daily" doc))) as [?|_]; [lia|].
    repeat match goal with |- context [if ?b then _ else _] => destruct b end;
      reflexivity.
  - intros Hge.
    pose proof (decodeLoop_spec decodeDaily max_daily_readings
                  (Json.member "daily" doc) max_daily_readings 0
                  (WxDailyForecast g) ltac:(lia)) as HD.
    cbv zeta in HD. destruct HD as (_ & HDin & _).
    change max_daily_readings with 8%nat in *.
    destruct (lookup_lt_is_Some_2 (WxDailyForecast g) 0 ltac:(lia)) as [o0 Ho0].
    destruct (lookup_lt_is_Some_2 (WxDailyForecast g) 1 ltac:(lia)) as [o1 Ho1].
    pose proof (HDin 0%nat ltac:(lia)) as H0. rewrite Ho0 in H0.
    pose proof (HDin 1%nat ltac:(lia)) as H1. rewrite Ho1 in H1.
    unfold DecodeWeather. cbv zeta.
    destruct (Nat.leb_spec 2 (Json.size (Json.member "daily" doc))) as [_|?]; [|lia].
    change max_daily_readings with 8%nat.
    destruct (Json.objectIsNull (Json.member "current" doc));
      [|destruct (0 <? Json.size (Json.member "daily" doc))%nat];
      cbn [WxConditions WxDailyForecast WxHourlyForecast SetRTCTimeFromAPI
           setTrend Trend];
      rewrite (nth_lookup_Some _ _ _ _ H0), (nth_lookup_Some _ _ _ _ H1);
      reflexivity.
Qed.

(** The two worked examples of the specification. *)
Example trend_rising :
  Trend (WxConditions (snd (DecodeWeather
    (Some (pressureDoc (JFloat (F64.lit 10123 1)) (JFloat (F64.lit 10100 1))))
    bootGlobals))) = "+"%string.
Proof. reflexivity. Qed.

Example trend_falling :
  Trend (WxConditions (snd (DecodeWeather
    (Some (pressureDoc (JFloat (F64.lit 10080 1)) (JFloat (F64.lit 10100 1))))
    bootGlobals))) = "-"%string.
Proof. reflexivity. Qed.

(** C5 at the input where code and claim part.  Day 0 at 1010.07 hPa, day
    1 at 1010.0 hPa: the difference, 0.07 hPa and more, is 0.1 hPa when
    rounded to one decimal, which is above 0, so the claim has "rising".
    The code's [(int)(delta * 10) / 10.0] truncates it to 0.0 and the trend
    is "stable".  (On the specification's own example, 1012.3 against
    1010.0, the code's delta is 2.2 where rounding gives 2.3.) *)
Theorem pressure_trend_truncated :
  let p0 := Json.as_float (JFloat (F64.lit 101007 2)) in
  let p1 := Json.as_float (JFloat (F64.lit 10100 1)) in
  Flt.leb (f32_lit 7 2) (F32.sub p0 p1) = true /\
  Flt.to_int (F32.mul (F32.sub p0 p1) (F32.of_Z 10)) = 0 /\
  pressureDelta p0 p1 = S754_zero false /\
  Trend (WxConditions (snd (DecodeWeather
    (Some (pressureDoc (JFloat (F64.lit 101007 2)) (JFloat (F64.lit 10100 1))))
    bootGlobals))) = "="%string /\
  pressureDelta (f32_lit 10123 1) (f32_lit 10100 1) = f32_lit 22 1.
Proof. repeat split; reflexivity. Qed.

(** ** Setup form and saved settings *)

Section SaveHandler.

Import Setup.

Lemma settings_ok_hours s : settings_ok s -> hours_ok s.
Proof. unfold settings_ok, hours_ok. tauto. Qed.

Lemma defaults_ok : settings_ok defaultSettings.
Proof. unfold settings_ok; simpl. lia. Qed.

Lemma geocoded_ok s lat lon : settings_ok s -> settings_ok (geocoded s lat lon).
Proof. unfold settings_ok; simpl. tauto. Qed.

(** The three numbers a successful save persists. *)
Lemma saveHandler_saved s f s' :
  saveHandler s f = Saved s' ->
  (SleepDuration s' =
     let d := if nonempty (f_frequency f) then toInt (f_frequency f)
              else SleepDuration s in
     if (d <=? 0) || (d >=? 1440) then 60 else d) /\
  (WakeupHour s' =
     if nonempty (f_startHour f) then
       if String.eqb (f_startHour f) "none" then 0 else toInt (f_startHour f)
     else WakeupHour s) /\
  (nonempty (f_startHour f) = true -> 0 <= WakeupHour s' <= 23) /\
  (let h := if nonempty (f_stopHour f) then
              if String.eqb (f_stopHour f) "none" then 24 else toInt (f_stopHour f)
            else SleepHour s in
   (nonempty (f_stopHour f) = true -> h = 24 \/ 1 <= h <= 23) /\
   (nonempty (f_stopHour f) = true -> String.eqb (f_stopHour f) "none" = false ->
    1 <= h <= 23) /\
   SleepHour s' =
     if h =? 24 then 24 else if WakeupHour s' >=? h then WakeupHour s' else h).
Proof.
  unfold saveHandler.
  set (st0 := flag _ _ (flag _ _ (flag _ _ (flag _ _ (flag _ _ _))))).
  cbv zeta.
  destruct (nonempty (f_frequency f)) eqn:Efr;
  destruct (nonempty (f_startHour f)) eqn:Est;
  destruct (nonempty (f_stopHour f)) eqn:Esp;
  repeat match goal with
  | |- context [String.eqb ?a ?b] => destruct (String.eqb a b) eqn:?
  end;
  repeat match goal with
  | |- context [(?a <? ?b) || (?c >? ?d)] =>
      destruct (Z.ltb_spec a b); destruct (Z.gtb_spec c d); cbn [orb]
  end;
  unfold flag; cbn [fst snd];
  destruct (fst st0) eqn:Ev; cbn [negb andb];
  try discriminate;
  intros Hsaved; injection Hsaved as <-; cbn [SleepDuration WakeupHour SleepHour];
  repeat split; try reflexivity; try lia; try discriminate;
  try (intros; discriminate); try (intros; lia);
  repeat match goal with
  | |- context [?a =? ?b] => destruct (Z.eqb_spec a b)
  | |- context [?a >=? ?b] => destruct (Z.geb_spec a b)
  end; try reflexivity; try lia; auto.
Qed.

End SaveHandler.

Section SavedSettings.

Import Setup.

Lemma saveHandler_ok s f s' :
  hours_ok s -> saveHandler s f = Saved s' -> settings_ok s'.
Proof.
  intros (Hw & Hs) Hsave.
  destruct (saveHandler_saved s f s' Hsave) as (Hd & Hwk & Hwr & Hsr & _ & Hsl).
  cbv zeta in Hd, Hsr, Hsl.
  assert (Hwake : 0 <= WakeupHour s' <= 23).
  { destruct (nonempty (f_startHour f)) eqn:E; [now apply Hwr|].
    rewrite Hwk. exact Hw. }
  unfold settings_ok. split; [|split; [exact Hwake|]].
  - rewrite Hd.
    destruct (nonempty (f_frequency f));
      match goal with
      | |- context [(?a <=? 0) || (?b >=? 1440)] =>
          destruct (Z.leb_spec a 0); destruct (Z.geb_spec b 1440); cbn [orb]; lia
      end.
  - assert (Hh : (if nonempty (f_stopHour f)
                  then if String.eqb (f_stopHour f) "none" then 24
                       else toInt (f_stopHour f)
                  else SleepHour s) = 24 \/
                 1 <= (if nonempty (f_stopHour f)
                       then if String.eqb (f_stopHour f) "none" then 24
                            else toInt (f_stopHour f)
                       else SleepHour s) <= 23).
    { destruct (nonempty (f_stopHour f)) eqn:E; [now apply Hsr|exact Hs]. }
    rewrite Hsl.
    set (h := if nonempty (f_stopHour f) then _ else _) in *.
    destruct (Z.eqb_spec h 24); [split; left; reflexivity|].
    destruct (Z.geb_spec (WakeupHour s') h); split; right; lia.
Qed.

Lemma reachable_ok s : reachable s -> settings_ok s.
Proof.
  induction 1 as [|s f s' _ IH Hsave|s lat lon _ IH].
  - exact defaults_ok.
  - eapply saveHandler_ok; [apply settings_ok_hours; exact IH|exact Hsave].
  - now apply geocoded_ok.
Qed.

End SavedSettings.

(** C10.  The configuration invariant of the save handler.  The defaults
    satisfy it, and every form that passes validation and is saved over
    settings whose hours are in range persists settings with
    [SleepDuration] in 1..1439, [WakeupHour] in 0..23, [SleepHour] in 1..23
    or 24, and [SleepHour = 24] or [WakeupHour <= SleepHour]; so do all
    settings a device can come to hold.  When the form carries all three
    numbers nothing is asked of the previous settings.  A submitted
    frequency that is not in 1..1439 is replaced by 60; a stop hour not
    above the start hour is replaced by the start hour.  [SleepDuration]
    is never 0, so [BeginSleep] always computes its modulus. *)
Theorem saved_settings_invariant :
  Setup.settings_ok defaultSettings /\
  (forall s f s',
     Setup.hours_ok s -> Setup.saveHandler s f = Setup.Saved s' ->
     Setup.settings_ok s') /\
  (forall s f s',
     Setup.nonempty (Setup.f_startHour f) = true ->
     Setup.nonempty (Setup.f_stopHour f) = true ->
     Setup.saveHandler s f = Setup.Saved s' -> Setup.settings_ok s') /\
  (forall s, Setup.reachable s -> Setup.settings_ok s) /\
  (forall s f s',
     Setup.saveHandler s f = Setup.Saved s' ->
     Setup.nonempty (Setup.f_frequency f) = true ->
     Setup.toInt (Setup.f_frequency f) <= 0 \/
     1440 <= Setup.toInt (Setup.f_frequency f) ->
     SleepDuration s' = 60) /\
  (forall s f s',
     Setup.saveHandler s f = Setup.Saved s' ->
     Setup.nonempty (Setup.f_stopHour f) = true ->
     String.eqb (Setup.f_stopHour f) "none" = false ->
     Setup.toInt (Setup.f_stopHour f) <= WakeupHour s' ->
     SleepHour s' = WakeupHour s') /\
  (forall s now timeinfo c,
     Setup.reachable s -> BeginSleep s now timeinfo c <> None).
Proof.
  split; [exact defaults_ok|].
  split; [exact saveHandler_ok|].
  split.
  { intros s f s' Est Esp Hsave.
    destruct (saveHandler_saved s f s' Hsave) as (Hd & Hwk & Hwr & Hsr & _ & Hsl).
    cbv zeta in Hd, Hsr, Hsl. rewrite Esp in Hsr, Hsl. cbv iota in Hsr, Hsl.
    specialize (Hwr Est). specialize (Hsr eq_refl).
    unfold Setup.settings_ok. split; [|split; [exact Hwr|]].
    - rewrite Hd.
      destruct (Setup.nonempty (Setup.f_frequency f));
        match goal with
        | |- context [(?a <=? 0) || (?b >=? 1440)] =>
            destruct (Z.leb_spec a 0); destruct (Z.geb_spec b 1440); cbn [orb]; lia
        end.
    - rewrite Hsl.
      set (h := if String.eqb (Setup.f_stopHour f) _ then _ else _) in *.
      destruct (Z.eqb_spec h 24); [split; left; reflexivity|].
      destruct (Z.geb_spec (WakeupHour s') h); split; right; lia. }
  split; [exact reachable_ok|].
  split.
  { intros s f s' Hsave Efr Hbad.
    destruct (saveHandler_saved s f s' Hsave) as (Hd & _).
    cbv zeta in Hd. rewrite Efr in Hd. cbv iota in Hd. rewrite Hd.
    destruct (Z.leb_spec (Setup.toInt (Setup.f_frequency f)) 0);
      destruct (Z.geb_spec (Setup.toInt (Setup.f_frequency f)) 1440);
      cbn [orb]; try reflexivity; lia. }
  split.
  { intros s f s' Hsave Esp Enone Hle.
    destruct (saveHandler_saved s f s' Hsave) as (_ & _ & _ & _ & Hsr & Hsl).
    cbv zeta in Hsr, Hsl. rewrite Esp, Enone in Hsr, Hsl. cbv iota in Hsr, Hsl.
    specialize (Hsr eq_refl eq_refl). rewrite Hsl.
    destruct (Z.eqb_spec (Setup.toInt (Setup.f_stopHour f)) 24); [lia|].
    destruct (Z.geb_spec (WakeupHour s') (Setup.toInt (Setup.f_stopHour f)));
      [reflexivity|lia]. }
  intros s now timeinfo c Hr.
  destruct (reachable_ok s Hr) as (Hd & _).
  unfold BeginSleep.
  destruct (Z.eqb_spec (SleepDuration s) 0); [lia|discriminate].
Qed.

(** A form with frequency 0, start hour 20 and stop hour 6, saved over the
    defaults: 60 minutes, awake from 20 to 20. *)
Lemma saved_settings_invariant_witness :
  Setup.settings_ok
    (mkSettings "net" "secret" "key" "Oslo" "-181" "-181" "en" "M"
                60 20 20 SETTINGS_MAGIC).
Proof.
  apply (proj1 (proj2 saved_settings_invariant) defaultSettings
           (Setup.mkForm "key" "net" "secret" "Oslo" "M" "0" "20" "6")).
  - unfold Setup.hours_ok; simpl; lia.
  - reflexivity.
Defined.

(** ** Settings in the preferences store *)

Section PrefsStore.

Lemma lookup_remove_other key k (p : Prefs.store) :
  String.eqb key k = false -> Prefs.lookup key (Prefs.remove k p) = Prefs.lookup key p.
Proof.
  intros Hne. induction p as [|[k' v] p IH]; [reflexivity|].
  cbn [Prefs.remove Prefs.lookup].
  destruct (String.eqb k k') eqn:Ek.
  - apply String.eqb_eq in Ek. subst k'. rewrite Hne. exact IH.
  - cbn [Prefs.lookup]. destruct (String.eqb key k'); [reflexivity|exact IH].
Qed.

Lemma lookup_put_same key v (p : Prefs.store) :
  Prefs.lookup key (Prefs.put key v p) = Some v.
Proof. unfold Prefs.put. cbn [Prefs.lookup]. now rewrite String.eqb_refl. Qed.

Lemma lookup_put_other key k v (p : Prefs.store) :
  String.eqb key k = false ->
  Prefs.lookup key (Prefs.put k v p) = Prefs.lookup key p.
Proof.
  intros Hne. unfold Prefs.put. cbn [Prefs.lookup]. rewrite Hne.
  now apply lookup_remove_other.
Qed.

(** What [saveSettings] leaves under each of its keys. *)
Lemma saveSettings_lookup s p :
  let p' := saveSettings s p in
  Prefs.lookup "ssid" p' = Some (PStr (ssid s)) /\
  Prefs.lookup "password" p' = Some (PStr (password s)) /\
  Prefs.lookup "apikey" p' = Some (PStr (apikey s)) /\
  Prefs.lookup "City" p' = Some (PStr (City s)) /\
  Prefs.lookup "Latitude" p' = Some (PStr (Latitude s)) /\
  Prefs.lookup "Longitude" p' = Some (PStr (Longitude s)) /\
  Prefs.lookup "Language" p' = Some (PStr (Language s)) /\
  Prefs.lookup "Units" p' = Some (PStr (Units s)) /\
  Prefs.lookup "SleepDuration" p' = Some (PI32 (SleepDuration s)) /\
  Prefs.lookup "WakeupHour" p' = Some (PI32 (WakeupHour s)) /\
  Prefs.lookup "SleepHour" p' = Some (PI32 (SleepHour s)) /\
  Prefs.lookup "magic" p' = Some (PU32 SETTINGS_MAGIC).
Proof.
  cbv zeta. unfold saveSettings.
  repeat split;
    repeat (rewrite lookup_put_other by reflexivity);
    apply lookup_put_same.
Qed.

Lemma strncpy_fits (s : string) (n : nat) :
  (String.length s <= n)%nat -> Setup.strncpy s n = s.
Proof.
  unfold Setup.strncpy. revert n.
  induction s as [|c s IH]; intros n Hn.
  - destruct n; reflexivity.
  - destruct n as [|n]; [cbn in Hn; lia|]. cbn [substring].
    rewrite IH by (cbn in Hn; lia). reflexivity.
Qed.

Lemma strncpy_length (s : string) (n : nat) :
  (String.length (Setup.strncpy s n) <= n)%nat.
Proof.
  unfold Setup.strncpy. revert n.
  induction s as [|c s IH]; intros n.
  - destruct n; cbn; lia.
  - destruct n as [|n]; [cbn; lia|]. cbn [substring String.length].
    specialize (IH n). lia.
Qed.

Lemma load_save s p :
  fitsStruct s -> loadSettings (saveSettings s p) = withMagic s.
Proof.
  intros (H1 & H2 & H3 & H4 & H5 & H6 & H7 & H8).
  destruct (saveSettings_lookup s p)
    as (L1 & L2 & L3 & L4 & L5 & L6 & L7 & L8 & L9 & L10 & L11 & L12).
  cbv zeta in *.
  unfold loadSettings, Prefs.getString, Prefs.getI32, Prefs.getUInt.
  rewrite L1, L2, L3, L4, L5, L6, L7, L8, L9, L10, L11, L12.
  rewrite !strncpy_fits by assumption. reflexivity.
Qed.

End PrefsStore.

(** X1.  Saving and loading is a round trip: whatever values the store
    held under the firmware's keys, [loadSettings] after [saveSettings]
    returns every field of the saved settings, strings uncut, with the magic
    number of a valid record.  The strings are those of a
    [struct Settings], so each fits its buffer. *)
Theorem settings_round_trip (s : Settings) (p : Prefs.store) :
  Prefs.typed p = true -> fitsStruct s ->
  loadSettings (saveSettings s p) = withMagic s.
Proof. intros _. apply load_save. Qed.

Lemma settings_round_trip_witness :
  loadSettings (saveSettings defaultSettings [("magic"%string, PU32 7)])
  = defaultSettings.
Proof.
  apply (settings_round_trip defaultSettings [("magic"%string, PU32 7)]).
  - reflexivity.
  - unfold fitsStruct; cbn; lia.
Defined.

(** X2.  Booting is idempotent on the store: whatever the preferences
    hold, a valid record or not, a second [initSettings] finds what the
    first one left and yields the same settings without writing again.  In
    particular a first boot on an empty store, or on one without the magic
    number, ends with the defaults in memory and in the store. *)
Theorem initSettings_idempotent (p : Prefs.store) :
  Prefs.typed p = true ->
  initSettings (snd (initSettings p)) = initSettings p /\
  (Prefs.getUInt "magic" 0 p <> SETTINGS_MAGIC ->
   fst (initSettings p) = defaultSettings /\
   loadSettings (snd (initSettings p)) = defaultSettings).
Proof.
  intros _.
  assert (Hd : fitsStruct defaultSettings) by (unfold fitsStruct; cbn; lia).
  assert (Hm : Prefs.getUInt "magic" 0 (saveSettings defaultSettings p)
               = SETTINGS_MAGIC).
  { unfold Prefs.getUInt.
    destruct (saveSettings_lookup defaultSettings p)
      as (_ & _ & _ & _ & _ & _ & _ & _ & _ & _ & _ & L).
    cbv zeta in L. now rewrite L. }
  unfold initSettings, resetSettingsToDefaults. split.
  - destruct (Z.eqb_spec (Prefs.getUInt "magic" 0 p) SETTINGS_MAGIC) as [E|E];
      cbn [negb snd].
    + rewrite E, Z.eqb_refl. reflexivity.
    + rewrite Hm, Z.eqb_refl. cbn [negb].
      now rewrite (load_save defaultSettings p Hd).
  - intros E.
    destruct (Z.eqb_spec (Prefs.getUInt "magic" 0 p) SETTINGS_MAGIC) as [E'|_];
      [contradiction|]. cbn [negb fst snd].
    split; [reflexivity|]. now rewrite (load_save defaultSettings p Hd).
Qed.

Lemma initSettings_idempotent_witness :
  fst (initSettings []) = defaultSettings /\
  loadSettings (snd (initSettings [])) = defaultSettings.
Proof.
  apply (proj2 (initSettings_idempotent [] eq_refl)). vm_compute. discriminate.
Defined.

Lemma saveHandler_fits s f s' :
  fitsStruct s -> Setup.saveHandler s f = Setup.Saved s' -> fitsStruct s'.
Proof.
  intros (_ & _ & _ & _ & _ & _ & HL & HU).
  unfold Setup.saveHandler. cbv zeta.
  repeat match goal with
  | |- context [let '(_, _) := ?x in _] => destruct x
  end.
  match goal with |- context [if ?b then Setup.ValidationError _ else _] =>
    destruct b end; [discriminate|].
  intros H. injection H as <-. unfold fitsStruct.
  cbn [ssid password apikey City Latitude Longitude Language Units].
  repeat split; try apply strncpy_length; try exact HL.
  destruct (Setup.nonempty (Setup.f_units f)); cbn [andb]; [|exact HU].
  destruct (String.eqb_spec (Setup.f_units f) "I") as [->|_]; [cbn; lia|].
  destruct (String.eqb_spec (Setup.f_units f) "M") as [->|_]; [cbn; lia|].
  exact HU.
Qed.

Lemma saveHandler_magic s f s' :
  Setup.saveHandler s f = Setup.Saved s' -> withMagic s' = s'.
Proof.
  unfold Setup.saveHandler. cbv zeta.
  repeat match goal with
  | |- context [let '(_, _) := ?x in _] => destruct x
  end.
  match goal with |- context [if ?b then Setup.ValidationError _ else _] =>
    destruct b end; [discriminate|].
  intros H. injection H as <-. reflexivity.
Qed.

(** X3.  A saved configuration survives the reboot that follows it: when
    the save handler accepts a form, the settings it persists are exactly
    the settings [initSettings] holds in memory on the next boot, and the
    store is not rewritten. *)
Theorem saved_settings_survive_reboot (s s' : Settings) (f : Setup.Form)
  (p : Prefs.store) :
  Prefs.typed p = true ->
  fitsStruct s -> Setup.saveHandler s f = Setup.Saved s' ->
  initSettings (saveSettings s' p) = (s', saveSettings s' p).
Proof.
  intros _ Hfit Hsave.
  pose proof (saveHandler_fits s f s' Hfit Hsave) as Hfit'.
  unfold initSettings. unfold Prefs.getUInt at 1.
  destruct (saveSettings_lookup s' p)
    as (_ & _ & _ & _ & _ & _ & _ & _ & _ & _ & _ & L).
  cbv zeta in L. rewrite L, Z.eqb_refl. cbn [negb].
  rewrite (load_save s' p Hfit'), (saveHandler_magic s f s' Hsave). reflexivity.
Qed.

Lemma saved_settings_survive_reboot_witness :
  fst (initSettings
         (saveSettings
            (mkSettings "net" "secret" "key" "Oslo" "-181" "-181" "en" "M"
                        60 20 20 SETTINGS_MAGIC) []))
  = mkSettings "net" "secret" "key" "Oslo" "-181" "-181" "en" "M"
               60 20 20 SETTINGS_MAGIC.
Proof.
  rewrite (saved_settings_survive_reboot defaultSettings _
             (Setup.mkForm "key" "net" "secret" "Oslo" "M" "0" "20" "6") []).
  - reflexivity.
  - reflexivity.
  - unfold fitsStruct; cbn; lia.
  - reflexivity.
Defined.

(** ** Local time of day *)

Ltac unwrap :=
  repeat match goal with
         | |- context [CInt.wrap32 ?x] =>
             lazymatch x with
             | context [CInt.wrap32 _] => fail
             | _ => rewrite (wrap32_id x) by int_range
             end
         end.


(** ** Local time of day *)

Lemma hoursDown_spec (fuel : nat) : forall h,
  h <= CInt.INT_MAX -> h <= Z.of_nat fuel ->
  hoursDown fuel h = if h >=? 24 then h mod 24 else h.
Proof.
  induction fuel as [|fuel IH]; intros h Hmax Hf; cbn [hoursDown].
  - destruct (Z.geb_spec h 24); [lia|reflexivity].
  - destruct (Z.geb_spec h 24) as [Hge|Hlt]; [|reflexivity].
    unfold CInt.sub. rewrite wrap32_id by int_range.
    rewrite IH by lia.
    destruct (Z.geb_spec (h - 24) 24).
    + replace h with (h - 24 + 1 * 24) at 2 by lia. now rewrite Z.mod_add by lia.
    + replace h with (h - 24 + 1 * 24) at 2 by lia. rewrite Z.mod_add by lia.
      now rewrite Z.mod_small by lia.
Qed.

Lemma hoursUp_spec (fuel : nat) : forall h,
  CInt.INT_MIN <= h < 24 -> - h <= Z.of_nat fuel ->
  hoursUp fuel h = h mod 24.
Proof.
  induction fuel as [|fuel IH]; intros h Hr Hf; cbn [hoursUp].
  - destruct (Z.ltb_spec h 0); [lia|]. now rewrite Z.mod_small by lia.
  - destruct (Z.ltb_spec h 0) as [Hlt|Hge]; [|now rewrite Z.mod_small by lia].
    unfold CInt.add. rewrite wrap32_id by int_range.
    rewrite IH by lia.
    replace (h + 24) with (h + 1 * 24) by lia. now rewrite Z.mod_add by lia.
Qed.

Lemma wrap_hours h :
  CInt.in_range h ->
  hoursUp (Z.to_nat (Z.abs (hoursDown (Z.to_nat (Z.abs h)) h)))
          (hoursDown (Z.to_nat (Z.abs h)) h) = h mod 24.
Proof.
  intros Hr. unfold CInt.in_range in Hr.
  rewrite hoursDown_spec by lia.
  destruct (Z.geb_spec h 24) as [Hge|Hlt].
  - pose proof (Z.mod_pos_bound h 24 ltac:(lia)).
    rewrite hoursUp_spec by (unfold CInt.INT_MIN; lia).
    now rewrite Z.mod_mod by lia.
  - apply hoursUp_spec; lia.
Qed.

Lemma localHourMinute_spec (unix_time timezone_offset : Z) :
  CInt.in_range unix_time -> CInt.in_range timezone_offset ->
  localHourMinute unix_time timezone_offset =
    (((unix_time + timezone_offset) / 3600) mod 24,
     ((unix_time + timezone_offset) / 60) mod 60).
Proof.
  intros Ht Hz. unfold CInt.in_range, CInt.INT_MIN, CInt.INT_MAX in Ht, Hz.
  unfold localHourMinute, gmtime_hms.
  set (h := (unix_time / 3600) mod 24).
  set (m := (unix_time / 60) mod 60).
  set (s := unix_time mod 60).
  assert (Hh : 0 <= h < 24) by (apply Z.mod_pos_bound; lia).
  assert (Hm : 0 <= m < 60) by (apply Z.mod_pos_bound; lia).
  assert (Hs : 0 <= s < 60) by (apply Z.mod_pos_bound; lia).
  assert (Hu : unix_time mod 86400 = h * 3600 + m * 60 + s).
  { unfold h, m, s. Z.to_euclidean_division_equations. lia. }
  unfold CInt.rem, CInt.div.
  set (os := Z.rem timezone_offset 60).
  assert (Hq60 : -35791394 <= Z.quot timezone_offset 60 <= 35791394)
    by (Z.to_euclidean_division_equations; lia).
  rewrite (wrap32_id (Z.quot timezone_offset 60)) by int_range.
  set (om := Z.rem (Z.quot timezone_offset 60) 60).
  assert (Hq3600 : -596523 <= Z.quot timezone_offset 3600 <= 596523)
    by (Z.to_euclidean_division_equations; lia).
  rewrite (wrap32_id (Z.quot timezone_offset 3600)) by int_range.
  set (oh := Z.quot timezone_offset 3600).
  assert (Hos : -60 < os < 60) by (unfold os; Z.to_euclidean_division_equations; lia).
  assert (Hom : -60 < om < 60) by (unfold om; Z.to_euclidean_division_equations; lia).
  assert (Htz : timezone_offset = oh * 3600 + om * 60 + os).
  { unfold oh, om, os. Z.to_euclidean_division_equations. lia. }
  assert (Hsign : (0 <= os /\ 0 <= om) \/ (os <= 0 /\ om <= 0)).
  { unfold om, os. Z.to_euclidean_division_equations. lia. }
  clearbody h m s os om oh.
  assert (Hfin : forall hr mf sf,
            0 <= mf < 60 -> 0 <= sf < 60 ->
            hr * 3600 + mf * 60 + sf = h * 3600 + m * 60 + s + timezone_offset ->
            -600000 <= hr <= 600000 ->
            (hoursUp (Z.to_nat (Z.abs (hoursDown (Z.to_nat (Z.abs hr)) hr)))
                     (hoursDown (Z.to_nat (Z.abs hr)) hr), mf)
            = (((unix_time + timezone_offset) / 3600) mod 24,
               ((unix_time + timezone_offset) / 60) mod 60)).
  { intros hr mf sf Hmf Hsf Hsum Hhr.
    rewrite wrap_hours by int_range. f_equal.
    - rewrite <- Hu in Hsum. clear - Hsum Hmf Hsf.
      Z.to_euclidean_division_equations. lia.
    - rewrite <- Hu in Hsum. clear - Hsum Hmf Hsf.
      Z.to_euclidean_division_equations. lia. }

  cbv beta iota zeta; unfold CInt.add, CInt.sub; unwrap.
  destruct (Z.geb_spec (s + os) 60) as [C1|C1];
    [|destruct (Z.ltb_spec (s + os) 0) as [C2|C2]];
    cbv beta iota zeta; unwrap;
    match goal with
    | |- context [if ?a >=? 60 then _ else _] =>
        destruct (Z.geb_spec a 60) as [D1|D1];
          [|destruct (Z.ltb_spec a 0) as [D2|D2]]
    end;
    cbv beta iota zeta; unwrap;
    match goal with
    | |- (hoursUp _ (hoursDown _ ?hr), ?mf) = _ =>
        first [ apply (Hfin hr mf (s + os - 60)); lia
              | apply (Hfin hr mf (s + os + 60)); lia
              | apply (Hfin hr mf (s + os)); lia ]
    end.
Qed.

(** X4.  The sunrise and sunset text shows the wall-clock time of
    timestamp plus offset: the field-by-field carries and the two
    day-rollover loops compute hour [((t+tz)/3600) mod 24] and minute
    [((t+tz)/60) mod 60] for every pair of 32-bit inputs, also where the sum
    itself would not fit an [int].  Metric units print [H:MM]; otherwise the
    hour is mapped to 1..12 and followed by AM before noon, PM from noon. *)
Theorem ConvertUnixTime_local_time (units : string) (unix_time timezone_offset : Z) :
  CInt.in_range unix_time -> CInt.in_range timezone_offset ->
  let H := ((unix_time + timezone_offset) / 3600) mod 24 in
  let M := ((unix_time + timezone_offset) / 60) mod 60 in
  ConvertUnixTime units unix_time timezone_offset =
    if String.eqb units "M"
    then String.append (string_of_int H) (String.append ":" (fmt02d M))
    else String.append (string_of_int ((H + 11) mod 12 + 1))
           (String.append ":"
              (String.append (fmt02d M) (if H <? 12 then "AM" else "PM"))).
Proof.
  intros Ht Hz H M. unfold ConvertUnixTime.
  rewrite localHourMinute_spec by assumption. fold H M.
  destruct (String.eqb units "M"); [reflexivity|].
  assert (HH : 0 <= H < 24) by (apply Z.mod_pos_bound; lia).
  unfold CInt.rem. rewrite Z.rem_mod_nonneg by lia.
  pose proof (Z.mod_pos_bound H 12 ltac:(lia)) as H12.
  replace (if H mod 12 =? 0 then 12 else H mod 12) with ((H + 11) mod 12 + 1).
  - now destruct (H <? 12).
  - destruct (Z.eqb_spec (H mod 12) 0); Z.to_euclidean_division_equations; lia.
Qed.

Lemma ConvertUnixTime_local_time_witness :
  ConvertUnixTime "I" 1700000000 (-18000) = "5:13PM"%string.
Proof.
  etransitivity.
  - apply (ConvertUnixTime_local_time "I" 1700000000 (-18000));
      unfold CInt.in_range, CInt.INT_MIN, CInt.INT_MAX; lia.
  - reflexivity.
Defined.

(** ** The wake cycle *)

Lemma allBelow_spec (p : Z -> bool) : forall n z,
  allBelow n p = true -> 0 <= z < Z.of_nat n -> p z = true.
Proof.
  induction n as [|n IH]; intros z Hall Hz; [lia|].
  cbn [allBelow] in Hall. apply andb_prop in Hall as [Hn Hrest].
  destruct (Z.eq_dec z (Z.of_nat n)) as [->|Hne]; [assumption|].
  apply IH; [assumption|lia].
Qed.

(** X5.  For any reading below 8192 mV, the cycle takes the low-battery
    branch exactly from 1 mV to 3199 mV, and resets the shown-flag exactly
    from 3200 mV on: at 3200 mV the [float] quotient lies above the
    [double] 3.2 it is compared with, so a reading of exactly 3.2 V counts
    as good.  A reading of 0 (no battery monitor) is neither. *)
Theorem battery_threshold (mV : Z) :
  0 <= mV < 8192 ->
  batteryLow mV = ((1 <=? mV) && (mV <=? 3199)) /\
  batteryGood mV = (3200 <=? mV).
Proof.
  intros Hr.
  assert (Hall : allBelow (Z.to_nat 8192)
            (fun z => Bool.eqb (batteryLow z) ((1 <=? z) && (z <=? 3199))
                      && Bool.eqb (batteryGood z) (3200 <=? z)) = true)
    by (vm_compute; reflexivity).
  pose proof (allBelow_spec _ (Z.to_nat 8192) mV Hall ltac:(lia)) as H.
  cbv beta in H. apply andb_prop in H as [H1 H2].
  split; now apply Bool.eqb_prop.
Qed.

Lemma battery_threshold_witness :
  batteryLow 3200 = false /\ batteryGood 3200 = true.
Proof.
  apply (battery_threshold 3200). lia.
Defined.

Lemma sleepEnding_cases (s : Settings) (rtc : Z * option tm) (c : Clock) :
  (SleepDuration s = 0 /\ sleepEnding s rtc c = SleepTrap) \/
  (SleepDuration s <> 0 /\
   exists t, BeginSleep s (fst rtc) (snd rtc) c = Some t /\
             sleepEnding s rtc c = DeepSleep t).
Proof.
  unfold sleepEnding, BeginSleep.
  destruct (Z.eqb_spec (SleepDuration s) 0) as [E|E].
  - left. split; [exact E|reflexivity].
  - right. split; [exact E|]. eexists. split; reflexivity.
Qed.




(** X7.  Every boot comes to an end.  [setup] hands over to setup mode
    exactly when buttons 2 and 4 are both held.  Otherwise it reaches
    [BeginSleep], having pushed at most one screen and issued at most two
    weather requests, and there it arms the timer and enters deep sleep
    exactly when the refresh interval is not 0, and traps in the division
    exactly when it is 0.  Requests are issued exactly on the boots that
    reach the wake-hours check inside the wake window; the weather screen
    is drawn exactly when, on such a boot, the first or the second request
    succeeds; and the panel is left untouched exactly on a repeated
    low-battery boot and on a boot outside the wake window. *)
Theorem wake_cycle_outcome (fuel : nat) (env : Env) (flag : bool) :
  (2 <= fuel)%nat ->
  let a1 := obtainWeatherData (net env) bootWorld in
  let a2 := obtainWeatherData (net env) (snd a1) in
  exists c,
    setup fuel env flag = Some c /\
    (length (panels c) <= 1)%nat /\
    (http_gets (world c) <= 2)%nat /\
    (ending c = EnterSetupMode <->
       button2Pressed env && button4Pressed env = true) /\
    ((exists SleepTimer, ending c = DeepSleep SleepTimer) <->
       button2Pressed env && button4Pressed env = false /\
       SleepDuration (bootSettings env) <> 0) /\
    (ending c = SleepTrap <->
       button2Pressed env && button4Pressed env = false /\
       SleepDuration (bootSettings env) = 0) /\
    ((0 < http_gets (world c))%nat <->
       reachesWakeCheck env && wakeUp env = true) /\
    (panels c = [Shown WeatherScreen] <->
       reachesWakeCheck env && wakeUp env = true /\ (fst a1 = 0 \/ fst a2 = 0)) /\
    (panels c = [] <->
       button2Pressed env && button4Pressed env = false /\
       (batteryLow (batVoltage env) && flag = true \/
        reachesWakeCheck env && negb (wakeUp env) = true)).
Proof.
  intros Hf a1 a2. unfold setup, reachesWakeCheck, wakeUp, bootSettings.
  set (settings := fst (initSettings (prefs env))).
  assert (Hend : forall c,
            (sleepEnding settings (rtcSleep env) c = EnterSetupMode <-> false = true) /\
            ((exists t, sleepEnding settings (rtcSleep env) c = DeepSleep t) <->
               false = false /\ SleepDuration settings <> 0) /\
            (sleepEnding settings (rtcSleep env) c = SleepTrap <->
               false = false /\ SleepDuration settings = 0)).
  { intros c.
    destruct (sleepEnding_cases settings (rtcSleep env) c)
      as [[Hz ->]|[Hnz (t & _ & ->)]].
    - split; [split; discriminate|]. split.
      + split; [intros [t Ht]; discriminate|intros [_ H]; contradiction].
      + split; auto.
    - split; [split; discriminate|]. split.
      + split; [auto|intros _; now exists t].
      + split; [discriminate|intros [_ H]; contradiction]. }
  clearbody settings.
  destruct (button2Pressed env && button4Pressed env) eqn:Hb.
  { eexists. split; [reflexivity|]. cbn [panels world ending length http_gets bootWorld].
    split; [lia|]. split; [lia|]. split; [tauto|].
    split; [split; [intros [t Ht]; discriminate|intros [H _]; discriminate]|].
    split; [split; [discriminate|intros [H _]; discriminate]|].
    cbn. repeat split; intros; try lia; try discriminate; intuition discriminate. }
  destruct (batteryLow (batVoltage env)) eqn:Hl.
  { eexists. split; [reflexivity|]. cbn [panels world ending length http_gets bootWorld].
    destruct (Hend bootClock) as (E1 & E2 & E3).
    split; [destruct flag; cbn; lia|]. split; [lia|].
    split; [exact E1|]. split; [exact E2|]. split; [exact E3|].
    destruct flag; cbn; repeat split; intros; try lia; try discriminate;
      intuition (try discriminate; try lia). }
  destruct (wifiConnected env) eqn:Hw.
  2:{ eexists. split; [reflexivity|]. cbn [panels world ending length http_gets bootWorld].
      destruct (Hend bootClock) as (E1 & E2 & E3).
      split; [lia|]. split; [lia|].
      split; [exact E1|]. split; [exact E2|]. split; [exact E3|].
      cbn. repeat split; intros; try lia; try discriminate;
        intuition (try discriminate; try lia). }
  destruct (locationResult env =? 1) eqn:L1.
  { eexists. split; [reflexivity|]. cbn [panels world ending length http_gets bootWorld].
    destruct (Hend bootClock) as (E1 & E2 & E3).
    split; [lia|]. split; [lia|].
    split; [exact E1|]. split; [exact E2|]. split; [exact E3|].
    cbn. repeat split; intros; try lia; try discriminate;
      intuition (try discriminate; try lia). }
  destruct (locationResult env =? 2) eqn:L2.
  { eexists. split; [reflexivity|]. cbn [panels world ending length http_gets bootWorld].
    destruct (Hend bootClock) as (E1 & E2 & E3).
    split; [lia|]. split; [lia|].
    split; [exact E1|]. split; [exact E2|]. split; [exact E3|].
    cbn. repeat split; intros; try lia; try discriminate;
      intuition (try discriminate; try lia). }
  cbv zeta.
  destruct (fst (wakeDecision settings
                   (fst (rtcWake env)) (snd (rtcWake env)) bootClock)) eqn:Hwd.
  2:{ eexists. split; [reflexivity|]. cbn [panels world ending length http_gets bootWorld].
      match goal with |- context [sleepEnding _ _ ?c] =>
        destruct (Hend c) as (E1 & E2 & E3) end.
      split; [lia|]. split; [lia|].
      split; [exact E1|]. split; [exact E2|]. split; [exact E3|].
      cbn. repeat split; intros; try lia; try discriminate;
        intuition (try discriminate; try lia). }
  rewrite (fetchLoop_two (net env) bootWorld fuel Hf). cbv zeta.
  fold a1. fold a2.
  pose proof (obtainWeatherData_gets (net env) bootWorld) as G1.
  pose proof (obtainWeatherData_gets (net env) (snd a1)) as G2.
  fold a1 in G1, G2. fold a2 in G2. rewrite G1 in G2.
  change (http_gets bootWorld) with 0%nat in G1.
  change (http_gets bootWorld) with 0%nat in G2.
  destruct (Z.eqb_spec (fst a1) 0) as [E1|E1].
  { eexists. split; [reflexivity|]. cbn [panels world ending length].
    rewrite G1.
    match goal with |- context [sleepEnding _ _ ?c] =>
      destruct (Hend c) as (F1 & F2 & F3) end.
    split; [lia|]. split; [lia|].
    split; [exact F1|]. split; [exact F2|]. split; [exact F3|].
    cbn. repeat split; intros; try lia; try discriminate;
      intuition (try discriminate; try lia). }
  destruct (Z.eqb_spec (fst a2) 0) as [E2|E2].
  { eexists. split; [reflexivity|]. cbn [panels world ending length].
    rewrite G2.
    match goal with |- context [sleepEnding _ _ ?c] =>
      destruct (Hend c) as (F1 & F2 & F3) end.
    split; [lia|]. split; [lia|].
    split; [exact F1|]. split; [exact F2|]. split; [exact F3|].
    cbn. repeat split; intros; try lia; try discriminate;
      intuition (try discriminate; try lia). }
  destruct (fst a2 =? 1);
    (eexists; split; [reflexivity|]; cbn [panels world ending length];
     rewrite G2;
     match goal with |- context [sleepEnding _ _ ?c] =>
       destruct (Hend c) as (F1 & F2 & F3) end;
     (split; [lia|]); (split; [lia|]);
     (split; [exact F1|]); (split; [exact F2|]); (split; [exact F3|]);
     cbn; repeat split; intros; try lia; try discriminate;
     intuition (try discriminate; try lia)).
Qed.

Lemma wake_cycle_outcome_witness :
  exists c,
    setup 2 rejectedKeyEnv false = Some c /\
    (length (panels c) <= 1)%nat /\
    (http_gets (world c) <= 2)%nat /\
    (ending c = EnterSetupMode <-> false = true) /\
    ((exists SleepTimer, ending c = DeepSleep SleepTimer) <->
       false = false /\ 60 <> 0) /\
    (ending c = SleepTrap <-> false = false /\ 60 = 0) /\
    ((0 < http_gets (world c))%nat <-> true = true) /\
    (panels c = [Shown WeatherScreen] <-> true = true /\ (1 = 0 \/ 1 = 0)) /\
    (panels c = [] <-> false = false /\ (false = true \/ false = true)).
Proof.
  apply (wake_cycle_outcome 2 rejectedKeyEnv false). lia.
Defined.

(** ** Decoding again *)

Lemma decodeLoop_idem (body : json -> Forecast_record -> Forecast_record)
  (capacity : nat) (src : json) (arr : list Forecast_record) :
  (forall j c, body j (body j c) = body j c) ->
  decodeLoop body capacity src capacity 0
    (decodeLoop body capacity src capacity 0 arr)
  = decodeLoop body capacity src capacity 0 arr.
Proof.
  intros Hidem.
  pose proof (decodeLoop_spec body capacity src capacity 0 arr ltac:(lia)) as H1.
  pose proof (decodeLoop_spec body capacity src capacity 0
                (decodeLoop body capacity src capacity 0 arr) ltac:(lia)) as H2.
  cbv zeta in H1, H2.
  destruct H1 as (_ & Hin1 & Hout1). destruct H2 as (_ & Hin2 & Hout2).
  apply list_eq. intros i.
  destruct (Nat.lt_ge_cases i (Nat.min capacity (Json.size src))) as [Hi|Hi].
  - rewrite Hin2, Hin1 by lia.
    destruct (arr !! i); cbn; [now rewrite Hidem|reflexivity].
  - now rewrite Hout2 by lia.
Qed.

Lemma hourlyAfter_idem doc arr :
  hourlyAfter doc (hourlyAfter doc arr) = hourlyAfter doc arr.
Proof. apply decodeLoop_idem. reflexivity. Qed.

Lemma dailyAfter_idem doc arr :
  dailyAfter doc (dailyAfter doc arr) = dailyAfter doc arr.
Proof. apply decodeLoop_idem. reflexivity. Qed.

Lemma currentAfter_idem doc c :
  currentAfter doc (currentAfter doc c) = currentAfter doc c.
Proof.
  unfold currentAfter. cbv zeta.
  destruct (Json.objectIsNull (Json.member "current" doc)); [reflexivity|].
  destruct (0 <? Json.size (Json.member "daily" doc))%nat; reflexivity.
Qed.

Lemma currentAfter_setTrend doc t c :
  currentAfter doc (setTrend t c) = setTrend t (currentAfter doc c).
Proof.
  unfold currentAfter. cbv zeta.
  destruct (Json.objectIsNull (Json.member "current" doc)); [reflexivity|].
  destruct (0 <? Json.size (Json.member "daily" doc))%nat; reflexivity.
Qed.

(** The five globals after a decode, field by field. *)
Lemma DecodeWeather_fields doc g :
  DecodeWeather (Some doc) g =
    (true,
     mkGlobals
       (let c := currentAfter doc (WxConditions g) in
        if (2 <=? Json.size (Json.member "daily" doc))%nat then
          let arr := dailyAfter doc (WxDailyForecast g) in
          setTrend (pressureTrend (Pressure (nth 0 arr FR0))
                                  (Pressure (nth 1 arr FR0))) c
        else c)
       (hourlyAfter doc (WxHourlyForecast g))
       (dailyAfter doc (WxDailyForecast g))
       (if Json.objectIsNull (Json.member "current" doc) then sys_time g
        else Json.as_int (Json.member "dt" (Json.member "current" doc)))
       (if Json.objectIsNull (Json.member "current" doc) then TZ g
        else TZ (SetRTCTimeFromAPI
                   (Json.as_int (Json.member "dt" (Json.member "current" doc)))
                   (Json.int_or (Json.member "timezone_offset" doc) 0) g))).
Proof.
  unfold DecodeWeather, currentAfter, hourlyAfter, dailyAfter. cbv zeta.
  destruct (Json.objectIsNull (Json.member "current" doc));
    destruct (0 <? Json.size (Json.member "daily" doc))%nat;
    destruct (2 <=? Json.size (Json.member "daily" doc))%nat;
    reflexivity.
Qed.

(** X8.  Decoding is idempotent: a document decoded over the state that
    its own decoding produced changes nothing.  What the records, the clock
    and the trend hold after a decode is a function of the document and of
    the fields the document does not reach, never of how often the same
    reply was processed. *)
Theorem DecodeWeather_idempotent (stream : option json) (g : Globals) :
  DecodeWeather stream (snd (DecodeWeather stream g)) = DecodeWeather stream g.
Proof.
  destruct stream as [doc|]; [|reflexivity].
  rewrite (DecodeWeather_fields doc g). cbn [snd].
  rewrite DecodeWeather_fields.
  cbn [WxConditions WxHourlyForecast WxDailyForecast sys_time TZ]. cbv zeta.
  rewrite hourlyAfter_idem, !dailyAfter_idem.
  f_equal. f_equal.
  - destruct (2 <=? Json.size (Json.member "daily" doc))%nat.
    + rewrite currentAfter_setTrend, currentAfter_idem.
      now destruct (currentAfter doc (WxConditions g)).
    + apply currentAfter_idem.
  - now destruct (Json.objectIsNull (Json.member "current" doc)).
  - now destruct (Json.objectIsNull (Json.member "current" doc)).
Qed.

(** ** Forecast icons *)

(** X9.  The icon drawn for a day of the forecast strip is never the
    question mark, the mist or the sun-and-shower icon: the classifier only
    yields names the dispatcher knows.  It carries the moon exactly when the
    day's first period starts before 6 or from 18 on, snow flakes exactly
    for the snow class, lightning for the storm class and rain lines for the
    rain class, and a sun exactly in the dry classes with cloud cover up to
    25 or above 50 -- so a clear night shows moon and sun together. *)
Theorem forecast_icon_parts (d : DailyForecast) (hour : Z) :
  let parts := forecastIcon d hour in
  let snow := exceeds (totalSnowfall d) d0_5 in
  let storm := exceeds (maxPop d) d0_5 || exceeds (totalRainfall d) d2_0 in
  let rain := exceeds (maxPop d) d0_3 || exceeds (totalRainfall d) d0_5 in
  let dry := negb snow && negb storm && negb rain in
  ~ In QuestionMark parts /\ ~ In Fog parts /\
  (In Moon parts <-> ~ 6 <= hour < 18) /\
  (In SnowFlakes parts <-> snow = true) /\
  (In Lightning parts <-> negb snow && storm = true) /\
  (In RainLines parts <-> negb snow && negb storm && rain = true) /\
  (In Sun parts <->
     dry = true /\ (totalCloudCover d <= 25 \/ 50 < totalCloudCover d)) /\
  (In Cloud parts <-> ~ (dry = true /\ totalCloudCover d <= 10)).
Proof.
  cbv zeta. unfold forecastIcon, getIconFromCloudCover.
  destruct (exceeds (totalSnowfall d) d0_5);
    destruct (exceeds (maxPop d) d0_5);
    destruct (exceeds (totalRainfall d) d2_0);
    destruct (exceeds (maxPop d) d0_3);
    destruct (exceeds (totalRainfall d) d0_5);
    cbn [orb andb negb];
    destruct (Z.geb_spec hour 6); destruct (Z.ltb_spec hour 18);
    cbn [andb];
    try (destruct (Z.leb_spec (totalCloudCover d) 10);
         [|destruct (Z.leb_spec (totalCloudCover d) 25);
           [|destruct (Z.leb_spec (totalCloudCover d) 50);
             [|destruct (Z.leb_spec (totalCloudCover d) 75)]]]);
    cbn;
    repeat split; intros; try lia; try discriminate;
      intuition (try discriminate; try lia).
Qed.

Lemma forecast_icon_parts_witness :
  In Moon (forecastIcon (mkDF F32.zero F32.zero 5 1 F32.zero F32.zero F32.zero 0 0) 22).
Proof.
  apply (proj2 (proj1 (proj2 (proj2 (forecast_icon_parts
           (mkDF F32.zero F32.zero 5 1 F32.zero F32.zero F32.zero 0 0) 22))))).
  lia.
Defined.

(** ** Line wrapping *)

Lemma scanLine_spec (text : list ascii) : forall fuel p sp,
  (p <= length text)%nat ->
  (sp = 0%nat \/ (text !! sp = Some blank /\ (sp < p)%nat)) ->
  (forall j, (sp < j < p)%nat -> text !! j <> Some blank) ->
  let r := scanLine fuel text p sp in
  fst r = Nat.min (p + fuel) (length text) /\
  (snd r = 0%nat \/ (text !! snd r = Some blank /\ (snd r < fst r)%nat)) /\
  (forall j, (snd r < j < fst r)%nat -> text !! j <> Some blank).
Proof.
  induction fuel as [|fuel IH]; intros p sp Hp Hsp Hno; cbv zeta; cbn [scanLine].
  - cbn [fst snd]. split; [lia|]. split; assumption.
  - destruct (Nat.ltb_spec p (length text)) as [Hlt|Hge].
    + match goal with
      | |- context [scanLine fuel text (S p) ?s] =>
          specialize (IH (S p) s ltac:(lia))
      end.
      cbv zeta in IH.
      destruct IH as (IH1 & IH2 & IH3).
      * destruct (text !! p) as [c|] eqn:Hc;
          [|destruct Hsp as [?|[? ?]]; [now left|right; split; [assumption|lia]]].
        destruct (Ascii.eqb_spec c " ") as [->|Hne].
        -- right. split; [assumption|lia].
        -- destruct Hsp as [?|[? ?]]; [now left|right; split; [assumption|lia]].
      * intros j Hj.
        destruct (text !! p) as [c|] eqn:Hc.
        -- destruct (Ascii.eqb_spec c " ") as [->|Hne].
           ++ lia.
           ++ destruct (Nat.eq_dec j p) as [->|Hjp].
              ** rewrite Hc. intros [= E]. now apply Hne.
              ** apply Hno. lia.
        -- destruct (Nat.eq_dec j p) as [->|Hjp]; [now rewrite Hc|].
           apply Hno. lia.
      * split; [rewrite IH1; lia|]. split; assumption.
    + cbn [fst snd]. split; [lia|]. split; assumption.
Qed.

(** X10.  The lines that wrapping draws are a greedy wrapping of the
    text.  There are at most [max_lines] of them; the text is, character
    for character, the lines in order, each followed by the single blank
    the wrapping swallowed or by nothing, and then the part that was not
    drawn, which is empty whenever fewer than [max_lines] lines were
    needed.  Every line has at most [max_width] characters and is cut at
    the last blank among the first [max_width] characters before it, after
    [max_width] characters when there is no such blank, and not at all when
    the text ends within [max_width] characters. *)
Theorem wrapped_lines (max_width max_lines : nat) (text : list ascii) :
  let lines := drawMultiLnString max_width max_lines text in
  (length lines <= max_lines)%nat /\
  Forall (fun line => (length line <= max_width)%nat) lines /\
  exists pieces rest,
    map fst pieces = lines /\
    text = joined pieces ++ rest /\
    wrapsTo max_width pieces rest /\
    ((length lines < max_lines)%nat -> rest = []).
Proof.
  cbv zeta. revert text.
  induction max_lines as [|k IH]; intros text; cbn [drawMultiLnString].
  - split; [cbn; lia|]. split; [constructor|].
    exists [], text. cbn. repeat split. lia.
  - destruct text as [|c text'] eqn:Htext.
    { split; [cbn; lia|]. split; [constructor|].
      exists [], []. cbn. repeat split. }
    assert (Hne : text <> []) by (subst; discriminate).
    rewrite <- Htext. clear Htext c text'.
    pose proof (scanLine_spec text max_width 0 0 ltac:(lia) ltac:(now left)
                  ltac:(intros; lia)) as Hscan.
    cbv zeta in Hscan.
    destruct (scanLine max_width text 0 0) as [p sp]. cbn [fst snd] in Hscan.
    destruct Hscan as (Hp & Hsp & Hno).
    destruct (Nat.ltb_spec p (length text)) as [Hlt|Hge].
    + destruct (Nat.ltb_spec 0 sp) as [Hpos|Hzero].
      * destruct Hsp as [?|[Hsp Hlt']]; [lia|].
        destruct (IH (drop (S sp) text))
          as (Hlen & Hall & pieces & rest & Hfst & Hjoin & Hwrap & Hdone).
        split; [cbn; lia|].
        split; [constructor; [rewrite length_take; lia|assumption]|].
        exists ((take sp text, [blank]) :: pieces), rest.
        split; [cbn [map fst]; now rewrite Hfst|].
        split.
        { unfold joined. cbn [map concat fst snd]. fold (joined pieces).
          rewrite <- !app_assoc, <- Hjoin. cbn [app].
          rewrite <- (drop_S text blank sp Hsp). now rewrite take_drop. }
        split.
        { cbn [wrapsTo fst snd]. split; [|exact Hwrap].
          rewrite <- Hjoin. left. split; [reflexivity|].
          rewrite length_take, length_drop.
          split; [lia|]. split; [|lia].
          apply Forall_lookup. intros i x Hix.
          apply lookup_take_Some in Hix as [Hix Hi].
          rewrite lookup_drop in Hix.
          intros ->. apply (Hno (S sp + i)%nat); [lia|exact Hix]. }
        cbn [length]. intros H. apply Hdone. lia.
      * destruct (IH (drop p text))
          as (Hlen & Hall & pieces & rest & Hfst & Hjoin & Hwrap & Hdone).
        split; [cbn; lia|].
        split; [constructor; [rewrite length_take; lia|assumption]|].
        exists ((take p text, []) :: pieces), rest.
        split; [cbn [map fst]; now rewrite Hfst|].
        split.
        { unfold joined. cbn [map concat fst snd]. fold (joined pieces).
          rewrite app_nil_r, <- app_assoc, <- Hjoin. now rewrite take_drop. }
        split.
        { cbn [wrapsTo fst snd]. split; [|exact Hwrap].
          rewrite <- Hjoin. right. left. split; [reflexivity|].
          rewrite length_take. split; [lia|]. split.
          - apply Forall_lookup. intros i x Hix.
            rewrite lookup_drop in Hix.
            apply lookup_take_Some in Hix as [Hix Hi].
            intros ->. apply (Hno (1 + i)%nat); [lia|exact Hix].
          - intros Hnil. apply (f_equal length) in Hnil.
            rewrite length_drop in Hnil. cbn in Hnil. lia. }
        cbn [length]. intros H. apply Hdone. lia.
    + split; [cbn; lia|].
      split; [constructor; [lia|constructor]|].
      exists [(text, [])], [].
      split; [reflexivity|].
      split; [unfold joined; cbn; now rewrite !app_nil_r|].
      split; [|reflexivity].
      cbn [wrapsTo fst snd]. split; [|exact I].
      right. right. unfold joined. cbn.
      split; [reflexivity|]. split; [exact Hne|]. split; [lia|reflexivity].
Qed.

Lemma wrapped_lines_witness :
  let lines := drawMultiLnString 5 2 (list_ascii_of_string "hello world") in
  (length lines <= 2)%nat /\
  Forall (fun line => (length line <= 5)%nat) lines /\
  exists pieces rest,
    map fst pieces = lines /\
    list_ascii_of_string "hello world" = joined pieces ++ rest /\
    wrapsTo 5 pieces rest /\
    ((length lines < 2)%nat -> rest = []).
Proof.
  apply (wrapped_lines 5 2 (list_ascii_of_string "hello world")).
Defined.

(** ** WiFi signal *)

Lemma wrap16_id z : -32768 <= z <= 32767 -> wrap16 z = z.
Proof.
  intros H. unfold wrap16. rewrite Z.mod_small by lia. lia.
Qed.

Lemma barLevel_step (k : nat) (prev : Z) :
  (k <= 4)%nat -> barLevel (-100 + 20 * Z.of_nat k) prev = 4 * (Z.of_nat k + 1).
Proof.
  intros Hk.
  destruct k as [|[|[|[|[|k]]]]]; try lia; reflexivity.
Qed.

Lemma wifiLoop_spec (x y rssi : Z) :
  -30000 <= x <= 30000 -> -30000 <= y <= 30000 ->
  CInt.INT_MIN <= rssi <= -1 ->
  forall fuel k prev,
    (k <= 5)%nat ->
    (Z.to_nat ((rssi + 100) / 20 + 1) - k <= fuel)%nat ->
    wifiLoop fuel x y rssi (-100 + 20 * Z.of_nat k) prev (Z.of_nat k + 1) =
    map (signalBar x y) (seq k (Z.to_nat ((rssi + 100) / 20 + 1) - k)).
Proof.
  intros Hx Hy Hr. unfold CInt.INT_MIN in Hr.
  induction fuel as [|fuel IH]; intros k prev Hk Hfuel.
  - cbn [wifiLoop].
    replace (Z.to_nat ((rssi + 100) / 20 + 1) - k)%nat with 0%nat by lia.
    now destruct (_ <=? _).
  - cbn [wifiLoop].
    destruct (Z.leb_spec (-100 + 20 * Z.of_nat k) rssi) as [Hle|Hgt].
    + assert (Hq : Z.of_nat k <= (rssi + 100) / 20)
        by (apply Z.div_le_lower_bound; lia).
      assert (Hk4 : (k <= 4)%nat) by lia.
      replace (Z.to_nat ((rssi + 100) / 20 + 1) - k)%nat
        with (S (Z.to_nat ((rssi + 100) / 20 + 1) - S k))%nat by lia.
      cbn [seq map]. cbv zeta.
      rewrite (barLevel_step k prev Hk4).
      replace (rssi =? 0) with false by (symmetry; apply Z.eqb_neq; lia).
      cbn [negb]. f_equal.
      * unfold fillRect, signalBar, CInt.add, CInt.sub, CInt.mul.
        unwrap. rewrite !wrap16_id by lia.
        f_equal; lia.
      * unfold CInt.add. unwrap.
        replace (-100 + 20 * Z.of_nat k + 20) with (-100 + 20 * Z.of_nat (S k))
          by lia.
        replace (Z.of_nat k + 1 + 1) with (Z.of_nat (S k) + 1) by lia.
        apply IH; lia.
    + assert (Hq : (rssi + 100) / 20 + 1 <= Z.of_nat k).
      { destruct (Z_lt_ge_dec (rssi + 100) 0).
        - assert ((rssi + 100) / 20 < 0) by (apply Z.div_lt_upper_bound; lia).
          lia.
        - assert ((rssi + 100) / 20 < Z.of_nat k)
            by (apply Z.div_lt_upper_bound; lia).
          lia. }
      replace (Z.to_nat ((rssi + 100) / 20 + 1) - k)%nat with 0%nat by lia.
      reflexivity.
Qed.

(** X11.  With the WiFi connected at a strength from -100 to -1 dBm the
    icon has [1 + (rssi + 100) / 20] filled bars, between one and five:
    each bar stands 8 pixels right of the one before, the [k]-th is [4 k]
    pixels high, and the strength in dB is written after them.  Below
    -100 dBm no bar is drawn at all. *)
Theorem wifi_signal_bars (x y rssi : Z) :
  -30000 <= x <= 30000 -> -30000 <= y <= 30000 ->
  CInt.INT_MIN <= rssi <= -1 ->
  let bars := Z.to_nat ((rssi + 100) / 20 + 1) in
  drawWiFiSignal x y rssi =
    map (signalBar x y) (seq 0 bars)
    ++ [DrawString (x + 50) (y - 14) (String.append (string_of_int rssi) " dB")]
  /\ (bars <= 5)%nat
  /\ (-100 <= rssi -> (1 <= bars)%nat)
  /\ (rssi < -100 -> bars = 0%nat).
Proof.
  intros Hx Hy Hr. cbv zeta.
  pose proof (wifiLoop_spec x y rssi Hx Hy Hr
                (Z.to_nat ((rssi + 100) / 20 + 1)) 0 0 ltac:(lia) ltac:(lia))
    as Hloop.
  change (-100 + 20 * Z.of_nat 0) with (-100) in Hloop.
  change (Z.of_nat 0 + 1) with 1 in Hloop.
  rewrite Nat.sub_0_r in Hloop.
  unfold CInt.INT_MIN in Hr.
  unfold drawWiFiSignal. rewrite Hloop.
  replace (rssi =? 0) with false by (symmetry; apply Z.eqb_neq; lia).
  unfold drawString, CInt.add, CInt.sub.
  unwrap. rewrite !wrap16_id by lia.
  split; [reflexivity|].
  assert ((rssi + 100) / 20 < 5) by (apply Z.div_lt_upper_bound; lia).
  split; [lia|]. split.
  - intros Hlo. assert (0 <= (rssi + 100) / 20) by (apply Z.div_pos; lia). lia.
  - intros Hlo.
    assert ((rssi + 100) / 20 < 0) by (apply Z.div_lt_upper_bound; lia). lia.
Qed.

Lemma wifi_signal_bars_witness :
  drawWiFiSignal 2 535 (-67) =
    [FillRect 10 531 6 4; FillRect 18 527 6 8;
     DrawString 52 521 "-67 dB"].
Proof.
  destruct (wifi_signal_bars 2 535 (-67)) as [H _];
    [lia | lia | unfold CInt.INT_MIN; lia |].
  exact H.
Defined.

(** ** Graph: which hours are shown and labelled *)

Lemma selectLoop_window now forecast : forall i valid,
  (length valid <= 24)%nat ->
  Graph.selectLoop now (now + Graph.HOURS_TO_SHOW * Graph.SECONDS_PER_HOUR)
                   forecast i valid
  = take 24 (valid ++ windowFrom now i forecast).
Proof.
  induction forecast as [|f rest IH]; intros i valid Hlen.
  - cbn [Graph.selectLoop windowFrom]. rewrite app_nil_r.
    now rewrite take_ge by lia.
  - cbn [Graph.selectLoop windowFrom].
    destruct (Nat.ltb_spec (length valid) 24) as [Hlt|Hge].
    + fold (inWindow now f). destruct (inWindow now f).
      * rewrite IH by (rewrite length_app; cbn; lia).
        now rewrite <- app_assoc.
      * now apply IH.
    + rewrite take_app_le by lia. now rewrite take_ge by lia.
Qed.

(** X12.  The hours the graph shows are the first 24 records, in order of
    position, whose time lies from one hour before now to 24 hours after
    it; a later record is not considered once 24 are found, and an earlier
    one inside the window is never skipped.  When no record lies in the
    window the graph falls back to the first record alone. *)
Theorem graph_selection (now : Z) (forecast : list Forecast_record) :
  let window := take 24 (windowFrom now 0 forecast) in
  Graph.selectForecasts now forecast =
    match window, forecast with
    | [], _ :: _ => [0%nat]
    | _, _ => window
    end.
Proof.
  cbv zeta. unfold Graph.selectForecasts. cbv zeta.
  rewrite selectLoop_window by (cbn; lia). cbn [app].
  destruct (take 24 (windowFrom now 0 forecast)) as [|v vs];
    destruct forecast; reflexivity.
Qed.

Lemma labelLoop_spec (n L : Z) :
  1 <= L -> 0 <= n <= 24 -> L <= 24 ->
  forall fuel j,
    (Z.to_nat ((n + L - 1) / L) - j <= fuel)%nat ->
    Z.of_nat j * L <= n + L ->
    labelLoop fuel n L (Z.of_nat j * L) =
    map (fun k => Z.of_nat k * L)
        (seq j (Z.to_nat ((n + L - 1) / L) - j)).
Proof.
  intros HL Hn HL'.
  induction fuel as [|fuel IH]; intros j Hfuel Hj; cbn [labelLoop].
  - replace (Z.to_nat ((n + L - 1) / L) - j)%nat with 0%nat by lia.
    now destruct (_ <? _).
  - destruct (Z.ltb_spec (Z.of_nat j * L) n) as [Hlt|Hge].
    + assert (Hc : Z.of_nat j + 1 <= (n + L - 1) / L).
      { apply Z.div_le_lower_bound; [lia|]. nia. }
      replace (Z.to_nat ((n + L - 1) / L) - j)%nat
        with (S (Z.to_nat ((n + L - 1) / L) - S j))%nat by lia.
      cbn [seq map]. f_equal.
      unfold CInt.add. rewrite wrap32_id by int_range.
      replace (Z.of_nat j * L + L) with (Z.of_nat (S j) * L) by lia.
      apply IH; [lia|nia].
    + assert (Hc : (n + L - 1) / L <= Z.of_nat j).
      { apply Z.lt_succ_r. apply Z.div_lt_upper_bound; [lia|]. nia. }
      replace (Z.to_nat ((n + L - 1) / L) - j)%nat with 0%nat by lia.
      reflexivity.
Qed.

(** X13.  The time axis labels every [L]-th of the [n] hours shown,
    starting with the first, where [L] is a quarter of [n] rounded down, or
    1 for fewer than four hours.  That makes [ceil (n / L)] labels: one per
    hour below four hours, and from four hours on never fewer than four nor
    more than seven -- exactly four only if [n] is 4, 8, 12, ... *)
Theorem time_axis_labels (n : Z) :
  1 <= n <= 24 ->
  let L := labelInterval n in
  let count := (n + L - 1) / L in
  labelIndices n = map (fun k => Z.of_nat k * L) (seq 0 (Z.to_nat count)) /\
  (n < 4 -> L = 1 /\ count = n) /\
  (4 <= n -> L = n / 4 /\ 4 <= count <= 7 /\ (count = 4 <-> n mod 4 = 0)).
Proof.
  intros Hn. cbv zeta.
  assert (HL : labelInterval n = if n <? 4 then 1 else n / 4).
  { unfold labelInterval. cbv zeta.
    destruct (Z.gtb_spec n 0); [|lia].
    unfold CInt.div. rewrite Z.quot_div_nonneg by lia.
    assert (0 <= n / 4 <= 6) by (Z.to_euclidean_division_equations; lia).
    rewrite wrap32_id by int_range.
    destruct (Z.ltb_spec n 4).
    - rewrite Z.div_small by lia. reflexivity.
    - destruct (Z.ltb_spec (n / 4) 1); [|reflexivity].
      Z.to_euclidean_division_equations. lia. }
  assert (HLr : 1 <= labelInterval n <= 6).
  { rewrite HL. destruct (Z.ltb_spec n 4); [lia|].
    Z.to_euclidean_division_equations. lia. }
  split.
  - unfold labelIndices.
    pose proof (labelLoop_spec n (labelInterval n) ltac:(lia) ltac:(lia)
                  ltac:(lia) (Z.to_nat n) 0) as H.
    change (Z.of_nat 0 * labelInterval n) with 0 in H.
    rewrite Nat.sub_0_r in H. apply H; [|lia].
    assert ((n + labelInterval n - 1) / labelInterval n <= n); [|lia].
    apply Z.div_le_upper_bound; [lia|]. nia.
  - rewrite HL. split.
    + intros Hlt. destruct (Z.ltb_spec n 4); [|lia].
      split; [reflexivity|]. now rewrite Z.div_1_r, Z.add_simpl_r.
    + intros Hge. destruct (Z.ltb_spec n 4); [lia|].
      split; [reflexivity|].
      assert (Hcases :
        n = 4 \/ n = 5 \/ n = 6 \/ n = 7 \/ n = 8 \/ n = 9 \/ n = 10 \/
        n = 11 \/ n = 12 \/ n = 13 \/ n = 14 \/ n = 15 \/ n = 16 \/ n = 17 \/
        n = 18 \/ n = 19 \/ n = 20 \/ n = 21 \/ n = 22 \/ n = 23 \/ n = 24)
        by lia.
      repeat (destruct Hcases as [->|Hcases]; [vm_compute; intuition congruence|]).
      subst n. vm_compute. intuition congruence.
Qed.

Lemma time_axis_labels_witness :
  labelIndices 23 = [0; 5; 10; 15; 20].
Proof.
  destruct (time_axis_labels 23) as [H _]; [lia|]. exact H.
Defined.

(** ** Scheduling under the settings a device can hold *)

Lemma BeginSleep_value (s : Settings) (now : Z) (timeinfo : option tm) (c : Clock) :
  1 <= SleepDuration s <= 1439 ->
  let c' := snd (UpdateLocalTime now timeinfo c) in
  0 <= CurrentMin c' <= 59 -> 0 <= CurrentSec c' <= 60 ->
  BeginSleep s now timeinfo c =
    Some ((SleepDuration s - CurrentMin c' mod SleepDuration s) * 60
          - CurrentSec c' + 30).
Proof.
  intros HR c' Hm Hsec. unfold BeginSleep. fold c'.
  destruct (Z.eqb_spec (SleepDuration s) 0) as [H0|_]; [lia|].
  unfold CInt.rem. rewrite Z.rem_mod_nonneg by lia.
  pose proof (Z.mod_pos_bound (CurrentMin c') (SleepDuration s) ltac:(lia)).
  unfold Delta, CInt.add, CInt.sub, CInt.mul. unwrap. reflexivity.
Qed.

(** X14.  With settings reachable from the defaults through the save
    handler and the geocoder, going to sleep never divides by zero, and the
    timer is at least 30 s and at most the refresh interval plus 30 s.
    Without the 30 s of drift compensation the sleep ends on a whole minute
    that is a multiple of the interval, counted from the top of the current
    hour.  At the top of an hour, and with a clock that was never set, the
    device sleeps one full interval. *)
Theorem sleep_timer_bounds (s : Settings) (now : Z) (timeinfo : option tm)
  (c : Clock) :
  Setup.reachable s ->
  let c' := snd (UpdateLocalTime now timeinfo c) in
  0 <= CurrentMin c' <= 59 -> 0 <= CurrentSec c' <= 60 ->
  exists SleepTimer,
    BeginSleep s now timeinfo c = Some SleepTimer /\
    30 <= SleepTimer <= 60 * SleepDuration s + 30 /\
    (60 * CurrentMin c' + CurrentSec c' + (SleepTimer - 30))
      mod (60 * SleepDuration s) = 0 /\
    (CurrentMin c' = 0 -> CurrentSec c' = 0 ->
     SleepTimer = 60 * SleepDuration s + 30).
Proof.
  intros Hreach c' Hm Hsec.
  destruct (reachable_ok s Hreach) as (HR & _).
  eexists. split; [apply BeginSleep_value; assumption|]. fold c'.
  pose proof (Z.mod_pos_bound (CurrentMin c') (SleepDuration s) ltac:(lia)).
  split; [nia|].
  split; [|intros -> ->; rewrite Z.mod_0_l by lia; lia].
  replace (60 * CurrentMin c' + CurrentSec c' +
           ((SleepDuration s - CurrentMin c' mod SleepDuration s) * 60
            - CurrentSec c' + 30 - 30))
    with ((CurrentMin c' / SleepDuration s + 1) * (60 * SleepDuration s)).
  - apply Z.mod_mul. lia.
  - pose proof (Z.div_mod (CurrentMin c') (SleepDuration s) ltac:(lia)). nia.
Qed.

Lemma sleep_timer_bounds_witness :
  exists SleepTimer,
    BeginSleep defaultSettings 1700000000 (Some (mkTm 45 23 14 1 0)) bootClock
      = Some SleepTimer /\
    30 <= SleepTimer <= 60 * 60 + 30 /\
    (60 * 23 + 45 + (SleepTimer - 30)) mod (60 * 60) = 0 /\
    (23 = 0 -> 45 = 0 -> SleepTimer = 60 * 60 + 30).
Proof.
  apply (sleep_timer_bounds defaultSettings 1700000000
           (Some (mkTm 45 23 14 1 0)) bootClock).
  - apply Setup.reach_default.
  - simpl. lia.
  - simpl. lia.
Defined.

(** X15.  With reachable settings the wake window never spans midnight:
    once the clock is set, the device fetches exactly when wake hours are
    unrestricted (stop hour 24) or the local hour lies from the start hour
    to the stop hour, both included.  The branch of [setup] for a start
    hour above the stop hour is never taken. *)
Theorem reachable_wake_window (s : Settings) (c : Clock) (now : Z) (t : tm) :
  Setup.reachable s -> RTC_EPOCH <= now ->
  (fst (wakeDecision s now (Some t) c) = true <->
   SleepHour s = 24 \/ WakeupHour s <= tm_hour t <= SleepHour s) /\
  (SleepHour s <> 24 -> (WakeupHour s >? SleepHour s) = false).
Proof.
  intros Hreach Hnow.
  destruct (reachable_ok s Hreach) as (_ & _ & _ & Hwin).
  rewrite wakeDecision_synced by exact Hnow.
  destruct (Z.eqb_spec (SleepHour s) 24) as [E|E].
  - split; [tauto|congruence].
  - destruct Hwin as [?|Hwin]; [congruence|].
    destruct (Z.gtb_spec (WakeupHour s) (SleepHour s)); [lia|].
    split; [|reflexivity].
    destruct (Z.geb_spec (tm_hour t) (WakeupHour s));
      destruct (Z.leb_spec (tm_hour t) (SleepHour s)); cbn; split;
      intros; try discriminate; try lia; auto.
Qed.

Lemma reachable_wake_window_witness :
  (fst (wakeDecision defaultSettings 1700000000 (Some (mkTm 0 0 3 1 0)) bootClock)
     = true <-> 24 = 24 \/ 0 <= 3 <= 24) /\
  (24 <> 24 -> (0 >? 24) = false).
Proof.
  apply (reachable_wake_window defaultSettings bootClock 1700000000
           (mkTm 0 0 3 1 0)).
  - apply Setup.reach_default.
  - unfold RTC_EPOCH. lia.
Defined.

(** ** Setup form: what is accepted and what is stored *)

Section FormAccepted.

Import Setup.

Lemma flag_fst c m st : fst (flag c m st) = c || fst st.
Proof. now destruct c. Qed.

(** The error flag after all the checks of the save handler. *)
Lemma saveHandler_flag s f :
  (exists s', saveHandler s f = Saved s') <-> formValid f = true.
Proof.
  unfold saveHandler.
  set (st0 := flag _ _ (flag _ _ (flag _ _ (flag _ _ (flag _ _ _))))).
  assert (H0 : fst st0 =
    negb (negb (longer_than (f_apiKey f) 63)
          && negb (longer_than (f_ssid f) 63)
          && negb (longer_than (f_password f) 63)
          && negb (longer_than (f_location f) 127)
          && (negb (nonempty (f_units f))
              || String.eqb (f_units f) "I" || String.eqb (f_units f) "M"))).
  { unfold st0. rewrite !flag_fst. cbn [fst].
    destruct (longer_than (f_apiKey f) 63), (longer_than (f_ssid f) 63),
      (longer_than (f_password f) 63), (longer_than (f_location f) 127),
      (nonempty (f_units f)), (String.eqb (f_units f) "I"),
      (String.eqb (f_units f) "M"); reflexivity. }
  unfold formValid, hourFieldOk.
  destruct (negb (longer_than (f_apiKey f) 63)
            && negb (longer_than (f_ssid f) 63)
            && negb (longer_than (f_password f) 63)
            && negb (longer_than (f_location f) 127)
            && (negb (nonempty (f_units f))
                || String.eqb (f_units f) "I" || String.eqb (f_units f) "M"));
    cbn [negb] in H0; cbv zeta;
    destruct (nonempty (f_startHour f));
    destruct (nonempty (f_stopHour f));
    destruct (String.eqb (f_startHour f) "none");
    destruct (String.eqb (f_stopHour f) "none");
    repeat match goal with
    | |- context [(?a <? ?b) || (?c >? ?d)] =>
        destruct (Z.ltb_spec a b); destruct (Z.gtb_spec c d); cbn [orb]
    end;
    unfold flag; cbn [fst snd]; try rewrite H0; cbn [negb andb orb];
    repeat match goal with
    | |- context [?a <=? ?b] => destruct (Z.leb_spec a b); try lia
    end;
    cbn [negb andb orb];
    split; intros Hsv; try discriminate; try reflexivity;
    try (destruct Hsv; discriminate);
    eexists; reflexivity.
Qed.

End FormAccepted.

(** X16.  The save handler accepts a form exactly when the four texts fit
    their fields (63, 63, 63 and 127 characters), the units are empty, I or
    M, and each hour is empty, "none" or read by [toInt] as 0..23 for the
    start and 1..23 for the stop; the refresh interval never causes a
    rejection.  What it then stores is the submitted network name,
    password, key and location character for character, the coordinates
    reset to -181, and the language untouched. *)
Theorem form_accepted_iff (s : Settings) (f : Setup.Form) :
  ((exists s', Setup.saveHandler s f = Setup.Saved s') <-> formValid f = true) /\
  (forall s', Setup.saveHandler s f = Setup.Saved s' ->
     ssid s' = Setup.f_ssid f /\ password s' = Setup.f_password f /\
     apikey s' = Setup.f_apiKey f /\ City s' = Setup.f_location f /\
     Latitude s' = "-181"%string /\ Longitude s' = "-181"%string /\
     Language s' = Language s).
Proof.
  split; [apply saveHandler_flag|].
  intros s' Hsaved.
  assert (Hvalid : formValid f = true)
    by (apply (proj1 (saveHandler_flag s f)); now exists s').
  unfold formValid in Hvalid.
  repeat (apply andb_prop in Hvalid as [Hvalid ?]).
  repeat match goal with
  | H : negb (Setup.longer_than _ _) = true |- _ =>
      apply negb_true_iff in H; unfold Setup.longer_than in H;
      apply Nat.ltb_ge in H
  end.
  revert Hsaved. unfold Setup.saveHandler. cbv zeta.
  repeat match goal with
  | |- context [let '(_, _) := ?x in _] => destruct x
  end.
  match goal with |- context [if ?b then Setup.ValidationError _ else _] =>
    destruct b end; [discriminate|].
  intros Hsaved. injection Hsaved as <-.
  cbn [ssid password apikey City Latitude Longitude Language].
  rewrite !strncpy_fits by assumption.
  repeat split; reflexivity.
Qed.

Lemma form_accepted_iff_witness :
  let s' := mkSettings "net" "secret" "key" "Oslo" "-181" "-181" "en" "M"
                       60 8 20 SETTINGS_MAGIC in
  ssid s' = "net"%string /\ password s' = "secret"%string /\
  apikey s' = "key"%string /\ City s' = "Oslo"%string /\
  Latitude s' = "-181"%string /\ Longitude s' = "-181"%string /\
  Language s' = Language defaultSettings.
Proof.
  apply (proj2 (form_accepted_iff defaultSettings
                  (Setup.mkForm "key" "net" "secret" "Oslo" "M" "0" "8" "20"))).
  reflexivity.
Defined.

(** X17.  A form that asks for wake hours across midnight -- a numeric
    start hour not below the numeric stop hour -- is accepted, but stored
    with the stop hour replaced by the start hour: once the clock is set the
    device then fetches only during that single hour of the day. *)
Theorem window_across_midnight_collapses (s s' : Settings) (f : Setup.Form)
  (a b : Z) :
  Setup.saveHandler s f = Setup.Saved s' ->
  Setup.nonempty (Setup.f_startHour f) = true ->
  Setup.nonempty (Setup.f_stopHour f) = true ->
  String.eqb (Setup.f_startHour f) "none" = false ->
  String.eqb (Setup.f_stopHour f) "none" = false ->
  Setup.toInt (Setup.f_startHour f) = a ->
  Setup.toInt (Setup.f_stopHour f) = b ->
  b <= a ->
  WakeupHour s' = a /\ SleepHour s' = a /\
  forall c now t, RTC_EPOCH <= now ->
    (fst (wakeDecision s' now (Some t) c) = true <-> tm_hour t = a).
Proof.
  intros Hsaved Hn1 Hn2 He1 He2 Ha Hb Hle.
  destruct (saveHandler_saved s f s' Hsaved) as (_ & Hw & Hwr & Hs).
  cbv zeta in Hs. rewrite Hn1, He1, Ha in Hw. rewrite Hn2, He2, Hb in Hs.
  destruct Hs as (_ & Hbr & Hs). specialize (Hbr eq_refl eq_refl).
  specialize (Hwr Hn1).
  rewrite Hw in Hs.
  destruct (Z.eqb_spec b 24) as [|_]; [lia|].
  destruct (Z.geb_spec a b) as [_|]; [|lia].
  split; [exact Hw|]. split; [exact Hs|].
  intros c now t Hnow. rewrite wakeDecision_synced by exact Hnow.
  rewrite Hw, Hs.
  destruct (Z.eqb_spec a 24) as [|_]; [lia|].
  destruct (Z.gtb_spec a a) as [|_]; [lia|].
  destruct (Z.geb_spec (tm_hour t) a); destruct (Z.leb_spec (tm_hour t) a);
    cbn; split; intros; try discriminate; try lia; auto.
Qed.

Lemma window_across_midnight_collapses_witness :
  let s' := mkSettings "net" "secret" "key" "Oslo" "-181" "-181" "en" "M"
                       60 22 22 SETTINGS_MAGIC in
  WakeupHour s' = 22 /\ SleepHour s' = 22 /\
  forall c now t, RTC_EPOCH <= now ->
    (fst (wakeDecision s' now (Some t) c) = true <-> tm_hour t = 22).
Proof.
  apply (window_across_midnight_collapses defaultSettings _
           (Setup.mkForm "key" "net" "secret" "Oslo" "M" "0" "22" "6") 22 6);
    try reflexivity; lia.
Defined.

(** ** Wind direction *)

Lemma leb_negb_ltb x y :
  ordered x -> ordered y -> Flt.leb x y = negb (Flt.ltb y x).
Proof.
  intros Hx Hy.
  destruct (Flt.ltb y x) eqn:E; cbn [negb].
  - destruct (Flt.leb x y) eqn:E'; [|reflexivity].
    apply (leb_lexlt x y Hx Hy) in E'. apply (ltb_lexlt y x Hy Hx) in E.
    contradiction.
  - now apply not_ltb_leb.
Qed.

Lemma shr_1_nonneg mrs : 0 <= shr_m mrs -> 0 <= shr_m (shr_1 mrs).
Proof.
  destruct mrs as [m r s]. cbn [shr_m]. intros H.
  destruct m as [|[p|p|]|p]; cbn; lia.
Qed.

Lemma iter_shr_1_nonneg p : forall mrs,
  0 <= shr_m mrs -> 0 <= shr_m (SpecFloat.iter_pos shr_1 p mrs).
Proof.
  induction p as [p IH|p IH|]; intros mrs H; cbn [SpecFloat.iter_pos].
  - apply IH, IH, shr_1_nonneg, H.
  - apply IH, IH, H.
  - apply shr_1_nonneg, H.
Qed.

Lemma shr_nonneg mrs e n : 0 <= shr_m mrs -> 0 <= shr_m (fst (shr mrs e n)).
Proof.
  intros H. destruct n; cbn [shr fst]; try exact H.
  now apply iter_shr_1_nonneg.
Qed.

Lemma shr_fexp_nonneg prec emax m e l :
  0 <= m -> 0 <= shr_m (fst (shr_fexp prec emax m e l)).
Proof.
  intros H. unfold shr_fexp. apply shr_nonneg.
  destruct l as [|[]]; exact H.
Qed.

Lemma round_nearest_even_nonneg m l : 0 <= m -> 0 <= round_nearest_even m l.
Proof.
  intros H. destruct l as [|[]]; cbn; try lia.
  destruct (Z.even m); lia.
Qed.

Lemma binary_round_aux_ordered prec emax sx mx ex lx :
  0 <= mx -> ordered (binary_round_aux prec emax sx mx ex lx).
Proof.
  intros H. unfold binary_round_aux.
  pose proof (shr_fexp_nonneg prec emax mx ex lx H) as H1.
  destruct (shr_fexp prec emax mx ex lx) as [mrs' e']. cbn [fst] in H1.
  pose proof (shr_fexp_nonneg prec emax
                (round_nearest_even (shr_m mrs') (loc_of_shr_record mrs'))
                e' loc_Exact (round_nearest_even_nonneg _ _ H1)) as H2.
  destruct (shr_fexp prec emax _ e' loc_Exact) as [mrs'' e'']. cbn [fst] in H2.
  destruct (shr_m mrs'') as [|m|m]; [reflexivity| |lia].
  now destruct (e'' <=? emax - prec).
Qed.

(** Conversion between formats never makes a NaN of a number. *)
Lemma convert_ordered prec emax x : ordered x -> ordered (Flt.convert prec emax x).
Proof.
  destruct x as [s|s| |s m e]; intros H; try exact H.
  unfold Flt.convert, binary_normalize.
  destruct s; cbv [cond_Zopp Z.opp]; cbv iota; unfold binary_round;
    match goal with |- context [shl_align ?a ?b ?c] => destruct (shl_align a b c) end;
    now apply binary_round_aux_ordered.
Qed.

(** X18.  The compass label of a wind direction is "?" only for a NaN:
    every number, finite or infinite, gets one of the sixteen points.
    Directions are not reduced modulo 360: everything below 11.25, negative
    angles included, and everything from 348.75 up reads "N". *)
Theorem wind_direction_total (winddirection : spec_float) :
  (WindDegToOrdinalDirection winddirection = "?"%string
     <-> Flt.is_nan winddirection = true) /\
  (ordered winddirection ->
     In (WindDegToOrdinalDirection winddirection) compassPoints) /\
  (below winddirection (deg 1125) = true \/
   atLeast winddirection (deg 34875) = true ->
     WindDegToOrdinalDirection winddirection = "N"%string).
Proof.
  assert (Hnum : ordered winddirection ->
                 In (WindDegToOrdinalDirection winddirection) compassPoints).
  { intros Hx.
    pose proof (convert_ordered F64.prec F64.emax winddirection Hx) as Hy.
    unfold WindDegToOrdinalDirection, atLeast, below.
    fold (F64.of_float winddirection) in Hy.
    set (y := F64.of_float winddirection) in *.
    rewrite !(fun t Ht => leb_negb_ltb t y Ht Hy) by reflexivity.
    clearbody y.
    repeat match goal with
           | |- context [Flt.ltb y ?t] =>
               destruct (Flt.ltb y t); cbn [negb andb orb]
           end;
      cbn; tauto. }
  split; [|split; [exact Hnum|]].
  - split.
    + intros Hq. destruct (Flt.is_nan winddirection) eqn:E; [reflexivity|].
      specialize (Hnum E). rewrite Hq in Hnum. cbn in Hnum.
      repeat (destruct Hnum as [Hnum|Hnum]; [discriminate|]). contradiction.
    + destruct winddirection; try discriminate. reflexivity.
  - intros H. unfold WindDegToOrdinalDirection.
    destruct H as [-> | ->]; [now rewrite orb_true_r|reflexivity].
Qed.

Lemma wind_direction_total_witness :
  In (WindDegToOrdinalDirection (f32_lit 2025 1)) compassPoints.
Proof.
  apply (proj1 (proj2 (wind_direction_total (f32_lit 2025 1)))).
  reflexivity.
Defined.

(** ** Request parameters *)

Lemma length_append_string (a b : string) :
  String.length (String.append a b) = (String.length a + String.length b)%nat.
Proof. induction a as [|c a IH]; cbn; [reflexivity|now rewrite IH]. Qed.

Lemma get_append_right (a b : string) (k : nat) :
  String.get (String.length a + k) (String.append a b) = String.get k b.
Proof. induction a as [|c a IH]; cbn; [reflexivity|exact IH]. Qed.

Lemma substring_append_right (a b : string) (m : nat) :
  substring (String.length a) m (String.append a b) = substring 0 m b.
Proof. induction a as [|c a IH]; cbn; [reflexivity|exact IH]. Qed.

Lemma substring_append_left (v r : string) :
  substring 0 (String.length v) (String.append v r) = v.
Proof.
  induction v as [|c v IH]; cbn.
  - now destruct r.
  - now rewrite IH.
Qed.

Lemma append_assoc_string (a b c : string) :
  String.append (String.append a b) c = String.append a (String.append b c).
Proof. induction a as [|d a IH]; cbn; [reflexivity|now rewrite IH]. Qed.

Lemma get_append_both (a w x : string) :
  String.get (String.length a + String.length w)
             (String.append a (String.append w x)) = String.get 0 x.
Proof.
  rewrite get_append_right.
  rewrite <- (Nat.add_0_r (String.length w)). apply get_append_right.
Qed.

Lemma scanValue_stops (a rest : string) (t : ascii) :
  endsValue t = true ->
  forall k w fuel,
    anyEndsValue k = false ->
    (String.length k <= fuel)%nat ->
    scanValue fuel
      (String.append a (String.append w (String.append k (String t rest))))
      (String.length a + String.length w)
    = (String.length a + String.length w + String.length k)%nat.
Proof.
  intros Ht. induction k as [|c k IH]; intros w fuel Hk Hfuel.
  - cbn [String.length String.append]. rewrite Nat.add_0_r.
    destruct fuel as [|fuel]; [reflexivity|].
    cbn [scanValue]. unfold charAt. rewrite get_append_both.
    cbn [String.get]. rewrite Ht. cbn [negb]. now rewrite andb_false_r.
  - destruct fuel as [|fuel]; [cbn in Hfuel; lia|].
    cbn [anyEndsValue] in Hk. apply orb_false_elim in Hk as [Hc Hk].
    cbn [scanValue]. unfold charAt. rewrite get_append_both.
    cbn [String.append String.get]. rewrite Hc. cbn [negb]. rewrite andb_true_r.
    destruct (Nat.ltb_spec (String.length a + String.length w)
                (String.length
                   (String.append a
                      (String.append w (String c (String.append k (String t rest)))))))
      as [_|Hge].
    + replace (S (String.length a + String.length w))
        with (String.length a
              + String.length (String.append w (String c EmptyString)))%nat
        by (rewrite length_append_string; cbn; lia).
      replace (String.append w (String c (String.append k (String t rest))))
        with (String.append (String.append w (String c EmptyString))
                            (String.append k (String t rest)))
        by (now rewrite append_assoc_string).
      rewrite IH by (cbn in Hfuel; (assumption || lia)).
      rewrite length_append_string. cbn. lia.
    + rewrite !length_append_string in Hge. cbn in Hge. lia.
Qed.

Lemma replaceFrom_absent (find replacement : string) (c : ascii) (find' : string) :
  find = String c find' ->
  forall s, occurs c s = false -> replaceFrom find replacement s 0 = s.
Proof.
  intros ->. induction s as [|d s IH]; intros Hs; [reflexivity|].
  cbn [occurs] in Hs. apply orb_false_elim in Hs as [Hd Hs].
  cbn [replaceFrom String.prefix].
  destruct (ascii_dec c d) as [->|Hne]; [now rewrite Ascii.eqb_refl in Hd|].
  now rewrite IH.
Qed.

Lemma replace_absent (c : ascii) (find' replacement s : string) :
  occurs c s = false -> replace (String c find') replacement s = s.
Proof.
  intros Hs. unfold replace.
  destruct (_ || _); [reflexivity|].
  now apply (replaceFrom_absent _ _ c find').
Qed.

Lemma urlDecode_plain (value : string) :
  occurs "+" value = false -> occurs "%" value = false ->
  urlDecode value = value.
Proof.
  intros Hplus Hpct. unfold urlDecode. cbv zeta.
  rewrite (replace_absent "+" "" " " value Hplus).
  rewrite (replace_absent "%" "20" " " value Hpct).
  rewrite (replace_absent "%" "2B" "+" value Hpct).
  rewrite (replace_absent "%" "2C" "," value Hpct).
  apply (replace_absent "%" "2F" "/" value Hpct).
Qed.

(** X19.  A parameter missing from the request reads as the empty text.
    Otherwise its value is the text from behind the first [name=] up to the
    next blank, ampersand or line end, URL-decoded; a value without plus
    and percent signs comes back unchanged. *)
Theorem extractParam_value (header paramName : string) :
  (String.index 0 (String.append paramName "=") header = None ->
   extractParam header paramName = EmptyString) /\
  (forall pre value t rest,
     header = String.append pre
                (String.append (String.append paramName "=")
                   (String.append value (String t rest))) ->
     String.index 0 (String.append paramName "=") header
       = Some (String.length pre) ->
     anyEndsValue value = false -> endsValue t = true ->
     extractParam header paramName = urlDecode value /\
     (occurs "+" value = false -> occurs "%" value = false ->
      extractParam header paramName = value)).
Proof.
  split.
  - intros H. unfold extractParam. now rewrite H.
  - intros pre value t rest Hh Hidx Hv Ht.
    assert (Hex : extractParam header paramName = urlDecode value).
    { unfold extractParam. rewrite Hidx. cbv zeta.
      set (search := String.append paramName "=") in *.
      assert (Hend : scanValue (String.length header) header
                       (String.length pre + String.length search)
                     = (String.length pre + String.length search
                        + String.length value)%nat).
      { rewrite Hh at 2.
        apply (scanValue_stops pre rest t Ht value search); [exact Hv|].
        rewrite Hh, !length_append_string. lia. }
      rewrite Hend.
      replace (String.length pre + String.length search + String.length value
               - (String.length pre + String.length search))%nat
        with (String.length value) by lia.
      rewrite Hh at 1. rewrite <- append_assoc_string.
      rewrite <- length_append_string.
      rewrite substring_append_right, substring_append_left. reflexivity. }
    split; [exact Hex|].
    intros Hplus Hpct. rewrite Hex. now apply urlDecode_plain.
Qed.

Lemma extractParam_value_witness :
  extractParam "GET /save?ssid=my+net&units=M HTTP/1.1" "units" = urlDecode "M" /\
  (occurs "+" "M" = false -> occurs "%" "M" = false ->
   extractParam "GET /save?ssid=my+net&units=M HTTP/1.1" "units" = "M"%string).
Proof.
  apply (proj2 (extractParam_value "GET /save?ssid=my+net&units=M HTTP/1.1" "units")
           "GET /save?ssid=my+net&"%string "M"%string " "%char
           "HTTP/1.1"%string); reflexivity.
Defined.

(** ** What a fetch leaves in the weather data *)

Lemma obtainWeatherData_globals net w :
  let a := obtainWeatherData net w in
  (fst a <> 0 -> globals (snd a) = globals w) /\
  (fst a = 0 ->
   exists doc,
     httpCode (net (http_gets w)) = HTTP_CODE_OK /\
     httpStream (net (http_gets w)) = Some doc /\
     globals (snd a) = snd (DecodeWeather (Some doc) (globals w))).
Proof.
  cbv zeta. unfold obtainWeatherData.
  destruct (Z.eqb_spec (httpCode (net (http_gets w))) HTTP_CODE_OK) as [E|E].
  - destruct (httpStream (net (http_gets w))) as [doc|] eqn:Es.
    + cbn. split; [congruence|]. intros _. exists doc. now rewrite E.
    + cbn. split; [reflexivity|discriminate].
  - destruct (httpCode (net (http_gets w)) =? 401); cbn;
      (split; [reflexivity|discriminate]).
Qed.

(** X20.  A failed attempt leaves no trace in the weather data: when the
    retry loop ends in failure the records, the clock and the time zone are
    what they were before it, and when it ends in success they are the
    result of decoding exactly one reply -- the first or the second of the
    cycle, a 200 with a document that parses -- over the data as they were
    before the loop. *)
Theorem failed_fetch_leaves_no_trace (net : Network) (w : World) (fuel : nat) :
  (2 <= fuel)%nat ->
  exists weatherResult Attempts w',
    fetchLoop fuel net 2 1 w = Some (weatherResult, Attempts, w') /\
    (weatherResult <> 0 -> globals w' = globals w) /\
    (weatherResult = 0 ->
     exists k doc,
       (k = http_gets w \/ k = S (http_gets w)) /\
       httpCode (net k) = HTTP_CODE_OK /\
       httpStream (net k) = Some doc /\
       globals w' = snd (DecodeWeather (Some doc) (globals w))).
Proof.
  intros Hf. rewrite (fetchLoop_two net w fuel Hf). cbv zeta.
  destruct (obtainWeatherData_globals net w) as [Hfail1 Hok1]. cbv zeta in *.
  destruct (Z.eqb_spec (fst (obtainWeatherData net w)) 0) as [E1|E1].
  - do 3 eexists. split; [reflexivity|]. split; [congruence|]. intros _.
    destruct (Hok1 E1) as (doc & Hc & Hs & Hg).
    exists (http_gets w), doc. auto.
  - destruct (obtainWeatherData_globals net (snd (obtainWeatherData net w)))
      as [Hfail2 Hok2]. cbv zeta in *.
    rewrite obtainWeatherData_gets in Hok2.
    rewrite (Hfail1 E1) in Hfail2, Hok2.
    do 3 eexists. split; [reflexivity|]. split; [exact Hfail2|].
    intros E2. destruct (Hok2 E2) as (doc & Hc & Hs & Hg).
    exists (S (http_gets w)), doc. auto.
Qed.

Lemma failed_fetch_leaves_no_trace_witness :
  exists weatherResult Attempts w',
    fetchLoop 2 always401 2 1 bootWorld = Some (weatherResult, Attempts, w') /\
    (weatherResult <> 0 -> globals w' = globals bootWorld) /\
    (weatherResult = 0 ->
     exists k doc,
       (k = http_gets bootWorld \/ k = S (http_gets bootWorld)) /\
       httpCode (always401 k) = HTTP_CODE_OK /\
       httpStream (always401 k) = Some doc /\
       globals w' = snd (DecodeWeather (Some doc) (globals bootWorld))).
Proof.
  apply (failed_fetch_leaves_no_trace always401 bootWorld 2). lia.
Defined.
